(** * Fourier / Galerkin transformer operators: configuration, construction
      and forward control flow of [libs/model.py].

    The development follows the Python source class by class.  Python values
    that travel through the configuration dictionary are modelled by [pyval];
    exceptions by [pyerr] and the error monad [result]; the instance
    attributes set by [_get_setting] by a finite map from attribute names to
    values.  A tensor is its shape together with its entries; the forward
    passes of the layers that [libs/model.py] imports from [libs/layers.py]
    and from torch are parameters of the model. *)

From Stdlib Require Import ZArith QArith Qround Reals Lra Lia List.
From stdpp Require Import base gmap strings list.

Local Open Scope Z_scope.
Local Open Scope string_scope.

(** ** Python values and exceptions *)

Inductive pyval : Type :=
| PNone
| PBool (b : bool)
| PInt (z : Z)
| PFloat (q : Q)
| PStr (s : string)
| PSeq (l : list Q)      (* a tuple or list of numbers, e.g. [upscaler_size] *)
| PObj (id : nat).       (* an opaque object, e.g. a normalizer *)

Inductive pyerr : Type :=
| AttributeError (name : string)
| TypeError
| ValueError
| AssertionError
| IndexError
| ZeroDivisionError
| RuntimeError
| NotImplementedError (msg : string).

Inductive result (A : Type) : Type :=
| Ok (a : A)
| Raise (e : pyerr).

Arguments Ok {A} a.
Arguments Raise {A} e.

Definition rbind {A B : Type} (c : result A) (k : A -> result B) : result B :=
  match c with
  | Ok a => k a
  | Raise e => Raise e
  end.

Declare Scope py_scope.
Delimit Scope py_scope with py.
Notation "'let!' x ':=' c 'in' k" := (rbind c (fun x => k))
  (at level 10, x pattern, c at level 100, k at level 200) : py_scope.
Local Open Scope py_scope.

Definition is_Ok {A : Type} (r : result A) : bool :=
  match r with Ok _ => true | Raise _ => false end.

Definition raises {A : Type} (r : result A) : Prop :=
  exists e, r = Raise e.

(** Truth value testing, [bool(v)]. *)
Definition truthy (v : pyval) : bool :=
  match v with
  | PNone => false
  | PBool b => b
  | PInt z => negb (z =? 0)%Z
  | PFloat q => negb (Qeq_bool q 0)
  | PStr s => negb (String.eqb s EmptyString)
  | PSeq l => match l with [] => false | _ => true end
  | PObj _ => true
  end.

(** [v is None]. *)
Definition is_None (v : pyval) : bool :=
  match v with PNone => true | _ => false end.

(** [v == 's'] for a string literal. *)
Definition py_eq_str (v : pyval) (s : string) : bool :=
  match v with PStr t => String.eqb t s | _ => false end.

(** [v in ['a', 'b', ...]] for a list of string literals. *)
Definition py_in_strs (v : pyval) (l : list string) : bool :=
  existsb (py_eq_str v) l.

(** [a and b]: the first operand when it is false, the second otherwise. *)
Definition py_and (a b : pyval) : pyval := if truthy a then b else a.

(** [not v]. *)
Definition py_not (v : pyval) : pyval := PBool (negb (truthy v)).

(** [v > 0]. *)
Definition py_gt0 (v : pyval) : result bool :=
  match v with
  | PInt z => Ok (0 <? z)%Z
  | PBool b => Ok b
  | PFloat q => Ok (negb (Qle_bool q 0))
  | _ => Raise TypeError
  end.

(** Numbers: [bool] is a subclass of [int]. *)
Definition as_int (v : pyval) : option Z :=
  match v with
  | PInt z => Some z
  | PBool b => Some (if b then 1 else 0)
  | _ => None
  end.

Definition as_num (v : pyval) : option Q :=
  match v with
  | PFloat q => Some q
  | _ => inject_Z <$> as_int v
  end.

Fixpoint str_repeat (n : nat) (s : string) : string :=
  match n with
  | O => EmptyString
  | S n' => s ++ str_repeat n' s
  end.

(** [a * b]: numbers multiply, an integer repeats a string or a sequence. *)
Definition py_mul (a b : pyval) : result pyval :=
  match as_int a, as_int b with
  | Some x, Some y => Ok (PInt (x * y))
  | _, _ =>
      match as_num a, as_num b with
      | Some x, Some y => Ok (PFloat (x * y))
      | _, _ =>
          match as_int a, b, a, as_int b with
          | Some n, PStr t, _, _ => Ok (PStr (str_repeat (Z.to_nat n) t))
          | Some n, PSeq l, _, _ =>
              Ok (PSeq (concat (replicate (Z.to_nat n) l)))
          | _, _, PStr t, Some n => Ok (PStr (str_repeat (Z.to_nat n) t))
          | _, _, PSeq l, Some n =>
              Ok (PSeq (concat (replicate (Z.to_nat n) l)))
          | _, _, _, _ => Raise TypeError
          end
      end
  end.

(** [a + b]. *)
Definition py_add (a b : pyval) : result pyval :=
  match as_int a, as_int b with
  | Some x, Some y => Ok (PInt (x + y))
  | _, _ =>
      match as_num a, as_num b with
      | Some x, Some y => Ok (PFloat (x + y))
      | _, _ =>
          match a, b with
          | PStr t, PStr u => Ok (PStr (t ++ u))
          | PSeq l, PSeq k => Ok (PSeq (l ++ k))
          | _, _ => Raise TypeError
          end
      end
  end.

(** [a - b]. *)
Definition py_sub (a b : pyval) : result pyval :=
  match as_int a, as_int b with
  | Some x, Some y => Ok (PInt (x - y))
  | _, _ =>
      match as_num a, as_num b with
      | Some x, Some y => Ok (PFloat (x - y))
      | _, _ => Raise TypeError
      end
  end.

(** [v == n] for an integer [n]. *)
Definition py_eq_int (v : pyval) (n : Z) : bool :=
  match as_num v with
  | Some q => Qeq_bool q (inject_Z n)
  | None => false
  end.

(** [range(v)] as the number of iterations. *)
Definition py_range (v : pyval) : result nat :=
  match as_int v with
  | Some z => Ok (Z.to_nat z)
  | None => Raise TypeError
  end.

(** ** Instance attributes *)

Definition ADDITIONAL_ATTR : list string :=
  ["normalizer"; "raw_laplacian"; "return_ortho";
   "residual_type"; "norm_type"; "boundary_condition";
   "upscaler_size"; "downscaler_size";
   "regressor_activation"; "attn_activation";
   "downscaler_activation"; "upscaler_activation";
   "encoder_dropout"; "decoder_dropout"].

(** [config[key]] on a [defaultdict(lambda: None)]. *)
Definition config_get (config : gmap string pyval) (key : string) : pyval :=
  default PNone (config !! key).

(** [self.key] for a setting [key]: the attributes kept are those the loop
    of [_get_setting] sets; a setting that was never set raises. *)
Definition getattr (attrs : gmap string pyval) (key : string) : result pyval :=
  match attrs !! key with
  | Some v => Ok v
  | None => Raise (AttributeError key)
  end.

(** What [self.config] is bound to: the dictionary built by [__init__], or,
    once the loop has set the attribute ['config'], the configured value. *)
Inductive config_attr : Type :=
| ConfigDict (d : gmap string pyval)
| ConfigValue (v : pyval).

(** [self.config[key]].  The dictionary answers [None] for a missing key.
    None, a boolean, a number, a string or a sequence cannot be subscripted
    by a string; an opaque object is taken not to support item access
    either (the normalizers do not). *)
Definition config_getitem (c : config_attr) (key : string) : result pyval :=
  match c with
  | ConfigDict d => Ok (config_get d key)
  | ConfigValue _ => Raise TypeError
  end.

(** One round of the loop, [setattr(self, key, self.config[key])]: setting
    the attribute ['config'] rebinds [self.config] itself. *)
Definition setattr_from_config (st : config_attr * gmap string pyval)
    (key : string) : result (config_attr * gmap string pyval) :=
  let! v := config_getitem (fst st) key in
  Ok (if String.eqb key "config" then ConfigValue v else fst st,
      <[key := v]> (snd st)).

(** The loop [for key in all_attr: setattr(self, key, self.config[key])]
    over [list(self.config.keys()) + ADDITIONAL_ATTR].  The keys of the
    dictionary are taken in the order of the map; the outcome does not
    depend on that order. *)
Definition set_all_attr (config : gmap string pyval)
    : result (gmap string pyval) :=
  let all_attr := ((map_to_list config).*1 ++ ADDITIONAL_ATTR)%list in
  let! st :=
    foldl (fun st key => let! st := st in setattr_from_config st key)
          (Ok (ConfigDict config, ∅)) all_attr in
  Ok (snd st).

(** ** Sub-modules built by the constructors *)

(** [nn.Dropout(p)]: torch rejects a probability outside [0, 1]. *)
Record Dropout : Type := {
  drop_p : Q;
  drop_path : list nat   (* tells apart instances with the same rate *)
}.

Definition nn_Dropout (k : nat) (p : pyval) : result Dropout :=
  let check q :=
    if Qle_bool 0 q && Qle_bool q 1
    then Ok {| drop_p := q; drop_path := [k] |}
    else Raise ValueError in
  match p with
  | PFloat q => check q
  | PInt z => check (inject_Z z)
  | PBool b => check (if b then 1%Q else 0%Q)
  | _ => Raise TypeError
  end.

Definition one_tenth : Q := (1 # 10)%Q.

(** An instance of a class that is defined outside [libs/model.py]
    ([libs/layers.py], [torch.nn]): its class name, its constructor
    arguments, and a path that tells apart the instances and deep copies a
    constructor makes with the same arguments (each owns its parameters). *)
Record Layer : Type := {
  layer_class : string;
  layer_args : list (string * pyval);
  layer_path : list nat
}.

(** The constructor argument [key] of a layer, [None] when it was not
    given. *)
Definition lookup_arg (key : string) (args : list (string * pyval)) : pyval :=
  match find (fun kv => String.eqb (fst kv) key) args with
  | Some kv => snd kv
  | None => PNone
  end.

Definition new_layer (cls : string) (args : list (string * pyval)) : Layer :=
  {| layer_class := cls; layer_args := args; layer_path := [] |}.

Definition retag_drop (i : nat) (d : Dropout) : Dropout :=
  {| drop_p := drop_p d; drop_path := i :: drop_path d |}.

(** The [i]-th instance, or the [i]-th [copy.deepcopy], of a layer. *)
Definition retag (i : nat) (l : Layer) : Layer :=
  {| layer_class := layer_class l; layer_args := layer_args l;
     layer_path := i :: layer_path l |}.

(** Modelled from the spec: [SimpleAttention.__init__] is defined in
    [libs/layers.py], outside [libs/model.py].  The spec states one failure
    condition for it that matters here, "head count not dividing hidden
    width -> construction error"; every other construction is taken to
    succeed. *)
Definition SimpleAttention_init (args : list (string * pyval))
    (n_head d_model : pyval) : result Layer :=
  match d_model, n_head with
  | PInt d, PInt h =>
      if (h =? 0)%Z then Raise ZeroDivisionError
      else if (d mod h =? 0)%Z then Ok (new_layer "SimpleAttention" args)
      else Raise AssertionError
  | _, _ => Raise TypeError
  end.

(** [torch.nn.MultiheadAttention(embed_dim, num_heads, dropout)]: torch
    refuses a width or a head count that is not positive, computes
    [head_dim = embed_dim // num_heads] and asserts
    [head_dim * num_heads == embed_dim]. *)
Definition MultiheadAttention_init (embed_dim num_heads dropout : pyval)
    : result Layer :=
  match embed_dim, num_heads with
  | PInt d, PInt h =>
      if (d <=? 0)%Z || (h <=? 0)%Z then Raise ValueError
      else if (d / h * h =? d)%Z then
        Ok (new_layer "MultiheadAttention"
              [("embed_dim", embed_dim); ("num_heads", num_heads);
               ("dropout", dropout)])
      else Raise AssertionError
  | _, _ => Raise TypeError
  end.

(** ** [FourierTransformerEncoderLayer] *)

(** Keyword arguments of [FourierTransformerEncoderLayer.__init__]. *)
Record EncoderLayerArgs : Type := {
  a_d_model : pyval;
  a_pos_dim : pyval;
  a_n_head : pyval;
  a_dim_feedforward : pyval;
  a_attention_type : pyval;
  a_pos_emb : pyval;
  a_layer_norm : pyval;
  a_attn_norm : pyval;
  a_norm_type : pyval;
  a_batch_norm : pyval;
  a_attn_weight : pyval;
  a_xavier_init : pyval;
  a_diagonal_weight : pyval;
  a_symmetric_init : pyval;
  a_residual_type : pyval;
  a_activation_type : pyval;
  a_dropout : pyval;
  a_debug : pyval
}.

(** The defaults of the signature. *)
Definition EncoderLayerDefaults : EncoderLayerArgs := {|
  a_d_model := PInt 96;
  a_pos_dim := PInt 1;
  a_n_head := PInt 2;
  a_dim_feedforward := PInt 512;
  a_attention_type := PStr "fourier";
  a_pos_emb := PBool false;
  a_layer_norm := PBool true;
  a_attn_norm := PNone;
  a_norm_type := PStr "layer";
  a_batch_norm := PBool false;
  a_attn_weight := PBool false;
  a_xavier_init := PFloat (1 # 10000);
  a_diagonal_weight := PFloat 1;
  a_symmetric_init := PBool true;
  a_residual_type := PStr "add";
  a_activation_type := PStr "relu";
  a_dropout := PFloat one_tenth;
  a_debug := PBool false
|}.

Record FourierTransformerEncoderLayer : Type := {
  el_attn : Layer;
  el_d_model : pyval;
  el_n_head : pyval;
  el_pos_dim : pyval;
  el_add_layer_norm : pyval;
  el_layer_norm1 : option Layer;
  el_layer_norm2 : option Layer;
  el_ff : Layer;
  el_dropout1 : Dropout;
  el_dropout2 : Dropout;
  el_residual_type : pyval;
  el_add_pos_emb : pyval;
  el_pos_emb : option Layer;
  el_debug : pyval;
  el_attn_weight : pyval
}.

(** The dropout rate after the two overrides at the top of [__init__]. *)
Definition encoder_layer_dropout (attention_type dropout : pyval) : pyval :=
  let dropout := if is_None dropout then PFloat one_tenth else dropout in
  if py_in_strs attention_type ["linear"; "softmax"]
  then PFloat one_tenth else dropout.

Definition FourierTransformerEncoderLayer_init (a : EncoderLayerArgs)
    : result FourierTransformerEncoderLayer :=
  let dropout := encoder_layer_dropout (a_attention_type a) (a_dropout a) in
  let attn_norm :=
    if is_None (a_attn_norm a) then py_not (a_layer_norm a)
    else a_attn_norm a in
  let norm_type :=
    if is_None (a_norm_type a) then PStr "layer" else a_norm_type a in
  let! attn :=
    SimpleAttention_init
      [("n_head", a_n_head a); ("d_model", a_d_model a);
       ("attention_type", a_attention_type a);
       ("diagonal_weight", a_diagonal_weight a);
       ("xavier_init", a_xavier_init a);
       ("symmetric_init", a_symmetric_init a);
       ("pos_dim", a_pos_dim a); ("norm", attn_norm);
       ("norm_type", norm_type); ("dropout", dropout)]
      (a_n_head a) (a_d_model a) in
  let norm k :=
    if truthy (a_layer_norm a)
    then Some (retag k (new_layer "LayerNorm"
                 [("normalized_shape", a_d_model a);
                  ("eps", PFloat (1 # 10000000))]))
    else None in
  let ff := new_layer "FeedForward"
              [("in_dim", a_d_model a);
               ("dim_feedforward", a_dim_feedforward a);
               ("batch_norm", a_batch_norm a);
               ("activation", a_activation_type a)] in
  let! dropout1 := nn_Dropout 1 dropout in
  let! dropout2 := nn_Dropout 2 dropout in
  Ok {| el_attn := attn;
        el_d_model := a_d_model a;
        el_n_head := a_n_head a;
        el_pos_dim := a_pos_dim a;
        el_add_layer_norm := a_layer_norm a;
        el_layer_norm1 := norm 1%nat;
        el_layer_norm2 := norm 2%nat;
        el_ff := ff;
        el_dropout1 := dropout1;
        el_dropout2 := dropout2;
        el_residual_type := a_residual_type a;
        el_add_pos_emb := a_pos_emb a;
        el_pos_emb :=
          if truthy (a_pos_emb a)
          then Some (new_layer "PositionalEncoding"
                       [("d_model", a_d_model a)])
          else None;
        el_debug := a_debug a;
        el_attn_weight := a_attn_weight a |}.

(** ** [TransformerEncoderLayer] *)

Record TransformerEncoderLayer : Type := {
  tl_self_attn : Layer;
  tl_linear1 : Layer;
  tl_dropout : Dropout;
  tl_linear2 : Layer;
  tl_norm1 : Layer;
  tl_norm2 : Layer;
  tl_dropout1 : Dropout;
  tl_dropout2 : Dropout;
  tl_add_layer_norm : pyval;
  tl_attn_weight : pyval;
  tl_activation : Layer
}.

(** [nn.Linear(in_features, out_features)]; torch's checks of the two
    sizes are outside the model, the layer is taken to be constructed. *)
Definition nn_Linear (k : nat) (in_features out_features : pyval) : Layer :=
  retag k (new_layer "Linear" [("in_features", in_features);
                               ("out_features", out_features)]).

Definition TransformerEncoderLayer_init
    (d_model nhead dim_feedforward dropout layer_norm attn_weight : pyval)
    : result TransformerEncoderLayer :=
  let! self_attn := MultiheadAttention_init d_model nhead dropout in
  let linear1 := nn_Linear 1 d_model dim_feedforward in
  let! dropout0 := nn_Dropout 0 dropout in
  let linear2 := nn_Linear 2 dim_feedforward d_model in
  let norm k := retag k (new_layer "LayerNorm"
                           [("normalized_shape", d_model)]) in
  let! dropout1 := nn_Dropout 1 dropout in
  let! dropout2 := nn_Dropout 2 dropout in
  Ok {| tl_self_attn := self_attn;
        tl_linear1 := linear1;
        tl_dropout := dropout0;
        tl_linear2 := linear2;
        tl_norm1 := norm 1%nat;
        tl_norm2 := norm 2%nat;
        tl_dropout1 := dropout1;
        tl_dropout2 := dropout2;
        tl_add_layer_norm := layer_norm;
        tl_attn_weight := attn_weight;
        tl_activation := new_layer "ReLU" [] |}.

(** The two kinds of encoder layer an operator can stack. *)
Inductive encoder_layer : Type :=
| EncFourier (l : FourierTransformerEncoderLayer)
| EncOfficial (l : TransformerEncoderLayer).

(** [copy.deepcopy(encoder_layer)], the [i]-th copy of the stack. *)
Definition deepcopy_encoder (i : nat) (e : encoder_layer) : encoder_layer :=
  match e with
  | EncFourier l =>
      EncFourier
        {| el_attn := retag i (el_attn l);
           el_d_model := el_d_model l;
           el_n_head := el_n_head l;
           el_pos_dim := el_pos_dim l;
           el_add_layer_norm := el_add_layer_norm l;
           el_layer_norm1 := retag i <$> el_layer_norm1 l;
           el_layer_norm2 := retag i <$> el_layer_norm2 l;
           el_ff := retag i (el_ff l);
           el_dropout1 := retag_drop i (el_dropout1 l);
           el_dropout2 := retag_drop i (el_dropout2 l);
           el_residual_type := el_residual_type l;
           el_add_pos_emb := el_add_pos_emb l;
           el_pos_emb := retag i <$> el_pos_emb l;
           el_debug := el_debug l;
           el_attn_weight := el_attn_weight l |}
  | EncOfficial l =>
      EncOfficial
        {| tl_self_attn := retag i (tl_self_attn l);
           tl_linear1 := retag i (tl_linear1 l);
           tl_dropout := retag_drop i (tl_dropout l);
           tl_linear2 := retag i (tl_linear2 l);
           tl_norm1 := retag i (tl_norm1 l);
           tl_norm2 := retag i (tl_norm2 l);
           tl_dropout1 := retag_drop i (tl_dropout1 l);
           tl_dropout2 := retag_drop i (tl_dropout2 l);
           tl_add_layer_norm := tl_add_layer_norm l;
           tl_attn_weight := tl_attn_weight l;
           tl_activation := retag i (tl_activation l) |}
  end.

(** [[copy.deepcopy(encoder_layer) for _ in range(n)]]. *)
Definition clone_encoder (e : encoder_layer) (n : nat) : list encoder_layer :=
  map (fun i => deepcopy_encoder i e) (seq 0 n).

(** ** Tensors

    A tensor is its shape and its entries, read by a multi-index.  Only the
    entries at in-range indices matter. *)
Record tensor (A : Type) : Type := {
  dims : list nat;
  entry : list nat -> A
}.

Arguments dims {A} t.
Arguments entry {A} t idx.

Section Tensor.
Context {A : Type} (zero : A).

(** [x.size(i)]. *)
Definition size (x : tensor A) (i : nat) : result Z :=
  match dims x !! i with
  | Some n => Ok (Z.of_nat n)
  | None => Raise IndexError
  end.

Definition numel (ds : list nat) : nat := foldr Nat.mul 1%nat ds.

(** Row-major position of a multi-index, and back. *)
Fixpoint ravel (ds idx : list nat) (acc : nat) : nat :=
  match ds, idx with
  | d :: ds', i :: idx' => ravel ds' idx' (acc * d + i)
  | _, _ => acc
  end.

Definition unravel (ds : list nat) (n : nat) : list nat :=
  snd (foldr (fun d '(n, idx) => (n / d, n mod d :: idx)%nat) (n, []) ds).

(** [x.view(d0, d1, ...)] for sizes without [-1]. *)
Definition view (ds : list nat) (x : tensor A) : result (tensor A) :=
  if (numel ds =? numel (dims x))%nat then
    Ok {| dims := ds;
          entry := fun idx => entry x (unravel (dims x) (ravel ds idx 0)) |}
  else Raise RuntimeError.

(** The size that [-1] stands for next to the sizes [ds]. *)
Definition infer_dim (ds : list nat) (x : tensor A) : nat :=
  (numel (dims x) / numel ds)%nat.

(** [x[:, 1:-1, 1:-1]]: drops the first and the last index of dimensions 1
    and 2. *)
Definition crop_border (x : tensor A) : result (tensor A) :=
  match dims x with
  | b :: h :: w :: rest =>
      Ok {| dims := b :: (h - 2)%nat :: (w - 2)%nat :: rest;
            entry := fun idx =>
              match idx with
              | i :: j :: k :: idx' => entry x (i :: S j :: S k :: idx')
              | _ => entry x idx
              end |}
  | _ => Raise IndexError
  end.

(** [F.pad(x, (0, 0, 1, 1, 1, 1), "constant", 0)]: the last dimension is
    left alone, the two dimensions before it get one zero on each side. *)
Definition pad_border (x : tensor A) : result (tensor A) :=
  let r := length (dims x) in
  match drop (r - 3) (dims x) with
  | [h; w; c] =>
      Ok {| dims := take (r - 3) (dims x) ++ [h + 2; w + 2; c]%nat;
            entry := fun idx =>
              match drop (r - 3) idx with
              | [S j; S k; l] =>
                  if (j <? h)%nat && (k <? w)%nat
                  then entry x (take (r - 3) idx ++ [j; k; l])
                  else zero
              | _ => zero
              end |}
  | _ => Raise RuntimeError
  end.

End Tensor.

(** ** Tensor primitives and the forward passes of outside layers

    The forward pass of a layer that is defined outside [libs/model.py] is a
    parameter; so are the arithmetic tensor primitives the source calls.  An
    [nn.Dropout] instance acts as a fixed map at each of its call sites
    (evaluation mode, or one fixed draw of the masks of a training step):
    [dropout_fwd d k] is the [k]-th application of [d] in the enclosing
    forward pass. *)
Class Torch (A : Type) : Type := {
  tadd : tensor A -> tensor A -> tensor A;
  tsub : tensor A -> tensor A -> tensor A;
  tcat_last : list (tensor A) -> tensor A;       (* torch.cat(..., dim=-1) *)
  permute : list Z -> tensor A -> tensor A;
  select_last0 : tensor A -> tensor A;           (* x[..., 0] *)
  narrow1 : pyval -> tensor A -> tensor A;       (* x[:, :n, :] *)
  dropout_fwd : Dropout -> nat -> tensor A -> tensor A;
  unary_fwd : Layer -> tensor A -> tensor A;     (* one tensor in, one out *)
  graph_fwd : Layer -> tensor A -> tensor A -> tensor A;   (* layer(x, edge) *)
  attn_fwd : Layer -> tensor A -> tensor A -> tensor A ->
             option (tensor A) -> option (tensor A) -> tensor A * tensor A;
  spectral_fwd : Layer -> tensor A -> tensor A * tensor A;
                                                 (* return_freq: (x_ft, x) *)
  inverse_transform : pyval -> tensor A -> tensor A
}.

Section EncoderForward.
Context {A : Type} `{Torch A}.
Local Abbreviation T := (tensor A).

(** Lines 114-117: the residual combination around the attention branch. *)
Definition attention_residual (self : FourierTransformerEncoderLayer)
    (x att_output : T) : T :=
  if py_in_strs (el_residual_type self) ["add"; "plus"]
     || is_None (el_residual_type self)
  then tadd x (dropout_fwd (el_dropout1 self) 0 att_output)
  else tsub x (dropout_fwd (el_dropout1 self) 0 att_output).

Definition apply_opt (l : option Layer) (x : T) : result T :=
  match l with
  | Some l => Ok (unary_fwd l x)
  | None => Raise (AttributeError "layer")
  end.

(** [FourierTransformerEncoderLayer.forward]; the second component is the
    attention-weight map, returned only when [attn_weight] is set. *)
Definition FourierTransformerEncoderLayer_forward
    (self : FourierTransformerEncoderLayer)
    (x : T) (pos weight : option T) : result (T * option T) :=
  let! x :=
    if truthy (el_add_pos_emb self) then
      let x := permute [1; 0; 2] x in
      let! x := apply_opt (el_pos_emb self) x in
      Ok (permute [1; 0; 2] x)
    else Ok x in
  let! with_pos :=
    match pos with
    | Some _ => py_gt0 (el_pos_dim self)
    | None => Ok false
    end in
  let '(att_output, attn_weight) :=
    if with_pos then attn_fwd (el_attn self) x x x pos weight
    else attn_fwd (el_attn self) x x x None weight in
  let x := attention_residual self x att_output in
  let! x :=
    if truthy (el_add_layer_norm self)
    then apply_opt (el_layer_norm1 self) x else Ok x in
  let x1 := unary_fwd (el_ff self) x in
  let x := tadd x (dropout_fwd (el_dropout2 self) 0 x1) in
  let! x :=
    if truthy (el_add_layer_norm self)
    then apply_opt (el_layer_norm2 self) x else Ok x in
  if truthy (el_attn_weight self) then Ok (x, Some attn_weight)
  else Ok (x, None).

(** The shape check at the head of torch's multi-head attention: the query
    is a sequence, with or without batch dimension, and its width is the
    [embed_dim] the module was built with. *)
Definition MultiheadAttention_check (l : Layer) (query : T) : result unit :=
  let embed_dim := lookup_arg "embed_dim" (layer_args l) in
  match dims query with
  | [_; width] | [_; _; width] =>
      if py_eq_int embed_dim (Z.of_nat width) then Ok tt
      else Raise AssertionError
  | _ => Raise AssertionError
  end.

(** [TransformerEncoderLayer.forward], called as [encoder(x, pos, weight)]:
    both masks keep their default [None].  The positions are concatenated
    to the input, so the attention sees the width of both together. *)
Definition TransformerEncoderLayer_forward (self : TransformerEncoderLayer)
    (src : T) (pos weight : option T) : result (T * option T) :=
  let src :=
    match pos with
    | Some p => tcat_last [p; src]
    | None => src
    end in
  let src := permute [1; 0; 2] src in
  let! _ := MultiheadAttention_check (tl_self_attn self) src in
  let '(src2, attn_weight) :=
    attn_fwd (tl_self_attn self) src src src None None in
  let src := tadd src (dropout_fwd (tl_dropout1 self) 0 src2) in
  let src :=
    if truthy (tl_add_layer_norm self)
    then unary_fwd (tl_norm1 self) src else src in
  let src2 :=
    unary_fwd (tl_linear2 self)
      (dropout_fwd (tl_dropout self) 0
         (unary_fwd (tl_activation self)
            (unary_fwd (tl_linear1 self) src))) in
  let src := tadd src (dropout_fwd (tl_dropout2 self) 0 src2) in
  let src :=
    if truthy (tl_add_layer_norm self)
    then unary_fwd (tl_norm2 self) src else src in
  let src := permute [1; 0; 2] src in
  if truthy (tl_attn_weight self) then Ok (src, Some attn_weight)
  else Ok (src, None).

Definition encoder_forward (e : encoder_layer) (x : T)
    (pos weight : option T) : result (T * option T) :=
  match e with
  | EncFourier l => FourierTransformerEncoderLayer_forward l x pos weight
  | EncOfficial l => TransformerEncoderLayer_forward l x pos weight
  end.

End EncoderForward.

(** ** Graph feature extractors: [GCN] and [GAT] *)

Record GCN : Type := {
  gcn_edge_learner : Layer;
  gcn_layer0 : Layer;
  gcn_layers : list Layer;
  gcn_activation : pyval;
  gcn_relu : Layer;
  gcn_dropout : Dropout;
  gcn_edge_feats : pyval;
  gcn_debug : pyval
}.

(** [[f(...) for _ in range(1, n)]]: one fresh instance per index. *)
Definition layers_from_1 (n : pyval) (mk : Layer) : result (list Layer) :=
  match as_int n with
  | Some z => Ok (map (fun i => retag i mk) (seq 1 (Z.to_nat (z - 1))))
  | None => Raise TypeError
  end.

Definition GCN_init
    (node_feats out_features num_gcn_layers edge_feats activation
     raw_laplacian dropout debug : pyval) : result GCN :=
  let edge_learner :=
    new_layer "EdgeEncoder" [("out_dim", out_features);
                             ("edge_feats", edge_feats);
                             ("raw_laplacian", raw_laplacian)] in
  let layer0 :=
    new_layer "GraphConvolution" [("in_features", node_feats);
                                  ("out_features", out_features);
                                  ("debug", debug)] in
  let! layers :=
    layers_from_1 num_gcn_layers
      (new_layer "GraphConvolution" [("in_features", out_features);
                                     ("out_features", out_features);
                                     ("debug", debug)]) in
  let! dp := nn_Dropout 0 dropout in
  Ok {| gcn_edge_learner := edge_learner;
        gcn_layer0 := layer0;
        gcn_layers := layers;
        gcn_activation := activation;
        gcn_relu := new_layer "ReLU" [];
        gcn_dropout := dp;
        gcn_edge_feats := edge_feats;
        gcn_debug := debug |}.

Record GAT : Type := {
  gat_layer0 : Layer;
  gat_layers : list Layer;
  gat_activation : pyval;
  gat_relu : Layer;
  gat_debug : pyval
}.

Definition GAT_init
    (node_feats out_features num_gcn_layers edge_feats activation debug
     : pyval) : result GAT :=
  let layer0 :=
    new_layer "GraphAttention" [("in_features", node_feats);
                                ("out_features", out_features)] in
  let! layers :=
    layers_from_1 num_gcn_layers
      (new_layer "GraphAttention" [("in_features", out_features);
                                   ("out_features", out_features)]) in
  Ok {| gat_layer0 := layer0;
        gat_layers := layers;
        gat_activation := activation;
        gat_relu := new_layer "ReLU" [];
        gat_debug := debug |}.

Section GraphForward.
Context {A : Type} `{Torch A}.
Local Abbreviation T := (tensor A).

(** The loop [for gc in layers[:-1]: out = gc(out, edge); if
    self.activation: out = self.relu(out)]. *)
Definition graph_loop (activation : pyval) (relu : Layer)
    (layers : list Layer) (edge out : T) : T :=
  fold_left
    (fun out gc =>
       let out := graph_fwd gc out edge in
       if truthy activation then unary_fwd relu out else out)
    layers out.

Definition GCN_forward (self : GCN) (x edge : T) : result T :=
  let x := permute [0; 2; 1] x in
  let edge := permute [0; 3; 1; 2] edge in
  let! n := size edge 1 in
  if negb (py_eq_int (gcn_edge_feats self) n) then Raise AssertionError
  else
    let edge := unary_fwd (gcn_edge_learner self) edge in
    let out := graph_fwd (gcn_layer0 self) x edge in
    let out :=
      graph_loop (gcn_activation self) (gcn_relu self)
        (removelast (gcn_layers self)) edge out in
    (* last layer no activation *)
    match last (gcn_layers self) with
    | Some gc => Ok (permute [0; 2; 1] (graph_fwd gc out edge))
    | None => Raise IndexError
    end.

Definition GAT_forward (self : GAT) (x edge : T) : result T :=
  let edge := select_last0 edge in
  let out := graph_fwd (gat_layer0 self) x edge in
  let out :=
    graph_loop (gat_activation self) (gat_relu self)
      (removelast (gat_layers self)) edge out in
  (* last layer no activation *)
  match last (gat_layers self) with
  | Some layer => Ok (graph_fwd layer out edge)
  | None => Raise IndexError
  end.

End GraphForward.

(** ** Regressors *)

Record PointwiseRegressor : Type := {
  pr_spacial_fc : pyval;
  pr_fc : option Layer;
  pr_ff : list (Layer * Layer);       (* nn.Sequential(nn.Linear, activ) *)
  pr_dropout : Dropout;
  pr_out : Layer;
  pr_debug : pyval
}.

Definition PointwiseRegressor_init
    (in_dim n_hidden out_dim num_layers spacial_fc spacial_dim dropout
     activation debug : pyval) : result PointwiseRegressor :=
  let dropout := if is_None dropout then PFloat one_tenth else dropout in
  let activ :=
    if py_eq_str activation "silu" then new_layer "SiLU" []
    else new_layer "ReLU" [] in
  let! fc :=
    if truthy spacial_fc then
      let! in_dim := py_add in_dim spacial_dim in
      Ok (Some (nn_Linear 0 in_dim n_hidden))
    else Ok None in
  let! more := py_sub num_layers (PInt 1) in
  let! n := py_range more in
  let ff := map (fun i => (nn_Linear i n_hidden n_hidden, activ))
                (seq 1 (S n)) in
  let! dp := nn_Dropout 0 dropout in
  Ok {| pr_spacial_fc := spacial_fc;
        pr_fc := fc;
        pr_ff := ff;
        pr_dropout := dp;
        pr_out := nn_Linear (S (S n)) n_hidden out_dim;
        pr_debug := debug |}.

Record SpectralRegressor : Type := {
  sr_activation : Layer;
  sr_spacial_fc : pyval;
  sr_fc : option Layer;
  sr_spectral_conv : list Layer;
  sr_n_grid : pyval;
  sr_dim_feedforward : pyval;
  sr_regressor : list Layer;          (* nn.Sequential *)
  sr_normalizer : pyval;
  sr_return_freq : pyval;
  sr_debug : pyval
}.

Definition set_last_activation (l : list Layer) : list Layer :=
  match last l with
  | Some c =>
      removelast l ++
      [{| layer_class := layer_class c;
          layer_args := layer_args c ++ [("activation", PStr "Identity")];
          layer_path := layer_path c |}]
  | None => l
  end.

Definition SpectralRegressor_init
    (in_dim n_hidden freq_dim out_dim modes num_spectral_layers n_grid
     dim_feedforward spacial_fc spacial_dim return_freq normalizer
     activation last_activation dropout debug : pyval)
    : result SpectralRegressor :=
  let! spectral_conv :=
    if py_eq_int spacial_dim 2 then Ok "SpectralConv2d"
    else if py_eq_int spacial_dim 1 then Ok "SpectralConv1d"
    else Raise (NotImplementedError "3D not implemented.") in
  let activ :=
    if py_eq_str activation "silu" || is_None activation
    then new_layer "SiLU" [] else new_layer "ReLU" [] in
  let dropout := if is_None dropout then PFloat one_tenth else dropout in
  let! fc :=
    if truthy spacial_fc then
      let! d := py_add in_dim spacial_dim in
      Ok (Some (nn_Linear 0 d n_hidden))
    else Ok None in
  let conv k i :=
    retag k (new_layer spectral_conv
               [("in_dim", i); ("out_dim", freq_dim); ("n_grid", n_grid);
                ("modes", modes); ("dropout", dropout);
                ("activation", activation); ("return_freq", return_freq);
                ("debug", debug)]) in
  let! more := py_sub num_spectral_layers (PInt 1) in
  let! n := py_range more in
  let convs :=
    conv 0%nat n_hidden :: map (fun k => conv k freq_dim) (seq 1 n) in
  let convs :=
    if negb (truthy last_activation) then set_last_activation convs
    else convs in
  let! dff :=
    if is_None dim_feedforward then
      let! d := py_mul (PInt 2) spacial_dim in py_mul d freq_dim
    else Ok dim_feedforward in
  Ok {| sr_activation := activ;
        sr_spacial_fc := spacial_fc;
        sr_fc := fc;
        sr_spectral_conv := convs;
        sr_n_grid := n_grid;
        sr_dim_feedforward := dff;
        sr_regressor := [nn_Linear 1 freq_dim dff; activ;
                         nn_Linear 2 dff out_dim];
        sr_normalizer := normalizer;
        sr_return_freq := return_freq;
        sr_debug := debug |}.

Inductive regressor : Type :=
| RegPointwise (r : PointwiseRegressor)
| RegSpectral (r : SpectralRegressor).

Section RegressorForward.
Context {A : Type} `{Torch A}.
Local Abbreviation T := (tensor A).

(** [nn.Sequential]: the layers in turn. *)
Definition Sequential_forward (layers : list Layer) (x : T) : T :=
  fold_left (fun x l => unary_fwd l x) layers x.

(** [torch.cat([x, grid], dim=-1)] followed by [self.fc]. *)
Definition spacial_input (fc : option Layer) (x : T) (grid : option T)
    : result T :=
  match grid, fc with
  | Some g, Some fc => Ok (unary_fwd fc (tcat_last [x; g]))
  | None, _ => Raise TypeError
  | _, None => Raise (AttributeError "fc")
  end.

(** The loop [for layer in self.ff: x = layer(x); x = self.dropout(x)];
    [k] counts the applications of [self.dropout]. *)
Fixpoint pointwise_loop (dp : Dropout) (ff : list (Layer * Layer))
    (k : nat) (x : T) : T :=
  match ff with
  | [] => x
  | (linear, activ) :: ff' =>
      let x := unary_fwd activ (unary_fwd linear x) in
      let x := dropout_fwd dp k x in
      pointwise_loop dp ff' (S k) x
  end.

Definition PointwiseRegressor_forward (self : PointwiseRegressor)
    (x : T) (grid : option T) : result T :=
  let! x :=
    if truthy (pr_spacial_fc self)
    then spacial_input (pr_fc self) x grid
    else Ok x in
  let x := pointwise_loop (pr_dropout self) (pr_ff self) 0 x in
  Ok (unary_fwd (pr_out self) x).

(** The loop over [self.spectral_conv]; [x_ft] is bound only when
    [return_freq] is set. *)
Definition spectral_loop (return_freq : pyval) (convs : list Layer)
    (x : T) : option T * T :=
  fold_left
    (fun '(x_ft, x) layer =>
       if truthy return_freq then
         let '(x_ft, x) := spectral_fwd layer x in (Some x_ft, x)
       else (x_ft, unary_fwd layer x))
    convs (None, x).

Definition SpectralRegressor_forward (self : SpectralRegressor)
    (x : T) (grid : option T) : result (option T * T) :=
  let! x :=
    if truthy (sr_spacial_fc self)
    then spacial_input (sr_fc self) x grid
    else Ok x in
  let '(x_ft, x) :=
    spectral_loop (sr_return_freq self) (sr_spectral_conv self) x in
  let x := Sequential_forward (sr_regressor self) x in
  let x :=
    if truthy (sr_normalizer self)
    then inverse_transform (sr_normalizer self) x else x in
  if truthy (sr_return_freq self) then Ok (x_ft, x) else Ok (None, x).

(** [self.regressor(x, grid=grid)] as the operators call it: the result
    is used as one tensor. *)
Definition regressor_forward (r : regressor) (x : T) (grid : option T)
    : result T :=
  match r with
  | RegPointwise r => PointwiseRegressor_forward r x grid
  | RegSpectral r =>
      let! (x_ft, x) := SpectralRegressor_forward r x grid in
      match x_ft with
      | None => Ok x
      | Some _ => Raise TypeError
      end
  end.

End RegressorForward.

(** ** Multiscale scalers *)

Record DownScaler : Type := {
  ds_downsample : list Layer;         (* nn.Sequential, or one encoder *)
  ds_dropout : Dropout;
  ds_in_dim : pyval;
  ds_out_dim : pyval
}.

Definition DownScaler_init
    (in_dim out_dim dropout padding downsample_mode activation_type
     interp_size debug : pyval) : result DownScaler :=
  let! downsample :=
    if py_eq_str downsample_mode "conv" then
      Ok [retag 0 (new_layer "Conv2dEncoder"
                     [("in_dim", in_dim); ("out_dim", out_dim);
                      ("activation_type", activation_type);
                      ("debug", debug)]);
          retag 1 (new_layer "Conv2dEncoder"
                     [("in_dim", out_dim); ("out_dim", out_dim);
                      ("padding", padding);
                      ("activation_type", activation_type);
                      ("debug", debug)])]
    else if py_eq_str downsample_mode "interp" then
      Ok [new_layer "Interp2dEncoder"
            [("in_dim", in_dim); ("out_dim", out_dim);
             ("scale_factor", interp_size);
             ("activation_type", activation_type); ("debug", debug)]]
    else Raise (NotImplementedError "downsample mode not implemented.") in
  let! dp := nn_Dropout 0 dropout in
  Ok {| ds_downsample := downsample;
        ds_dropout := dp;
        ds_in_dim := in_dim;
        ds_out_dim := out_dim |}.

Record UpScaler : Type := {
  us_upsample : list Layer;
  us_in_dim : pyval;
  us_out_dim : pyval
}.

Definition UpScaler_init
    (in_dim out_dim hidden_dim padding output_padding dropout upsample_mode
     activation_type interp_mode interp_size debug : pyval)
    : result UpScaler :=
  let hidden_dim := if is_None hidden_dim then in_dim else hidden_dim in
  let! upsample :=
    if py_in_strs upsample_mode ["conv"; "deconv"] then
      let block k padding :=
        retag k (new_layer "DeConv2dBlock"
                   [("in_dim", in_dim); ("out_dim", out_dim);
                    ("hidden_dim", hidden_dim); ("padding", padding);
                    ("output_padding", output_padding);
                    ("dropout", dropout);
                    ("activation_type", activation_type);
                    ("debug", debug)]) in
      let! padding2 := py_mul padding (PInt 2) in
      Ok [block 0%nat padding; block 1%nat padding2]
    else if py_eq_str upsample_mode "interp" then
      Ok [new_layer "Interp2dUpsample"
            [("in_dim", in_dim); ("out_dim", out_dim);
             ("interp_mode", interp_mode); ("interp_size", interp_size);
             ("dropout", dropout); ("activation_type", activation_type);
             ("debug", debug)]]
    else Raise (NotImplementedError "upsample mode not implemented.") in
  Ok {| us_upsample := upsample;
        us_in_dim := in_dim;
        us_out_dim := out_dim |}.

(** A size argument of [view]. *)
Definition as_dim (v : pyval) : result nat :=
  match as_int v with
  | Some z => if (z <? 0)%Z then Raise RuntimeError else Ok (Z.to_nat z)
  | None => Raise TypeError
  end.

Section ScalerForward.
Context {A : Type} `{Torch A}.
Local Abbreviation T := (tensor A).

(** [x.view(before..., -1, after...)]. *)
Definition view_infer (before after : list nat) (x : T) : result T :=
  let k := numel (before ++ after) in
  if (k =? 0)%nat then Raise RuntimeError
  else if negb (numel (dims x) mod k =? 0)%nat then Raise RuntimeError
  else view (before ++ [infer_dim (before ++ after) x] ++ after) x.

Definition DownScaler_forward (self : DownScaler) (x : T) : result T :=
  let! n_grid := size x 1 in
  let! bsz := size x 0 in
  let! in_dim := as_dim (ds_in_dim self) in
  let! x := view [Z.to_nat bsz; Z.to_nat n_grid; Z.to_nat n_grid; in_dim]
                 x in
  let x := permute [0; 3; 1; 2] x in
  let x := Sequential_forward (ds_downsample self) x in
  Ok (permute [0; 2; 3; 1] x).

Definition UpScaler_forward (self : UpScaler) (x : T) : T :=
  let x := permute [0; 3; 1; 2] x in
  let x := Sequential_forward (us_upsample self) x in
  permute [0; 2; 3; 1] x.

End ScalerForward.

(** ** The operators: what both have in common *)

Inductive feat_extract : Type :=
| FeGCN (g : GCN)
| FeGAT (g : GAT)
| FeIdentity (l : Layer).

Section OperatorCommon.
Context {A : Type} `{Torch A}.
Local Abbreviation T := (tensor A).

(** [self.feat_extract(x, edge)]. *)
Definition feat_extract_forward (f : feat_extract) (x edge : T)
    : result T :=
  match f with
  | FeGCN g => GCN_forward g x edge
  | FeGAT g => GAT_forward g x edge
  | FeIdentity l => Ok (unary_fwd l x)
  end.

(** The loop over [self.encoder_layers] of both operators. *)
Fixpoint encoder_loop (self : gmap string pyval)
    (layers : list encoder_layer) (pos weight : option T)
    (x : T) (x_ortho attn_weights : list T)
    : result (T * list T * list T) :=
  match layers with
  | [] => Ok (x, x_ortho, attn_weights)
  | encoder :: layers' =>
      let! return_attn_weight := getattr self "return_attn_weight" in
      let! (x, w) := encoder_forward encoder x pos weight in
      let! attn_weights :=
        match truthy return_attn_weight, w with
        | true, Some w => Ok (attn_weights ++ [w])%list
        | false, None => Ok attn_weights
        | _, _ => Raise TypeError
        end in
      let! return_ortho := getattr self "return_ortho" in
      let x_ortho :=
        if truthy return_ortho then (x_ortho ++ [x])%list else x_ortho in
      encoder_loop self layers' pos weight x x_ortho attn_weights
  end.

End OperatorCommon.

(** ** [FourierTransformer], the operator on sequences *)

Record FourierTransformer : Type := {
  ft_self : gmap string pyval;        (* the attributes set from the config *)
  ft_dp : Dropout;
  ft_feat_extract : feat_extract;
  ft_encoder_layers : list encoder_layer;
  ft_freq_regressor : option (list Layer);
  ft_regressor : regressor
}.

Definition attention_types_1D : list string :=
  ["fourier"; "integral"; "cosine"; "galerkin"; "linear"; "softmax"].

(** The part of [_get_setting] both operators share: the loop over
    [all_attr] and the default of [dim_feedforward]. *)
Definition common_setting (config : gmap string pyval)
    : result (gmap string pyval) :=
  let! self := set_all_attr config in
  let! dff := getattr self "dim_feedforward" in
  let! dff :=
    if is_None dff then
      let! n_hidden := getattr self "n_hidden" in py_mul (PInt 2) n_hidden
    else Ok dff in
  Ok (<["dim_feedforward" := dff]> self).

(** [if self.decoder_type == 'attention': self.num_ft_layers += 1]. *)
Definition bump_num_ft_layers (self : gmap string pyval)
    : result (gmap string pyval) :=
  let! decoder_type := getattr self "decoder_type" in
  if py_eq_str decoder_type "attention" then
    let! n := getattr self "num_ft_layers" in
    let! n := py_add n (PInt 1) in
    Ok (<["num_ft_layers" := n]> self)
  else Ok self.

(** [nn.Dropout(0.1 if self.dropout is None else self.dropout)]. *)
Definition setting_dropout (self : gmap string pyval) : result Dropout :=
  let! dropout := getattr self "dropout" in
  nn_Dropout 0 (if is_None dropout then PFloat one_tenth else dropout).

Definition FourierTransformer_get_setting (config : gmap string pyval)
    : result (gmap string pyval * Dropout) :=
  let! self := common_setting config in
  let! spacial_dim :=
    if is_None (config_get config "spacial_dim") then getattr self "pos_dim"
    else getattr self "spacial_dim" in
  let self := <["spacial_dim" := spacial_dim]> self in
  let! spacial_fc :=
    if is_None (config_get config "spacial_fc") then Ok (PBool false)
    else getattr self "spacial_fc" in
  let self := <["spacial_fc" := spacial_fc]> self in
  let! dp := setting_dropout self in
  let! self := bump_num_ft_layers self in
  Ok (self, dp).

Definition FourierTransformer_get_graph (self : gmap string pyval)
    : result feat_extract :=
  let is_type (t : string) : result bool :=
    let! n := getattr self "num_feat_layers" in
    let! positive := py_gt0 n in
    if positive then
      let! ty := getattr self "feat_extract_type" in Ok (py_eq_str ty t)
    else Ok false in
  let! gcn := is_type "gcn" in
  if gcn then
    let! node_feats := getattr self "node_feats" in
    let! edge_feats := getattr self "edge_feats" in
    let! num_feat_layers := getattr self "num_feat_layers" in
    let! n_hidden := getattr self "n_hidden" in
    let! graph_activation := getattr self "graph_activation" in
    let! raw_laplacian := getattr self "raw_laplacian" in
    let! debug := getattr self "debug" in
    let! g := GCN_init node_feats n_hidden num_feat_layers edge_feats
                graph_activation raw_laplacian (PFloat one_tenth) debug in
    Ok (FeGCN g)
  else
    let! gat := is_type "gat" in
    if gat then
      let! node_feats := getattr self "node_feats" in
      let! n_hidden := getattr self "n_hidden" in
      let! num_feat_layers := getattr self "num_feat_layers" in
      let! graph_activation := getattr self "graph_activation" in
      let! debug := getattr self "debug" in
      let! g := GAT_init node_feats n_hidden num_feat_layers PNone
                  graph_activation debug in
      Ok (FeGAT g)
    else
      let! node_feats := getattr self "node_feats" in
      let! n_hidden := getattr self "n_hidden" in
      Ok (FeIdentity (new_layer "Identity" [("in_features", node_feats);
                                            ("out_features", n_hidden)])).

(** The call [TransformerEncoderLayer(d_model=self.n_hidden, ...)] of both
    operators. *)
Definition official_encoder_layer (self : gmap string pyval)
    : result encoder_layer :=
  let! n_hidden := getattr self "n_hidden" in
  let! n_head := getattr self "n_head" in
  let! dim_feedforward := getattr self "dim_feedforward" in
  let! layer_norm := getattr self "layer_norm" in
  let! return_attn_weight := getattr self "return_attn_weight" in
  let! encoder_dropout := getattr self "encoder_dropout" in
  let! l := TransformerEncoderLayer_init n_hidden n_head dim_feedforward
              encoder_dropout layer_norm return_attn_weight in
  Ok (EncOfficial l).

(** [[copy.deepcopy(encoder_layer) for _ in range(self.num_ft_layers)]]. *)
Definition stack_encoder (self : gmap string pyval) (e : encoder_layer)
    : result (list encoder_layer) :=
  let! num_ft_layers := getattr self "num_ft_layers" in
  let! n := py_range num_ft_layers in
  Ok (clone_encoder e n).

Definition FourierTransformer_get_encoder (self : gmap string pyval)
    : result (list encoder_layer) :=
  let! attention_type := getattr self "attention_type" in
  let! encoder_layer :=
    if py_in_strs attention_type attention_types_1D then
      let! n_hidden := getattr self "n_hidden" in
      let! n_head := getattr self "n_head" in
      let! dim_feedforward := getattr self "dim_feedforward" in
      let! layer_norm := getattr self "layer_norm" in
      let! attn_norm := getattr self "attn_norm" in
      let! norm_type := getattr self "norm_type" in
      let! batch_norm := getattr self "batch_norm" in
      let! pos_dim := getattr self "pos_dim" in
      let! xavier_init := getattr self "xavier_init" in
      let! diagonal_weight := getattr self "diagonal_weight" in
      let! symmetric_init := getattr self "symmetric_init" in
      let! return_attn_weight := getattr self "return_attn_weight" in
      let! residual_type := getattr self "residual_type" in
      let! attn_activation := getattr self "attn_activation" in
      let! encoder_dropout := getattr self "encoder_dropout" in
      let! debug := getattr self "debug" in
      let! l :=
        FourierTransformerEncoderLayer_init
          {| a_d_model := n_hidden;
             a_pos_dim := pos_dim;
             a_n_head := n_head;
             a_dim_feedforward := dim_feedforward;
             a_attention_type := attention_type;
             a_pos_emb := a_pos_emb EncoderLayerDefaults;
             a_layer_norm := layer_norm;
             a_attn_norm := attn_norm;
             a_norm_type := norm_type;
             a_batch_norm := batch_norm;
             a_attn_weight := return_attn_weight;
             a_xavier_init := xavier_init;
             a_diagonal_weight := diagonal_weight;
             a_symmetric_init := symmetric_init;
             a_residual_type := residual_type;
             a_activation_type := attn_activation;
             a_dropout := encoder_dropout;
             a_debug := debug |} in
      Ok (EncFourier l)
    else official_encoder_layer self in
  stack_encoder self encoder_layer.

Definition FourierTransformer_get_freq_regressor (self : gmap string pyval)
    : result (list Layer) :=
  let! bulk_regression := getattr self "bulk_regression" in
  if truthy bulk_regression then
    let! seq_len := getattr self "seq_len" in
    let! n_hidden := getattr self "n_hidden" in
    let! n_freq_targets := getattr self "n_freq_targets" in
    let! pred_len := getattr self "pred_len" in
    Ok [new_layer "BulkRegressor"
          [("in_dim", seq_len); ("n_feats", n_hidden);
           ("n_targets", n_freq_targets); ("pred_len", pred_len)]]
  else
    let! n_hidden := getattr self "n_hidden" in
    let! n_freq_targets := getattr self "n_freq_targets" in
    Ok [nn_Linear 1 n_hidden n_hidden; new_layer "ReLU" [];
        nn_Linear 2 n_hidden n_freq_targets].

Definition FourierTransformer_get_regressor (self : gmap string pyval)
    : result regressor :=
  let! decoder_type := getattr self "decoder_type" in
  if py_eq_str decoder_type "pointwise" then
    let! n_hidden := getattr self "n_hidden" in
    let! n_targets := getattr self "n_targets" in
    let! spacial_fc := getattr self "spacial_fc" in
    let! spacial_dim := getattr self "spacial_dim" in
    let! regressor_activation := getattr self "regressor_activation" in
    let! decoder_dropout := getattr self "decoder_dropout" in
    let! debug := getattr self "debug" in
    let! r := PointwiseRegressor_init n_hidden n_hidden n_targets (PInt 2)
                spacial_fc spacial_dim decoder_dropout regressor_activation
                debug in
    Ok (RegPointwise r)
  else if py_eq_str decoder_type "ifft" then
    let! n_hidden := getattr self "n_hidden" in
    let! freq_dim := getattr self "freq_dim" in
    let! n_targets := getattr self "n_targets" in
    let! num_regressor_layers := getattr self "num_regressor_layers" in
    let! fourier_modes := getattr self "fourier_modes" in
    let! spacial_dim := getattr self "spacial_dim" in
    let! spacial_fc := getattr self "spacial_fc" in
    let! regressor_activation := getattr self "regressor_activation" in
    let! decoder_dropout := getattr self "decoder_dropout" in
    let! r := SpectralRegressor_init n_hidden n_hidden freq_dim n_targets
                fourier_modes num_regressor_layers PNone freq_dim
                spacial_fc spacial_dim (PBool false) PNone
                regressor_activation (PBool true) decoder_dropout
                (PBool false) in
    Ok (RegSpectral r)
  else Raise (NotImplementedError "Decoder type not implemented").

(** [_initialize]; the closing [_initialize_layer] pass only resets
    parameter values and leaves the architecture as it is. *)
Definition FourierTransformer_initialize (self : gmap string pyval)
    (dp : Dropout) : result FourierTransformer :=
  let! graph := FourierTransformer_get_graph self in
  let! encoder_layers := FourierTransformer_get_encoder self in
  let! n_freq_targets := getattr self "n_freq_targets" in
  let! with_freq := py_gt0 n_freq_targets in
  let! freq_regressor :=
    if with_freq then
      let! f := FourierTransformer_get_freq_regressor self in Ok (Some f)
    else Ok None in
  let! reg := FourierTransformer_get_regressor self in
  let! decoder_type := getattr self "decoder_type" in
  Ok {| ft_self := self;
        ft_dp := dp;
        ft_feat_extract := graph;
        ft_encoder_layers := encoder_layers;
        ft_freq_regressor := freq_regressor;
        ft_regressor := reg |}.

(** [FourierTransformer] called on the keyword arguments [config]. *)
Definition FourierTransformer_init (config : gmap string pyval)
    : result FourierTransformer :=
  let! (self, dp) := FourierTransformer_get_setting config in
  FourierTransformer_initialize self dp.

(** The prediction record [dict(preds=..., preds_freq=..., preds_ortho=...,
    attn_weights=...)]. *)
Record prediction (A : Type) : Type := {
  preds : tensor A;
  preds_freq : option (tensor A);
  preds_ortho : list (tensor A);
  attn_weights : list (tensor A)
}.

Arguments preds {A} p.
Arguments preds_freq {A} p.
Arguments preds_ortho {A} p.
Arguments attn_weights {A} p.

Section FourierTransformerForward.
Context {A : Type} `{Torch A}.
Local Abbreviation T := (tensor A).

(** [self.spacial_residual or self.return_ortho]: the second attribute is
    read only when the first is false. *)
Definition residual_or_ortho (self : gmap string pyval) : result bool :=
  let! spacial_residual := getattr self "spacial_residual" in
  if truthy spacial_residual then Ok true
  else
    let! return_ortho := getattr self "return_ortho" in
    Ok (truthy return_ortho).

Definition FourierTransformer_forward (m : FourierTransformer)
    (node edge pos : T) (grid weight : option T)
    : result (prediction A) :=
  let self := ft_self m in
  let x_ortho := [] in
  let attn_weights := [] in
  let! x := feat_extract_forward (ft_feat_extract m) node edge in
  let! keep := residual_or_ortho self in
  let res := if keep then Some x else None in
  let x_ortho := if keep then (x_ortho ++ [x])%list else x_ortho in
  let! (x, x_ortho, attn_weights) :=
    encoder_loop self (ft_encoder_layers m) (Some pos) weight
      x x_ortho attn_weights in
  let! spacial_residual := getattr self "spacial_residual" in
  let! x :=
    if truthy spacial_residual then
      match res with
      | Some res => Ok (tadd res x)
      | None => Raise RuntimeError
      end
    else Ok x in
  let! n_freq_targets := getattr self "n_freq_targets" in
  let! with_freq := py_gt0 n_freq_targets in
  let! x_freq :=
    if with_freq then
      match ft_freq_regressor m with
      | Some f =>
          let! pred_len := getattr self "pred_len" in
          Ok (Some (narrow1 pred_len (Sequential_forward f x)))
      | None => Raise (AttributeError "freq_regressor")
      end
    else Ok None in
  let x := dropout_fwd (ft_dp m) 0 x in
  let! x := regressor_forward (ft_regressor m) x grid in
  Ok {| preds := x;
        preds_freq := x_freq;
        preds_ortho := x_ortho;
        attn_weights := attn_weights |}.

End FourierTransformerForward.

(** ** [FourierTransformer2D], the operator on grids *)

Record FourierTransformer2D : Type := {
  ft2_self : gmap string pyval;
  ft2_dropout : Dropout;
  ft2_feat_extract : feat_extract;
  ft2_downscaler : DownScaler + Layer;
  ft2_upscaler : UpScaler + Layer;
  ft2_encoder_layers : list encoder_layer;
  ft2_regressor : regressor
}.

Definition attention_types_2D : list string :=
  ["fourier"; "integral"; "local"; "global";
   "cosine"; "galerkin"; "linear"; "softmax"].

Definition FourierTransformer2D_get_setting (config : gmap string pyval)
    : result (gmap string pyval * Dropout) :=
  let! self := common_setting config in
  let! dp := setting_dropout self in
  let! self := bump_num_ft_layers self in
  let! upscaler_size := getattr self "upscaler_size" in
  let! scaler :=
    if truthy upscaler_size then getattr self "downscaler_size"
    else Ok upscaler_size in
  Ok (<["scaler" := scaler]> self, dp).

Definition FourierTransformer2D_get_graph (self : gmap string pyval)
    : result feat_extract :=
  let is_type (t : string) : result bool :=
    let! ty := getattr self "feat_extract_type" in
    if py_eq_str ty t then
      let! n := getattr self "num_feat_layers" in py_gt0 n
    else Ok false in
  let! gcn := is_type "gcn" in
  if gcn then
    let! n_hidden := getattr self "n_hidden" in
    let! edge_feats := getattr self "edge_feats" in
    let! num_feat_layers := getattr self "num_feat_layers" in
    let! graph_activation := getattr self "graph_activation" in
    let! raw_laplacian := getattr self "raw_laplacian" in
    let! debug := getattr self "debug" in
    let! g := GCN_init n_hidden n_hidden num_feat_layers edge_feats
                graph_activation raw_laplacian (PFloat one_tenth) debug in
    Ok (FeGCN g)
  else
    let! gat := is_type "gat" in
    if gat then
      let! n_hidden := getattr self "n_hidden" in
      let! num_feat_layers := getattr self "num_feat_layers" in
      let! graph_activation := getattr self "graph_activation" in
      let! debug := getattr self "debug" in
      let! g := GAT_init n_hidden n_hidden num_feat_layers PNone
                  graph_activation debug in
      Ok (FeGAT g)
    else Ok (FeIdentity (new_layer "Identity" [])).

Definition FourierTransformer2D_get_scaler (self : gmap string pyval)
    : result ((DownScaler + Layer) * (UpScaler + Layer)) :=
  let! scaler := getattr self "scaler" in
  if truthy scaler then
    let! node_feats := getattr self "node_feats" in
    let! n_hidden := getattr self "n_hidden" in
    let! downsample_mode := getattr self "downsample_mode" in
    let! downscaler_size := getattr self "downscaler_size" in
    let! downscaler_dropout := getattr self "downscaler_dropout" in
    let! downscaler_activation := getattr self "downscaler_activation" in
    let! down := DownScaler_init node_feats n_hidden downscaler_dropout
                   (PInt 5) downsample_mode downscaler_activation
                   downscaler_size (PBool false) in
    let! upsample_mode := getattr self "upsample_mode" in
    let! upscaler_size := getattr self "upscaler_size" in
    let! upscaler_dropout := getattr self "upscaler_dropout" in
    let! upscaler_activation := getattr self "upscaler_activation" in
    let! up := UpScaler_init n_hidden n_hidden PNone (PInt 2) (PInt 0)
                 upscaler_dropout upsample_mode upscaler_activation
                 (PStr "bilinear") upscaler_size (PBool false) in
    Ok (inl down, inl up)
  else
    let! node_feats := getattr self "node_feats" in
    let! spacial_dim := getattr self "spacial_dim" in
    let! in_features := py_add node_feats spacial_dim in
    let! n_hidden := getattr self "n_hidden" in
    Ok (inr (new_layer "Identity" [("in_features", in_features);
                                   ("out_features", n_hidden)]),
        inr (new_layer "Identity" [])).

Definition FourierTransformer2D_get_encoder (self : gmap string pyval)
    : result (list encoder_layer) :=
  let! attention_type := getattr self "attention_type" in
  let! encoder_layer :=
    if py_in_strs attention_type attention_types_2D then
      let! n_hidden := getattr self "n_hidden" in
      let! n_head := getattr self "n_head" in
      let! dim_feedforward := getattr self "dim_feedforward" in
      let! layer_norm := getattr self "layer_norm" in
      let! attn_norm := getattr self "attn_norm" in
      let! batch_norm := getattr self "batch_norm" in
      let! pos_dim := getattr self "pos_dim" in
      let! xavier_init := getattr self "xavier_init" in
      let! diagonal_weight := getattr self "diagonal_weight" in
      let! symmetric_init := getattr self "symmetric_init" in
      let! return_attn_weight := getattr self "return_attn_weight" in
      let! encoder_dropout := getattr self "encoder_dropout" in
      let! debug := getattr self "debug" in
      let! l :=
        FourierTransformerEncoderLayer_init
          {| a_d_model := n_hidden;
             a_pos_dim := pos_dim;
             a_n_head := n_head;
             a_dim_feedforward := dim_feedforward;
             a_attention_type := attention_type;
             a_pos_emb := a_pos_emb EncoderLayerDefaults;
             a_layer_norm := layer_norm;
             a_attn_norm := attn_norm;
             a_norm_type := a_norm_type EncoderLayerDefaults;
             a_batch_norm := batch_norm;
             a_attn_weight := return_attn_weight;
             a_xavier_init := xavier_init;
             a_diagonal_weight := diagonal_weight;
             a_symmetric_init := symmetric_init;
             a_residual_type := a_residual_type EncoderLayerDefaults;
             a_activation_type := a_activation_type EncoderLayerDefaults;
             a_dropout := encoder_dropout;
             a_debug := debug |} in
      Ok (EncFourier l)
    else if py_eq_str attention_type "official" then
      official_encoder_layer self
    else Raise (NotImplementedError "encoder type not implemented.") in
  stack_encoder self encoder_layer.

Definition FourierTransformer2D_get_regressor (self : gmap string pyval)
    : result regressor :=
  let! decoder_type := getattr self "decoder_type" in
  if py_eq_str decoder_type "pointwise" then
    let! n_hidden := getattr self "n_hidden" in
    let! n_targets := getattr self "n_targets" in
    let! num_regressor_layers := getattr self "num_regressor_layers" in
    let! spacial_fc := getattr self "spacial_fc" in
    let! spacial_dim := getattr self "spacial_dim" in
    let! regressor_activation := getattr self "regressor_activation" in
    let! decoder_dropout := getattr self "decoder_dropout" in
    let! debug := getattr self "debug" in
    let! r := PointwiseRegressor_init n_hidden n_hidden n_targets
                num_regressor_layers spacial_fc spacial_dim decoder_dropout
                regressor_activation debug in
    Ok (RegPointwise r)
  else if py_eq_str decoder_type "ifft2" then
    let! n_hidden := getattr self "n_hidden" in
    let! freq_dim := getattr self "freq_dim" in
    let! n_targets := getattr self "n_targets" in
    let! num_regressor_layers := getattr self "num_regressor_layers" in
    let! fourier_modes := getattr self "fourier_modes" in
    let! spacial_dim := getattr self "spacial_dim" in
    let! spacial_fc := getattr self "spacial_fc" in
    let! regressor_activation := getattr self "regressor_activation" in
    let! last_activation := getattr self "last_activation" in
    let! decoder_dropout := getattr self "decoder_dropout" in
    let! debug := getattr self "debug" in
    let! r := SpectralRegressor_init n_hidden n_hidden freq_dim n_targets
                fourier_modes num_regressor_layers PNone PNone
                spacial_fc spacial_dim (PBool false) PNone
                regressor_activation last_activation decoder_dropout
                debug in
    Ok (RegSpectral r)
  else Raise (NotImplementedError "Decoder type not implemented").

Definition FourierTransformer2D_initialize (self : gmap string pyval)
    (dp : Dropout) : result FourierTransformer2D :=
  let! graph := FourierTransformer2D_get_graph self in
  let! (down, up) := FourierTransformer2D_get_scaler self in
  let! encoder_layers := FourierTransformer2D_get_encoder self in
  let! reg := FourierTransformer2D_get_regressor self in
  Ok {| ft2_self := self;
        ft2_dropout := dp;
        ft2_feat_extract := graph;
        ft2_downscaler := down;
        ft2_upscaler := up;
        ft2_encoder_layers := encoder_layers;
        ft2_regressor := reg |}.

Definition FourierTransformer2D_init (config : gmap string pyval)
    : result FourierTransformer2D :=
  let! (self, dp) := FourierTransformer2D_get_setting config in
  FourierTransformer2D_initialize self dp.

(** The prediction record of the 2D operator has no [preds_freq] entry. *)
Record prediction2D (A : Type) : Type := {
  preds2 : tensor A;
  preds_ortho2 : list (tensor A);
  attn_weights2 : list (tensor A)
}.

Arguments preds2 {A} p.
Arguments preds_ortho2 {A} p.
Arguments attn_weights2 {A} p.

Section FourierTransformer2DForward.
Context {A : Type} (zero : A) `{Torch A}.
Local Abbreviation T := (tensor A).

Definition downscaler_forward (d : DownScaler + Layer) (x : T)
    : result T :=
  match d with
  | inl d => DownScaler_forward d x
  | inr l => Ok (unary_fwd l x)
  end.

Definition upscaler_forward (u : UpScaler + Layer) (x : T) : T :=
  match u with
  | inl u => UpScaler_forward u x
  | inr l => unary_fwd l x
  end.

(** Lines 852-853: [if x.size(1) != grid.size(1): x = x[:, 1:-1, 1:-1]]. *)
Definition align_with_grid (x grid : T) : result T :=
  let! n := size x 1 in
  let! g := size grid 1 in
  if negb (n =? g)%Z then crop_border x else Ok x.

(** Lines 858-859: the zero border of the Dirichlet condition. *)
Definition boundary_pad (self : gmap string pyval) (x : T) : result T :=
  let! boundary_condition := getattr self "boundary_condition" in
  if py_eq_str boundary_condition "dirichlet"
     || is_None boundary_condition
  then pad_border zero x
  else Ok x.

(** Lines 852-859: from the upscaled, dropped-out tensor to [preds]. *)
Definition decode2D (m : FourierTransformer2D) (x grid : T) : result T :=
  let self := ft2_self m in
  let! x := align_with_grid x grid in
  let! x := regressor_forward (ft2_regressor m) x (Some grid) in
  let! normalizer := getattr self "normalizer" in
  let x :=
    if truthy normalizer then inverse_transform normalizer x else x in
  boundary_pad self x.

Definition FourierTransformer2D_forward (m : FourierTransformer2D)
    (node edge pos grid : T) (weight : option T)
    : result (prediction2D A) :=
  let self := ft2_self m in
  let! bsz := size node 0 in
  let bsz := Z.to_nat bsz in
  let! seq_len := size pos 1 in
  let n_s := Z.to_nat (Z.sqrt seq_len) in
  let x_ortho := [] in
  let attn_weights := [] in
  let! scaler := getattr self "scaler" in
  let! node :=
    if negb (truthy scaler) then
      let! p := view_infer [bsz; n_s; n_s] [] pos in
      Ok (tcat_last [node; p])
    else Ok node in
  let! x := downscaler_forward (ft2_downscaler m) node in
  let! n_hidden := getattr self "n_hidden" in
  let! n_hidden := as_dim n_hidden in
  let! x := view_infer [bsz] [n_hidden] x in
  let! x := feat_extract_forward (ft2_feat_extract m) x edge in
  let x := dropout_fwd (ft2_dropout m) 0 x in
  let! (x, x_ortho, attn_weights) :=
    encoder_loop self (ft2_encoder_layers m) (Some pos) weight
      x x_ortho attn_weights in
  let! x := view [bsz; n_s; n_s; n_hidden] x in
  let x := upscaler_forward (ft2_upscaler m) x in
  let x := dropout_fwd (ft2_dropout m) 1 x in
  let! x := decode2D m x grid in
  Ok {| preds2 := x;
        preds_ortho2 := x_ortho;
        attn_weights2 := attn_weights |}.

End FourierTransformer2DForward.

(** ** The [fourier] and [galerkin] attention variants

    Modelled from the spec: the attention kernel ([SimpleAttention.forward]
    and the functions it calls) is defined in [libs/layers.py], outside
    [libs/model.py].  The spec describes the two linear-cost variants as
    follows.  Both compute the key-value inner product first and weigh it
    uniformly (mean over the sequence); [fourier] normalizes queries and
    keys before the inner product, [galerkin] has the "identical algebraic
    rearrangement" but "normalizes only keys/values, not queries"; the
    normalization is a layer normalization with epsilon [1e-7].  The model
    is over the real numbers, for one batch entry and one head, without
    positions and without dropout; a sequence tensor is the list of its
    rows. *)

Section SpecAttention.
Local Open Scope R_scope.

Definition rsum (v : list R) : R := fold_right Rplus 0 v.

Definition rmean (v : list R) : R := rsum v / INR (length v).

Definition rvar (v : list R) : R :=
  rmean (map (fun x => (x - rmean v) * (x - rmean v)) v).

Definition spec_eps : R := 1 / 10000000.

(** Layer normalization of one feature vector. *)
Definition spec_layer_norm (v : list R) : list R :=
  map (fun x => (x - rmean v) / sqrt (rvar v + spec_eps)) v.

Definition spec_normalize (m : list (list R)) : list (list R) :=
  map spec_layer_norm m.

Definition rdot (u v : list R) : R :=
  rsum (map (fun p => fst p * snd p) (combine u v)).

(** Column [j] of a matrix given by its rows. *)
Definition column (j : nat) (m : list (list R)) : list R :=
  map (fun row => nth j row 0) m.

(** The [d x d] matrix [K^T V] of feature-by-feature inner products over
    the sequence. *)
Definition spec_key_value (d : nat) (K V : list (list R))
    : list (list R) :=
  map (fun i => map (fun j => rdot (column i K) (column j V)) (seq 0 d))
      (seq 0 d).

(** [Q (K^T V) / n]: the rearranged aggregation with uniform weights. *)
Definition spec_linear_attention (Q K V : list (list R))
    : list (list R) :=
  let n := length K in
  let d := length (hd [] K) in
  let KV := spec_key_value d K V in
  map (fun q => map (fun j => rdot q (column j KV) / INR n) (seq 0 d)) Q.

Definition spec_fourier_attention (Q K V : list (list R))
    : list (list R) :=
  spec_linear_attention (spec_normalize Q) (spec_normalize K) V.

Definition spec_galerkin_attention (Q K V : list (list R))
    : list (list R) :=
  spec_linear_attention Q (spec_normalize K) (spec_normalize V).

(** The normalization statistics of a tensor: mean and variance per row. *)
Definition spec_stats (m : list (list R)) : list (R * R) :=
  map (fun row => (rmean row, rvar row)) m.

End SpecAttention.

(** ** A reference instance over the integers

    Concrete tensor primitives and layer behaviours, used to run the model
    on explicit inputs.  A linear layer sets the size of the last dimension
    to its [out_features]; graph layers negate their input; ReLU is the
    positive part; the interpolating scalers change the resolution; a
    dropout of rate zero is the identity and any other rate is shown with
    the draw that drops every entry. *)

Definition set_last_dim (n : nat) (ds : list nat) : list nat :=
  match ds with
  | [] => []
  | _ => (removelast ds ++ [n])%list
  end.

Definition Zmap (f : Z -> Z) (x : tensor Z) : tensor Z :=
  {| dims := dims x; entry := fun idx => f (entry x idx) |}.

Definition Zzip (f : Z -> Z -> Z) (x y : tensor Z) : tensor Z :=
  {| dims := dims x; entry := fun idx => f (entry x idx) (entry y idx) |}.

Definition Zlinear (l : Layer) (x : tensor Z) : tensor Z :=
  match as_int (lookup_arg "out_features" (layer_args l)) with
  | Some n =>
      {| dims := set_last_dim (Z.to_nat n) (dims x);
         entry := fun idx => entry x (set_last_dim 0 idx) |}
  | None => x
  end.

(** Resampling of a channel-first grid [(b, c, h, w)]: the interpolating
    encoder halves the resolution (rounding up), the interpolating
    upsampler goes to its [interp_size]; both set the channel count to
    their [out_dim]. *)
Definition Zresample (l : Layer) (x : tensor Z) : tensor Z :=
  match dims x, as_int (lookup_arg "out_dim" (layer_args l)) with
  | [b; _; h; w], Some c =>
      let '(h', w') :=
        match lookup_arg "interp_size" (layer_args l) with
        | PSeq [s0; s1] =>
            (Z.to_nat (Qfloor s0), Z.to_nat (Qfloor s1))
        | _ => (Nat.div (h + 1) 2, Nat.div (w + 1) 2)
        end in
      {| dims := [b; Z.to_nat c; h'; w']; entry := entry x |}
  | _, _ => x
  end.

Definition Zunary (l : Layer) (x : tensor Z) : tensor Z :=
  if String.eqb (layer_class l) "Linear" then Zlinear l x
  else if String.eqb (layer_class l) "Identity" then Zlinear l x
  else if String.eqb (layer_class l) "ReLU" then Zmap (Z.max 0) x
  else if String.eqb (layer_class l) "Interp2dEncoder" then Zresample l x
  else if String.eqb (layer_class l) "Interp2dUpsample" then Zresample l x
  else x.

Definition Zcat (xs : list (tensor Z)) : tensor Z :=
  match xs with
  | [x; y] =>
      let cx := List.last (dims x) 0%nat in
      let cy := List.last (dims y) 0%nat in
      {| dims := set_last_dim (cx + cy) (dims x);
         entry := fun idx =>
           let l := List.last idx 0%nat in
           if (l <? cx)%nat then entry x idx
           else entry y (set_last_dim (l - cx) idx) |}
  | x :: _ => x
  | [] => {| dims := []; entry := fun _ => 0 |}
  end.

Definition Zpermute (perm : list Z) (x : tensor Z) : tensor Z :=
  {| dims := map (fun p => nth (Z.to_nat p) (dims x) 0%nat) perm;
     entry := fun idx =>
       entry x (map (fun j =>
                       match list_find (fun p => p = Z.of_nat j) perm with
                       | Some (i, _) => nth i idx 0%nat
                       | None => 0%nat
                       end)
                    (seq 0 (length perm))) |}.

Definition Zdropout (d : Dropout) (k : nat) (x : tensor Z) : tensor Z :=
  if Qeq_bool (drop_p d) 0 then x else Zmap (fun _ => 0) x.

#[export] Instance ZTorch : Torch Z := {|
  tadd := Zzip Z.add;
  tsub := Zzip Z.sub;
  tcat_last := Zcat;
  permute := Zpermute;
  select_last0 := fun x =>
    {| dims := removelast (dims x);
       entry := fun idx => entry x (idx ++ [0%nat])%list |};
  narrow1 := fun _ x => x;
  dropout_fwd := Zdropout;
  unary_fwd := Zunary;
  graph_fwd := fun _ x _ => Zmap Z.opp x;
  attn_fwd := fun _ q _ _ _ _ => (Zmap (Z.mul 2) q, q);
  spectral_fwd := fun _ x => (x, x);
  inverse_transform := fun _ x => x
|}.

(** The constant tensor of a given shape. *)
Definition Zconst (ds : list nat) (v : Z) : tensor Z :=
  {| dims := ds; entry := fun _ => v |}.

(** ** When a forward pass goes through

    Decidable conditions on a constructed operator under which the forward
    pass raises nothing. *)

Definition has_layer (l : option Layer) : bool :=
  match l with Some _ => true | None => false end.

(** A Fourier-type encoder layer called with a position tensor returns; it
    returns a weight map exactly when [return_attn_weight] asks for one.  A
    torch-style layer is not counted as ready: it concatenates the positions
    to its input, and its attention refuses the enlarged width. *)
Definition encoder_ready (return_attn_weight : pyval) (e : encoder_layer)
    : bool :=
  match e with
  | EncFourier l =>
      Bool.eqb (truthy (el_attn_weight l)) (truthy return_attn_weight)
      && is_Ok (py_gt0 (el_pos_dim l))
      && (negb (truthy (el_add_pos_emb l)) || has_layer (el_pos_emb l))
      && (negb (truthy (el_add_layer_norm l))
          || (has_layer (el_layer_norm1 l) && has_layer (el_layer_norm2 l)))
  | EncOfficial _ => false
  end.

Definition regressor_ready (r : regressor) (grid_given : bool) : bool :=
  match r with
  | RegPointwise p =>
      negb (truthy (pr_spacial_fc p)) || (grid_given && has_layer (pr_fc p))
  | RegSpectral s =>
      (negb (truthy (sr_spacial_fc s)) || (grid_given && has_layer (sr_fc s)))
      && negb (truthy (sr_return_freq s))
  end.

(** The attribute reads and the layers of [FourierTransformer.forward]. *)
Definition FourierTransformer_ready (m : FourierTransformer)
    (grid_given : bool) : bool :=
  let self := ft_self m in
  match self !! "spacial_residual", self !! "return_ortho",
        self !! "return_attn_weight", self !! "n_freq_targets" with
  | Some _, Some _, Some raw, Some nf =>
      forallb (encoder_ready raw) (ft_encoder_layers m)
      && regressor_ready (ft_regressor m) grid_given
      && match py_gt0 nf with
         | Ok true =>
             match ft_freq_regressor m, self !! "pred_len" with
             | Some _, Some _ => true
             | _, _ => false
             end
         | Ok false => true
         | Raise _ => false
         end
  | _, _, _, _ => false
  end.

(** The value of an attribute, [None] when it was never set. *)
Definition attr_or_None (self : gmap string pyval) (key : string) : pyval :=
  default PNone (self !! key).

(** ** The attributes after the loop of [_get_setting]

    When the loop goes through, the attributes are the entries of the
    configuration together with [None] for every name of [ADDITIONAL_ATTR]
    the configuration leaves out. *)
Definition configured_attrs (config : gmap string pyval)
    : gmap string pyval :=
  foldr (fun key attrs => <[key := config_get config key]> attrs)
        config ADDITIONAL_ATTR.

(** The settings of the configuration at the end of [libs/model.py],
    together with [ADDITIONAL_ATTR]. *)
Definition documented_settings : list string :=
  (["node_feats"; "edge_feats"; "pos_dim"; "n_targets"; "n_hidden";
    "num_feat_layers"; "num_ft_layers"; "n_head"; "pred_len";
    "n_freq_targets"; "dim_feedforward"; "feat_extract_type";
    "graph_activation"; "raw_laplacian"; "attention_type"; "xavier_init";
    "diagonal_weight"; "symmetric_init"; "layer_norm"; "attn_norm";
    "batch_norm"; "spacial_residual"; "return_attn_weight"; "seq_len";
    "bulk_regression"; "decoder_type"; "freq_dim"; "num_regressor_layers";
    "fourier_modes"; "spacial_dim"; "spacial_fc"; "dropout"; "debug"]
   ++ ADDITIONAL_ATTR)%list.

(** Whether every key of a configuration is one of [names]. *)
Definition keys_among (names : list string) (config : gmap string pyval)
    : bool :=
  forallb (fun key => bool_decide (key ∈ names)) (map_to_list config).*1.

(** ** The stages of the Fourier-type encoder layer

    [FourierTransformerEncoderLayer.forward] in three parts: what enters the
    attention (lines 103-106), the attention branch (lines 108-112), and
    what follows the residual step of lines 114-117 (lines 118-130). *)
Definition attention_input {A : Type} `{Torch A}
    (self : FourierTransformerEncoderLayer) (x : tensor A)
    : result (tensor A) :=
  if truthy (el_add_pos_emb self) then
    let x := permute [1; 0; 2] x in
    let! x := apply_opt (el_pos_emb self) x in
    Ok (permute [1; 0; 2] x)
  else Ok x.

Definition attention_branch {A : Type} `{Torch A}
    (self : FourierTransformerEncoderLayer) (x : tensor A)
    (pos weight : option (tensor A)) : result (tensor A * tensor A) :=
  let! with_pos :=
    match pos with
    | Some _ => py_gt0 (el_pos_dim self)
    | None => Ok false
    end in
  Ok (if with_pos then attn_fwd (el_attn self) x x x pos weight
      else attn_fwd (el_attn self) x x x None weight).

Definition after_residual {A : Type} `{Torch A}
    (self : FourierTransformerEncoderLayer) (x attn_weight : tensor A)
    : result (tensor A * option (tensor A)) :=
  let! x :=
    if truthy (el_add_layer_norm self)
    then apply_opt (el_layer_norm1 self) x else Ok x in
  let x1 := unary_fwd (el_ff self) x in
  let x := tadd x (dropout_fwd (el_dropout2 self) 0 x1) in
  let! x :=
    if truthy (el_add_layer_norm self)
    then apply_opt (el_layer_norm2 self) x else Ok x in
  if truthy (el_attn_weight self) then Ok (x, Some attn_weight)
  else Ok (x, None).

(** ** The outputs of the encoder stack

    The output of every encoder layer in turn, each layer applied to the
    output of the one before it. *)
Fixpoint encoder_outputs {A : Type} `{Torch A}
    (layers : list encoder_layer) (pos weight : option (tensor A))
    (x : tensor A) : result (list (tensor A)) :=
  match layers with
  | [] => Ok []
  | encoder :: layers' =>
      let! xw := encoder_forward encoder x pos weight in
      let! xs := encoder_outputs layers' pos weight (fst xw) in
      Ok (fst xw :: xs)
  end.

(** ** The 2D operator up to the upscaled tensor

    Lines 825-851 of [FourierTransformer2D.forward]: from the input to the
    upscaled, dropped-out tensor that the decoding part starts from,
    together with the snapshots and weight maps collected on the way. *)
Definition encode2D {A : Type} `{Torch A} (m : FourierTransformer2D)
    (node edge pos : tensor A) (weight : option (tensor A))
    : result (tensor A * list (tensor A) * list (tensor A)) :=
  let self := ft2_self m in
  let! bsz := size node 0 in
  let bsz := Z.to_nat bsz in
  let! seq_len := size pos 1 in
  let n_s := Z.to_nat (Z.sqrt seq_len) in
  let x_ortho := [] in
  let attn_weights := [] in
  let! scaler := getattr self "scaler" in
  let! node :=
    if negb (truthy scaler) then
      let! p := view_infer [bsz; n_s; n_s] [] pos in
      Ok (tcat_last [node; p])
    else Ok node in
  let! x := downscaler_forward (ft2_downscaler m) node in
  let! n_hidden := getattr self "n_hidden" in
  let! n_hidden := as_dim n_hidden in
  let! x := view_infer [bsz] [n_hidden] x in
  let! x := feat_extract_forward (ft2_feat_extract m) x edge in
  let x := dropout_fwd (ft2_dropout m) 0 x in
  let! (x, x_ortho, attn_weights) :=
    encoder_loop self (ft2_encoder_layers m) (Some pos) weight
      x x_ortho attn_weights in
  let! x := view [bsz; n_s; n_s; n_hidden] x in
  let x := upscaler_forward (ft2_upscaler m) x in
  let x := dropout_fwd (ft2_dropout m) 1 x in
  Ok (x, x_ortho, attn_weights).

(** ** The zero border

    A tensor whose last three dimensions are [(h + 2, w + 2, c)] has a zero
    border when every entry on the first or last index of the two
    dimensions before the last is [zero]. *)
Definition zero_border {A : Type} (zero : A) (p : tensor A) : Prop :=
  exists (lead : list nat) (h w c : nat),
    dims p = (lead ++ [h + 2; w + 2; c])%list%nat /\
    forall (li : list nat) (j k l : nat),
      length li = length lead ->
      j = 0%nat \/ j = S h \/ k = 0%nat \/ k = S w ->
      entry p (li ++ [j; k; l])%list = zero.

(** Whether the 2D operator pads: [boundary_condition == 'dirichlet' or
    boundary_condition is None]. *)
Definition pads_border (boundary_condition : pyval) : bool :=
  py_eq_str boundary_condition "dirichlet" || is_None boundary_condition.

(** ** Sample configurations and inputs *)

(** The attributes that [_get_setting] rebinds after the loop. *)
Definition rebound_attr : list string :=
  ["dim_feedforward"; "spacial_dim"; "spacial_fc"; "num_ft_layers";
   "scaler"].

(** Arguments of an encoder layer with softmax attention. *)
Definition softmax_args (dropout : pyval) : EncoderLayerArgs :=
  {| a_d_model := PInt 96;
     a_pos_dim := PInt 1;
     a_n_head := PInt 2;
     a_dim_feedforward := PInt 512;
     a_attention_type := PStr "softmax";
     a_pos_emb := PBool false;
     a_layer_norm := PBool true;
     a_attn_norm := PNone;
     a_norm_type := PStr "layer";
     a_batch_norm := PBool false;
     a_attn_weight := PBool false;
     a_xavier_init := PFloat (1 # 10000);
     a_diagonal_weight := PFloat 1;
     a_symmetric_init := PBool true;
     a_residual_type := PStr "add";
     a_activation_type := PStr "relu";
     a_dropout := dropout;
     a_debug := PBool false |}.


(** A complete configuration in the style of the one at the end of
    [libs/model.py], with a pointwise decoder and no graph layers, for a
    given attention type, hidden width and head count. *)
Definition sample_config (attention_type : string) (n_hidden n_head : Z)
    : gmap string pyval :=
  list_to_map
    [("node_feats", PInt 1); ("edge_feats", PInt 5); ("pos_dim", PInt 1);
     ("n_targets", PInt 1); ("n_hidden", PInt n_hidden);
     ("num_feat_layers", PInt 0); ("num_ft_layers", PInt 2);
     ("n_head", PInt n_head); ("pred_len", PInt 0);
     ("n_freq_targets", PInt 0); ("dim_feedforward", PNone);
     ("feat_extract_type", PStr "gcn"); ("graph_activation", PBool true);
     ("raw_laplacian", PBool true);
     ("attention_type", PStr attention_type);
     ("xavier_init", PFloat (1 # 10000));
     ("diagonal_weight", PFloat (1 # 100));
     ("symmetric_init", PBool false); ("layer_norm", PBool true);
     ("attn_norm", PBool false); ("batch_norm", PBool false);
     ("spacial_residual", PBool false); ("return_attn_weight", PBool true);
     ("seq_len", PNone); ("bulk_regression", PBool false);
     ("decoder_type", PStr "pointwise"); ("freq_dim", PInt 64);
     ("num_regressor_layers", PInt 2); ("fourier_modes", PInt 16);
     ("spacial_dim", PInt 1); ("spacial_fc", PBool false);
     ("dropout", PFloat (1 # 10)); ("encoder_dropout", PFloat (1 # 10));
     ("debug", PBool false)].

Definition is_official (e : encoder_layer) : bool :=
  match e with EncOfficial _ => true | EncFourier _ => false end.

(** Arguments of an encoder layer with fourier attention, for a given
    residual type and dropout value. *)
Definition fourier_args (residual_type dropout : pyval) : EncoderLayerArgs :=
  {| a_d_model := PInt 96;
     a_pos_dim := PInt 1;
     a_n_head := PInt 2;
     a_dim_feedforward := PInt 512;
     a_attention_type := PStr "fourier";
     a_pos_emb := PBool false;
     a_layer_norm := PBool true;
     a_attn_norm := PNone;
     a_norm_type := PStr "layer";
     a_batch_norm := PBool false;
     a_attn_weight := PBool false;
     a_xavier_init := PFloat (1 # 10000);
     a_diagonal_weight := PFloat 1;
     a_symmetric_init := PBool true;
     a_residual_type := residual_type;
     a_activation_type := PStr "relu";
     a_dropout := dropout;
     a_debug := PBool false |}.

(** The graph stack as the spec words it: "ReLU between all but the last
    layer", that is a ReLU between every two consecutive graph layers,
    the initial layer included, and none after the final one. *)
Section SpecGraphStack.
Context {A : Type} `{Torch A}.

Fixpoint spec_graph_stack (relu : Layer) (layers : list Layer)
    (edge x : tensor A) : tensor A :=
  match layers with
  | [] => x
  | l :: rest =>
      match rest with
      | [] => graph_fwd l x edge
      | _ :: _ =>
          spec_graph_stack relu rest edge
            (unary_fwd relu (graph_fwd l x edge))
      end
  end.

Definition spec_GAT_forward (self : GAT) (x edge : tensor A) : tensor A :=
  spec_graph_stack (gat_relu self) (gat_layer0 self :: gat_layers self)
    (select_last0 edge) x.

(** What the source applies to the output of the initial layer: a ReLU
    after each stacked layer but the last. *)
Definition stacked_layers (relu : Layer) (init : list Layer)
    (last : Layer) (edge out : tensor A) : tensor A :=
  graph_fwd last
    (fold_left (fun out g => unary_fwd relu (graph_fwd g out edge))
               init out)
    edge.

End SpecGraphStack.

Definition Zconst3 (a b c : nat) (v : Z) : tensor Z := Zconst [a; b; c] v.

Definition Zconst4 (a b c d : nat) (v : Z) : tensor Z :=
  Zconst [a; b; c; d] v.

(** Node features and edge features of a two-node graph. *)
Definition sample_node : tensor Z := Zconst3 1 2 1 1.

Definition sample_edge : tensor Z := Zconst4 1 2 2 5 1.

(** The sample configuration with the spatial residual switched on;
    [return_ortho] stays unset. *)
Definition residual_config : gmap string pyval :=
  <["spacial_residual" := PBool true]> (sample_config "fourier" 96 2).

Definition sample_pos : tensor Z := Zconst3 1 2 1 0.

(** A configuration of the 2D operator with interpolating scalers between
    resolution 33 and resolution 17, for a given boundary condition. *)
Definition scaler_config (boundary_condition : pyval) : gmap string pyval :=
  list_to_map
    [("boundary_condition", boundary_condition);
     ("upscaler_size", PSeq [inject_Z 33; inject_Z 33]);
     ("downscaler_size", PSeq [1 # 2; 1 # 2]);
     ("downsample_mode", PStr "interp"); ("upsample_mode", PStr "interp");
     ("downscaler_dropout", PFloat 0); ("upscaler_dropout", PFloat 0);
     ("node_feats", PInt 1); ("edge_feats", PInt 5); ("pos_dim", PInt 2);
     ("n_targets", PInt 1); ("n_hidden", PInt 4);
     ("num_feat_layers", PInt 0); ("num_ft_layers", PInt 2);
     ("n_head", PInt 2); ("dim_feedforward", PNone);
     ("feat_extract_type", PNone); ("graph_activation", PBool true);
     ("attention_type", PStr "galerkin");
     ("xavier_init", PFloat (1 # 100)); ("diagonal_weight", PFloat (1 # 100));
     ("symmetric_init", PBool false); ("layer_norm", PBool false);
     ("attn_norm", PBool true); ("batch_norm", PBool false);
     ("return_attn_weight", PBool false);
     ("decoder_type", PStr "pointwise");
     ("num_regressor_layers", PInt 2);
     ("spacial_dim", PInt 2); ("spacial_fc", PBool false);
     ("dropout", PFloat 0); ("debug", PBool false)].

(** The inputs of the end-to-end scenario: a 33 x 33 grid of node
    features, positions on the coarse 17 x 17 grid, and the 31 x 31 grid of
    interior points. *)
Definition grid33_node : tensor Z := Zconst4 2 33 33 1 1.

Definition grid33_pos : tensor Z := Zconst3 2 289 2 0.

Definition grid33_edge : tensor Z := Zconst4 2 289 289 1 0.

Definition grid31_grid : tensor Z := Zconst4 2 31 31 2 0.

(** The scaler configuration without any mention of the boundary
    condition. *)
Definition default_boundary_config : gmap string pyval :=
  delete "boundary_condition" (scaler_config PNone).

(** An upscaled tensor at resolution 33 with four hidden channels. *)
Definition upscaled33 : tensor Z := Zconst4 2 33 33 4 1.


(** ** More sample configurations *)

(** The sample configuration without its [dim_feedforward] entry. *)
Definition no_dim_feedforward_config : gmap string pyval :=
  delete "dim_feedforward" (sample_config "fourier" 96 2).

(** The sample configuration with an additional key ['config']. *)
Definition config_key_config : gmap string pyval :=
  <["config" := PInt 5]> (sample_config "fourier" 96 2).

(** The sample configuration with another decoder type. *)
Definition decoder_config (decoder_type : string) : gmap string pyval :=
  <["decoder_type" := PStr decoder_type]> (sample_config "fourier" 96 2).

(** Whether a forward pass returned a second component. *)
Definition has_weight {X : Type} (w : option X) : bool :=
  match w with Some _ => true | None => false end.

(** Arguments of an encoder layer with galerkin attention, for a given
    [pos_dim], [layer_norm] and [attn_norm]. *)
Definition galerkin_args (pos_dim layer_norm attn_norm : pyval)
    : EncoderLayerArgs :=
  {| a_d_model := PInt 96;
     a_pos_dim := pos_dim;
     a_n_head := PInt 2;
     a_dim_feedforward := PInt 192;
     a_attention_type := PStr "galerkin";
     a_pos_emb := PBool false;
     a_layer_norm := layer_norm;
     a_attn_norm := attn_norm;
     a_norm_type := PNone;
     a_batch_norm := PBool false;
     a_attn_weight := PBool true;
     a_xavier_init := PFloat (1 # 100);
     a_diagonal_weight := PFloat (1 # 100);
     a_symmetric_init := PBool false;
     a_residual_type := PStr "add";
     a_activation_type := PStr "silu";
     a_dropout := PFloat (1 # 20);
     a_debug := PBool false |}.

(** The sample configuration with three frequency targets. *)
Definition freq_config : gmap string pyval :=
  <["n_freq_targets" := PInt 3]> (sample_config "fourier" 96 2).

(** An upscaled tensor that already has the grid's resolution 31. *)
Definition upscaled31 : tensor Z := Zconst4 2 31 31 4 1.

(** ** Downscaled positions: [FourierTransformer2D.get_pos] *)

Section GetPos.
Context {A : Type}.

(** [x[..., c]]: the entry [c] of the last dimension, which is dropped. *)
Definition select_last (c : nat) (x : tensor A) : result (tensor A) :=
  let r := length (dims x) in
  match drop (r - 1) (dims x) with
  | [n] =>
      if (c <? n)%nat
      then Ok {| dims := take (r - 1) (dims x);
                 entry := fun idx => entry x (idx ++ [c])%list |}
      else Raise IndexError
  | _ => Raise IndexError
  end.

(** [x[:, ::step, ::step]]: every [step]-th index of dimensions 1 and 2;
    torch refuses a step that is not positive. *)
Definition stride_grid (step : Z) (x : tensor A) : result (tensor A) :=
  if (step <=? 0)%Z then Raise ValueError
  else
    let d := Z.to_nat step in
    match dims x with
    | b :: h :: w :: rest =>
        Ok {| dims := b :: ((h + d - 1) / d)%nat :: ((w + d - 1) / d)%nat
                        :: rest;
              entry := fun idx =>
                match idx with
                | i :: j :: k :: idx' =>
                    entry x (i :: (j * d)%nat :: (k * d)%nat :: idx')
                | _ => entry x idx
                end |}
    | _ => Raise IndexError
    end.

(** [torch.stack([x, y], dim=-1)]: the two tensors must have one shape. *)
Definition stack_last (x y : tensor A) : result (tensor A) :=
  if bool_decide (dims x = dims y) then
    Ok {| dims := (dims x ++ [2%nat])%list;
          entry := fun idx =>
            let pre := take (length idx - 1) idx in
            match drop (length idx - 1) idx with
            | [0%nat] => entry x pre
            | _ => entry y pre
            end |}
  else Raise RuntimeError.

(** [get_pos(pos, downsample)]. *)
Definition get_pos (pos : tensor A) (downsample : Z)
  : result (tensor A) :=
  let! bsz := size pos 0 in
  let! n_grid := size pos 1 in
  let! x := select_last 0 pos in
  let! y := select_last 1 pos in
  let! x := view [Z.to_nat bsz; Z.to_nat n_grid; Z.to_nat n_grid] x in
  let! y := view [Z.to_nat bsz; Z.to_nat n_grid; Z.to_nat n_grid] y in
  let! x := stride_grid downsample x in
  let! y := stride_grid downsample y in
  stack_last x y.

End GetPos.

(** The positions of a [3 x 3] grid, one batch: entry [[i; j; k; c]] is
    [10 j + k] for the first coordinate and its negation for the second. *)
Definition grid3_pos : tensor Z :=
  {| dims := [1; 3; 3; 2]%nat;
     entry := fun idx =>
       match idx with
       | [_; j; k; 0%nat] => Z.of_nat (10 * j + k)
       | [_; j; k; _] => - Z.of_nat (10 * j + k)
       | _ => 0
       end |}.

(** The same positions as the forward pass takes them: a list of nine
    points. *)
Definition list9_pos : tensor Z :=
  {| dims := [1; 9; 2]%nat;
     entry := fun idx =>
       match idx with
       | [_; p; 0%nat] => Z.of_nat p
       | _ => 0
       end |}.
(** * Properties *)

(** ** The error monad *)

Lemma rbind_Ok_inv {A B : Type} (c : result A) (k : A -> result B) (b : B) :
  rbind c k = Ok b -> exists a, c = Ok a /\ k a = Ok b.
Proof.
  destruct c as [a|e]; simpl; intros Hk; [|discriminate].
  exists a; split; [reflexivity | exact Hk].
Qed.

Lemma raises_Raise {A : Type} (e : pyerr) : raises (@Raise A e).
Proof. exists e; reflexivity. Qed.

Lemma raises_bind {A B : Type} (c : result A) (k : A -> result B) :
  (forall a, c = Ok a -> raises (k a)) -> raises (rbind c k).
Proof.
  intros Hk. destruct c as [a|e]; simpl.
  - apply Hk; reflexivity.
  - apply raises_Raise.
Qed.

Lemma raises_bind_l {A B : Type} (c : result A) (k : A -> result B) :
  raises c -> raises (rbind c k).
Proof. intros [e ->]. apply raises_Raise. Qed.

Lemma raises_not_Ok {A : Type} (r : result A) (a : A) :
  raises r -> r <> Ok a.
Proof. intros [e ->]; discriminate. Qed.

Create HintDb py.
#[local] Hint Resolve raises_Raise : py.

(** Splits a hypothesis [let! x := c in k = Ok b] into its two steps. *)
Ltac inv_bind H :=
  let a := fresh "a" in
  let Ha := fresh "E" in
  apply rbind_Ok_inv in H; destruct H as (a & Ha & H).

Ltac inv_bind_as H a Ha :=
  apply rbind_Ok_inv in H; destruct H as (a & Ha & H).

(** ** Attributes *)

Lemma getattr_Some (self : gmap string pyval) (key : string) (v : pyval) :
  self !! key = Some v -> getattr self key = Ok v.
Proof. unfold getattr; intros ->; reflexivity. Qed.

Lemma getattr_Ok (self : gmap string pyval) (key : string) (v : pyval) :
  getattr self key = Ok v -> self !! key = Some v.
Proof.
  unfold getattr; destruct (self !! key); intros E; [|discriminate].
  injection E as ->; reflexivity.
Qed.

Lemma configured_attrs_other (config : gmap string pyval) (key : string) :
  key ∉ ADDITIONAL_ATTR -> configured_attrs config !! key = config !! key.
Proof.
  unfold configured_attrs. induction ADDITIONAL_ATTR as [|k ks IH]; simpl.
  - reflexivity.
  - intros Hk. apply not_elem_of_cons in Hk as [Hne Hks].
    rewrite lookup_insert_ne by congruence. apply IH, Hks.
Qed.

Lemma configured_attrs_additional (config : gmap string pyval)
    (key : string) :
  key ∈ ADDITIONAL_ATTR ->
  configured_attrs config !! key = Some (config_get config key).
Proof.
  unfold configured_attrs. induction ADDITIONAL_ATTR as [|k ks IH]; simpl.
  - intros Hk; inversion Hk.
  - intros Hk. destruct (decide (k = key)) as [->|Hne].
    + apply lookup_insert_eq.
    + rewrite lookup_insert_ne by exact Hne.
      apply IH. apply elem_of_cons in Hk as [->|Hk]; [congruence|exact Hk].
Qed.


(** *** The loop over [all_attr]

    Once [self.config] has been rebound, the next round raises; as long as
    the key ['config'] does not come up, the loop inserts one attribute per
    key. *)

Local Abbreviation setattr_loop :=
  (foldl (fun st key => let! st := st in setattr_from_config st key)).

Lemma setattr_loop_Raise (e : pyerr) (l : list string) :
  setattr_loop (Raise e) l = Raise e.
Proof. induction l as [|k l IH]; simpl; [reflexivity | exact IH]. Qed.

Lemma setattr_loop_value (v : pyval) (attrs : gmap string pyval)
    (l : list string) :
  l <> [] -> setattr_loop (Ok (ConfigValue v, attrs)) l = Raise TypeError.
Proof.
  destruct l as [|k l]; [congruence|]. intros _. simpl.
  apply setattr_loop_Raise.
Qed.

Lemma setattr_loop_dict (config attrs : gmap string pyval)
    (l : list string) :
  "config" ∉ l ->
  setattr_loop (Ok (ConfigDict config, attrs)) l
  = Ok (ConfigDict config,
        foldl (fun a k => <[k := config_get config k]> a) attrs l).
Proof.
  revert attrs. induction l as [|k l IH]; intros attrs Hn; simpl.
  - reflexivity.
  - apply not_elem_of_cons in Hn as [Hk Hl].
    unfold setattr_from_config at 2. simpl.
    destruct (String.eqb_spec k "config") as [->|_]; [congruence|].
    apply IH, Hl.
Qed.

Lemma setattr_loop_config (config attrs : gmap string pyval)
    (l l' : list string) :
  "config" ∈ l -> l' <> [] ->
  setattr_loop (Ok (ConfigDict config, attrs)) (l ++ l') = Raise TypeError.
Proof.
  revert attrs. induction l as [|k l IH]; intros attrs Hin Hl'.
  - inversion Hin.
  - simpl. unfold setattr_from_config at 2. simpl.
    destruct (String.eqb_spec k "config") as [->|Hne].
    + apply setattr_loop_value. destruct l; [exact Hl' | discriminate].
    + apply IH; [|exact Hl'].
      apply elem_of_cons in Hin as [Hin|Hin]; [congruence | exact Hin].
Qed.

Lemma lookup_foldl_insert (config attrs : gmap string pyval)
    (l : list string) (key : string) :
  foldl (fun a k => <[k := config_get config k]> a) attrs l !! key
  = if bool_decide (key ∈ l) then Some (config_get config key)
    else attrs !! key.
Proof.
  revert attrs. induction l as [|k l IH]; intros attrs; cbn [foldl].
  - rewrite bool_decide_eq_false_2 by apply not_elem_of_nil. reflexivity.
  - rewrite IH. destruct (decide (key ∈ l)) as [Hl|Hl].
    + rewrite !bool_decide_eq_true_2;
        [reflexivity | apply list_elem_of_further, Hl | exact Hl].
    + rewrite (bool_decide_eq_false_2 _ Hl).
      destruct (decide (key = k)) as [->|Hne].
      * rewrite lookup_insert_eq.
        rewrite bool_decide_eq_true_2 by apply list_elem_of_here.
        reflexivity.
      * rewrite lookup_insert_ne by congruence.
        rewrite bool_decide_eq_false_2; [reflexivity|].
        intros Hin. apply elem_of_cons in Hin as [Hin|Hin]; congruence.
Qed.

Lemma config_key_listed (config : gmap string pyval) (key : string) :
  key ∈ (map_to_list config).*1 <-> is_Some (config !! key).
Proof.
  split.
  - intros Hin. apply list_elem_of_fmap in Hin as ([k v] & -> & Hin).
    apply elem_of_map_to_list in Hin. simpl. eexists; exact Hin.
  - intros [v Hv]. apply list_elem_of_fmap. exists (key, v).
    split; [reflexivity|]. apply elem_of_map_to_list, Hv.
Qed.

(** The loop raises exactly when the configuration has a key ['config'];
    otherwise it leaves the attributes [configured_attrs]. *)
Lemma set_all_attr_spec (config : gmap string pyval) :
  set_all_attr config
  = match config !! "config" with
    | Some _ => Raise TypeError
    | None => Ok (configured_attrs config)
    end.
Proof.
  unfold set_all_attr. destruct (config !! "config") as [v|] eqn:Ec.
  - rewrite setattr_loop_config; [reflexivity | | discriminate].
    apply config_key_listed. eexists; exact Ec.
  - rewrite setattr_loop_dict.
    + simpl. f_equal. apply map_eq. intros key.
      rewrite lookup_foldl_insert.
      destruct (decide (key ∈ ADDITIONAL_ATTR)) as [Ha|Ha].
      * rewrite bool_decide_eq_true_2 by (apply elem_of_app; right; exact Ha).
        symmetry. apply configured_attrs_additional, Ha.
      * rewrite (configured_attrs_other _ _ Ha).
        destruct (config !! key) as [w|] eqn:Ek.
        -- rewrite bool_decide_eq_true_2.
           ++ unfold config_get. rewrite Ek. reflexivity.
           ++ apply elem_of_app. left. apply config_key_listed.
              eexists; exact Ek.
        -- rewrite bool_decide_eq_false_2; [apply lookup_empty|].
           intros Hin. apply elem_of_app in Hin as [Hin|Hin];
             [|exact (Ha Hin)].
           apply config_key_listed in Hin as [w Hw]. congruence.
    + intros Hin. apply elem_of_app in Hin as [Hin|Hin].
      * apply config_key_listed in Hin as [w Hw]. congruence.
      * unfold ADDITIONAL_ATTR in Hin.
        repeat (apply elem_of_cons in Hin as [Hin|Hin]; [discriminate|]).
        inversion Hin.
Qed.

Lemma set_all_attr_Ok (config attrs : gmap string pyval) :
  set_all_attr config = Ok attrs ->
  config !! "config" = None /\ attrs = configured_attrs config.
Proof.
  rewrite set_all_attr_spec. destruct (config !! "config");
    [discriminate|].
  intros E. injection E as <-. split; reflexivity.
Qed.

(** [common_setting] changes no attribute but [dim_feedforward]. *)
Lemma common_setting_other (config self : gmap string pyval) (key : string) :
  common_setting config = Ok self ->
  key <> "dim_feedforward" ->
  self !! key = configured_attrs config !! key.
Proof.
  unfold common_setting. intros E Hne.
  inv_bind_as E attrs Ea. apply set_all_attr_Ok in Ea as [_ ->].
  inv_bind E. inv_bind E. injection E as <-.
  rewrite lookup_insert_ne by congruence. reflexivity.
Qed.

Lemma bump_num_ft_layers_other (self self' : gmap string pyval)
    (key : string) :
  bump_num_ft_layers self = Ok self' ->
  key <> "num_ft_layers" ->
  self' !! key = self !! key.
Proof.
  unfold bump_num_ft_layers. intros E Hne. inv_bind E.
  destruct (py_eq_str a "attention").
  - inv_bind E. inv_bind E. injection E as <-.
    rewrite lookup_insert_ne by congruence. reflexivity.
  - injection E as <-. reflexivity.
Qed.

Lemma FourierTransformer_get_setting_other
    (config self : gmap string pyval) (dp : Dropout) (key : string) :
  FourierTransformer_get_setting config = Ok (self, dp) ->
  key ∉ rebound_attr ->
  self !! key = configured_attrs config !! key.
Proof.
  unfold FourierTransformer_get_setting, rebound_attr. intros E Hk.
  repeat (apply not_elem_of_cons in Hk as [? Hk]).
  inv_bind E. inv_bind E. inv_bind E. inv_bind E. inv_bind E.
  injection E as <- <-.
  erewrite bump_num_ft_layers_other by (eassumption || congruence).
  rewrite !lookup_insert_ne by congruence.
  eapply common_setting_other; [eassumption | congruence].
Qed.

Lemma FourierTransformer2D_get_setting_other
    (config self : gmap string pyval) (dp : Dropout) (key : string) :
  FourierTransformer2D_get_setting config = Ok (self, dp) ->
  key ∉ rebound_attr ->
  self !! key = configured_attrs config !! key.
Proof.
  unfold FourierTransformer2D_get_setting, rebound_attr. intros E Hk.
  repeat (apply not_elem_of_cons in Hk as [? Hk]).
  inv_bind E. inv_bind E. inv_bind E. inv_bind E. inv_bind E.
  injection E as <- <-.
  rewrite lookup_insert_ne by congruence.
  erewrite bump_num_ft_layers_other by (eassumption || congruence).
  eapply common_setting_other; [eassumption | congruence].
Qed.

(** ** Construction of an encoder layer *)

Lemma nn_Dropout_one_tenth (k : nat) :
  nn_Dropout k (PFloat one_tenth)
  = Ok {| drop_p := one_tenth; drop_path := [k] |}.
Proof. reflexivity. Qed.

Lemma encoder_layer_dropout_linear_softmax (attention_type dropout : pyval) :
  py_in_strs attention_type ["linear"; "softmax"] = true ->
  encoder_layer_dropout attention_type dropout = PFloat one_tenth.
Proof. unfold encoder_layer_dropout. intros ->. reflexivity. Qed.

(** C9.  Whatever dropout value is configured, [None] included, an encoder
    layer built with attention type ['linear'] or ['softmax'] uses the rate
    0.1, hence a rate of at least 0.1, in both of its dropout modules and in
    the rate it hands to its attention kernel; its construction can only
    fail inside the attention kernel's own constructor. *)
Theorem linear_softmax_dropout_floor (a : EncoderLayerArgs) :
  py_in_strs (a_attention_type a) ["linear"; "softmax"] = true ->
  match FourierTransformerEncoderLayer_init a with
  | Ok l =>
      (one_tenth <= drop_p (el_dropout1 l))%Q /\
      (one_tenth <= drop_p (el_dropout2 l))%Q /\
      lookup_arg "dropout" (layer_args (el_attn l)) = PFloat one_tenth
  | Raise e =>
      exists args,
        SimpleAttention_init args (a_n_head a) (a_d_model a) = Raise e
  end.
Proof.
  intros Hty. unfold FourierTransformerEncoderLayer_init.
  rewrite (encoder_layer_dropout_linear_softmax _ _ Hty).
  match goal with
  | |- context [SimpleAttention_init ?args _ _] => set (args0 := args)
  end.
  destruct (SimpleAttention_init args0 (a_n_head a) (a_d_model a))
    as [attn|e] eqn:E; simpl.
  - assert (Hargs : layer_args attn = args0).
    { unfold SimpleAttention_init in E.
      destruct (a_d_model a), (a_n_head a); try discriminate.
      destruct (z0 =? 0)%Z; [discriminate|].
      destruct (z mod z0 =? 0)%Z; [|discriminate].
      injection E as <-. reflexivity. }
    rewrite Hargs. repeat split; apply Qle_refl.
  - exists args0. exact E.
Qed.

Lemma linear_softmax_dropout_floor_witness :
  py_in_strs (a_attention_type (softmax_args PNone)) ["linear"; "softmax"]
  = true /\
  match FourierTransformerEncoderLayer_init (softmax_args PNone) with
  | Ok l =>
      (one_tenth <= drop_p (el_dropout1 l))%Q /\
      (one_tenth <= drop_p (el_dropout2 l))%Q /\
      lookup_arg "dropout" (layer_args (el_attn l)) = PFloat one_tenth
  | Raise e =>
      exists args,
        SimpleAttention_init args (a_n_head (softmax_args PNone))
          (a_d_model (softmax_args PNone)) = Raise e
  end.
Proof.
  split; [reflexivity|].
  apply (linear_softmax_dropout_floor (softmax_args PNone)). reflexivity.
Defined.

(** A configured rate above 0.1 is lowered to 0.1 as well. *)
Example softmax_dropout_half :
  drop_p <$> (match FourierTransformerEncoderLayer_init
                      (softmax_args (PFloat (1 # 2))) with
              | Ok l => Some (el_dropout1 l)
              | Raise _ => None
              end) = Some one_tenth.
Proof. reflexivity. Qed.

(** ** Head count and hidden width *)

(** Skips the attribute reads in front of a constructor call. *)
Ltac skip_getattr :=
  repeat match goal with
         | |- raises (rbind (getattr _ _) _) =>
             apply raises_bind; intros ? _
         end.

Lemma SimpleAttention_init_indivisible
    (args : list (string * pyval)) (d h : Z) :
  (d mod h <> 0)%Z ->
  raises (SimpleAttention_init args (PInt h) (PInt d)).
Proof.
  intros Hmod. unfold SimpleAttention_init.
  destruct (h =? 0)%Z; [apply raises_Raise|].
  destruct (d mod h =? 0)%Z eqn:E; [|apply raises_Raise].
  apply Z.eqb_eq in E. contradiction.
Qed.

Lemma MultiheadAttention_init_indivisible (d h : Z) (dropout : pyval) :
  (d mod h <> 0)%Z ->
  raises (MultiheadAttention_init (PInt d) (PInt h) dropout).
Proof.
  intros Hmod. unfold MultiheadAttention_init.
  destruct ((d <=? 0)%Z || (h <=? 0)%Z) eqn:Eh; [apply raises_Raise|].
  destruct (d / h * h =? d)%Z eqn:E; [|apply raises_Raise].
  apply Z.eqb_eq in E. apply orb_false_elim in Eh as [_ Eh].
  apply Z.leb_gt in Eh.
  exfalso. apply Hmod. rewrite Z.mod_eq by lia. lia.
Qed.

Lemma FourierTransformerEncoderLayer_init_indivisible
    (a : EncoderLayerArgs) (d h : Z) :
  a_d_model a = PInt d -> a_n_head a = PInt h -> (d mod h <> 0)%Z ->
  raises (FourierTransformerEncoderLayer_init a).
Proof.
  intros Hd Hh Hmod. unfold FourierTransformerEncoderLayer_init.
  rewrite Hd, Hh. apply raises_bind_l.
  apply SimpleAttention_init_indivisible, Hmod.
Qed.

Lemma official_encoder_layer_indivisible
    (self : gmap string pyval) (d h : Z) :
  self !! "n_hidden" = Some (PInt d) -> self !! "n_head" = Some (PInt h) ->
  (d mod h <> 0)%Z ->
  raises (official_encoder_layer self).
Proof.
  intros Hd Hh Hmod. unfold official_encoder_layer.
  rewrite (getattr_Some _ _ _ Hd), (getattr_Some _ _ _ Hh). simpl.
  skip_getattr. apply raises_bind_l.
  unfold TransformerEncoderLayer_init. apply raises_bind_l.
  apply MultiheadAttention_init_indivisible, Hmod.
Qed.

Lemma FourierTransformer_get_encoder_indivisible
    (self : gmap string pyval) (d h : Z) :
  self !! "n_hidden" = Some (PInt d) -> self !! "n_head" = Some (PInt h) ->
  (d mod h <> 0)%Z ->
  raises (FourierTransformer_get_encoder self).
Proof.
  intros Hd Hh Hmod. unfold FourierTransformer_get_encoder.
  apply raises_bind. intros attention_type _. apply raises_bind_l.
  destruct (py_in_strs attention_type attention_types_1D).
  - rewrite (getattr_Some _ _ _ Hd), (getattr_Some _ _ _ Hh). simpl.
    skip_getattr. apply raises_bind_l.
    eapply FourierTransformerEncoderLayer_init_indivisible;
      [reflexivity | reflexivity | exact Hmod].
  - eapply official_encoder_layer_indivisible; eassumption.
Qed.

Lemma FourierTransformer2D_get_encoder_indivisible
    (self : gmap string pyval) (d h : Z) :
  self !! "n_hidden" = Some (PInt d) -> self !! "n_head" = Some (PInt h) ->
  (d mod h <> 0)%Z ->
  raises (FourierTransformer2D_get_encoder self).
Proof.
  intros Hd Hh Hmod. unfold FourierTransformer2D_get_encoder.
  apply raises_bind. intros attention_type _. apply raises_bind_l.
  destruct (py_in_strs attention_type attention_types_2D).
  - rewrite (getattr_Some _ _ _ Hd), (getattr_Some _ _ _ Hh). simpl.
    skip_getattr. apply raises_bind_l.
    eapply FourierTransformerEncoderLayer_init_indivisible;
      [reflexivity | reflexivity | exact Hmod].
  - destruct (py_eq_str attention_type "official").
    + eapply official_encoder_layer_indivisible; eassumption.
    + apply raises_Raise.
Qed.

Lemma config_attr_kept (config : gmap string pyval) (key : string)
    (v : pyval) :
  config !! key = Some v -> key ∉ ADDITIONAL_ATTR ->
  configured_attrs config !! key = Some v.
Proof. intros Hv Hk. rewrite configured_attrs_other by exact Hk. exact Hv. Qed.

(** C4.  When the configured head count does not divide the hidden width,
    construction fails: the encoder layer's constructor raises, and so do
    the constructors of both operators, whatever the rest of the
    configuration is.  No operator object exists on which a forward pass
    could be run. *)
Theorem indivisible_head_count_fails_at_construction
    (config : gmap string pyval) (d h : Z) :
  config !! "n_hidden" = Some (PInt d) ->
  config !! "n_head" = Some (PInt h) ->
  (d mod h <> 0)%Z ->
  (forall a, a_d_model a = PInt d -> a_n_head a = PInt h ->
             raises (FourierTransformerEncoderLayer_init a)) /\
  raises (FourierTransformer_init config) /\
  raises (FourierTransformer2D_init config).
Proof.
  intros Hd Hh Hmod.
  assert (Hnot : forall k, k = "n_hidden" \/ k = "n_head" ->
                           (k ∉ ADDITIONAL_ATTR) /\ (k ∉ rebound_attr)).
  { intros k [-> | ->]; split; unfold ADDITIONAL_ATTR, rebound_attr;
      intros Hin; repeat (apply elem_of_cons in Hin as [Hin|Hin];
                          [discriminate|]); inversion Hin. }
  split; [|split].
  - intros a Ha1 Ha2.
    eapply FourierTransformerEncoderLayer_init_indivisible; eassumption.
  - unfold FourierTransformer_init. apply raises_bind.
    intros [self dp] E. unfold FourierTransformer_initialize.
    apply raises_bind. intros graph _. apply raises_bind_l.
    apply (FourierTransformer_get_encoder_indivisible self d h); [| |exact Hmod].
    + rewrite (FourierTransformer_get_setting_other _ _ _ _ E)
        by (apply Hnot; auto).
      apply config_attr_kept; [exact Hd | apply Hnot; auto].
    + rewrite (FourierTransformer_get_setting_other _ _ _ _ E)
        by (apply Hnot; auto).
      apply config_attr_kept; [exact Hh | apply Hnot; auto].
  - unfold FourierTransformer2D_init. apply raises_bind.
    intros [self dp] E. unfold FourierTransformer2D_initialize.
    apply raises_bind. intros graph _.
    apply raises_bind. intros [down up] _. apply raises_bind_l.
    apply (FourierTransformer2D_get_encoder_indivisible self d h);
      [| |exact Hmod].
    + rewrite (FourierTransformer2D_get_setting_other _ _ _ _ E)
        by (apply Hnot; auto).
      apply config_attr_kept; [exact Hd | apply Hnot; auto].
    + rewrite (FourierTransformer2D_get_setting_other _ _ _ _ E)
        by (apply Hnot; auto).
      apply config_attr_kept; [exact Hh | apply Hnot; auto].
Qed.

Lemma indivisible_head_count_witness :
  sample_config "fourier" 10 3 !! "n_hidden" = Some (PInt 10) /\
  sample_config "fourier" 10 3 !! "n_head" = Some (PInt 3) /\
  (10 mod 3 <> 0)%Z /\
  (forall a, a_d_model a = PInt 10 -> a_n_head a = PInt 3 ->
             raises (FourierTransformerEncoderLayer_init a)) /\
  raises (FourierTransformer_init (sample_config "fourier" 10 3)) /\
  raises (FourierTransformer2D_init (sample_config "fourier" 10 3)).
Proof.
  assert (H1 : sample_config "fourier" 10 3 !! "n_hidden" = Some (PInt 10))
    by (vm_compute; reflexivity).
  assert (H2 : sample_config "fourier" 10 3 !! "n_head" = Some (PInt 3))
    by (vm_compute; reflexivity).
  assert (H3 : (10 mod 3 <> 0)%Z) by (vm_compute; discriminate).
  split; [exact H1|]. split; [exact H2|]. split; [exact H3|].
  exact (indivisible_head_count_fails_at_construction
           (sample_config "fourier" 10 3) 10 3 H1 H2 H3).
Defined.

(** The failure is the assertion of the attention kernel, raised while the
    constructor runs. *)
Example indivisible_head_count_error :
  FourierTransformer_init (sample_config "fourier" 10 3)
  = Raise AssertionError.
Proof. vm_compute. reflexivity. Qed.

(** ** Unrecognized attention types *)

(** The 2D operator rejects every attention type that is neither in its
    list nor ['official']. *)
Lemma FourierTransformer2D_get_encoder_unrecognized
    (self : gmap string pyval) (attention_type : pyval) :
  self !! "attention_type" = Some attention_type ->
  py_in_strs attention_type attention_types_2D = false ->
  py_eq_str attention_type "official" = false ->
  FourierTransformer2D_get_encoder self
  = Raise (NotImplementedError "encoder type not implemented.").
Proof.
  intros Hty Hin Hoff. unfold FourierTransformer2D_get_encoder.
  rewrite (getattr_Some _ _ _ Hty). cbn [rbind]. rewrite Hin, Hoff.
  reflexivity.
Qed.

(** The 1D operator sends every attention type outside its list to the
    torch-style encoder layer. *)
Lemma FourierTransformer_get_encoder_unrecognized
    (self : gmap string pyval) (attention_type : pyval) :
  self !! "attention_type" = Some attention_type ->
  py_in_strs attention_type attention_types_1D = false ->
  FourierTransformer_get_encoder self
  = (let! e := official_encoder_layer self in stack_encoder self e).
Proof.
  intros Hty Hin. unfold FourierTransformer_get_encoder.
  rewrite (getattr_Some _ _ _ Hty). cbn [rbind]. rewrite Hin. reflexivity.
Qed.

(** C1.  With [attention_type='bogus'] the 2D operator fails at
    construction with the "not implemented" signal, but the 1D operator is
    constructed: its encoder stack is made of torch-style
    [TransformerEncoderLayer]s. *)
Theorem bogus_attention_type_construction :
  FourierTransformer2D_init (sample_config "bogus" 96 2)
  = Raise (NotImplementedError "encoder type not implemented.") /\
  exists m,
    FourierTransformer_init (sample_config "bogus" 96 2) = Ok m /\
    length (ft_encoder_layers m) = 2%nat /\
    forallb is_official (ft_encoder_layers m) = true.
Proof.
  split.
  - vm_compute. reflexivity.
  - assert (Hrun : (let! m := FourierTransformer_init
                                (sample_config "bogus" 96 2) in
                    Ok (length (ft_encoder_layers m),
                        forallb is_official (ft_encoder_layers m)))
                   = Ok (2%nat, true)) by (vm_compute; reflexivity).
    inv_bind_as Hrun m Einit. injection Hrun as Hlen Hoff.
    exists m. split; [exact Einit|]. split; [exact Hlen | exact Hoff].
Qed.

(** ** The residual step of the encoder layer *)

Lemma Zdropout_zero (d : Dropout) (k : nat) (t : tensor Z) :
  (drop_p d == 0)%Q -> dropout_fwd d k t = t.
Proof.
  intros Hp. simpl. unfold Zdropout.
  apply Qeq_bool_iff in Hp. rewrite Hp. reflexivity.
Qed.

(** The constructor keeps the flags it is given. *)
Lemma FourierTransformerEncoderLayer_init_fields (a : EncoderLayerArgs)
    (l : FourierTransformerEncoderLayer) :
  FourierTransformerEncoderLayer_init a = Ok l ->
  el_pos_dim l = a_pos_dim a /\
  el_attn_weight l = a_attn_weight a /\
  el_add_layer_norm l = a_layer_norm a /\
  el_add_pos_emb l = a_pos_emb a /\
  el_residual_type l = a_residual_type a /\
  has_layer (el_layer_norm1 l) = truthy (a_layer_norm a) /\
  has_layer (el_layer_norm2 l) = truthy (a_layer_norm a) /\
  has_layer (el_pos_emb l) = truthy (a_pos_emb a).
Proof.
  unfold FourierTransformerEncoderLayer_init. intros E.
  inv_bind E. inv_bind E. inv_bind E. injection E as <-. cbn.
  repeat (split; [reflexivity|]).
  destruct (truthy (a_layer_norm a)), (truthy (a_pos_emb a));
    repeat split.
Qed.

(** A layer can be built with a dropout rate of zero exactly when its
    attention type is neither ['linear'] nor ['softmax']. *)
Lemma encoder_layer_zero_dropout (a : EncoderLayerArgs)
    (l : FourierTransformerEncoderLayer) :
  a_dropout a = PFloat 0 ->
  py_in_strs (a_attention_type a) ["linear"; "softmax"] = false ->
  FourierTransformerEncoderLayer_init a = Ok l ->
  (drop_p (el_dropout1 l) == 0)%Q /\ (drop_p (el_dropout2 l) == 0)%Q.
Proof.
  intros Hd Hty E. unfold FourierTransformerEncoderLayer_init in E.
  unfold encoder_layer_dropout in E. rewrite Hd, Hty in E. simpl in E.
  inv_bind E. injection E as <-. simpl. split; reflexivity.
Qed.

(** The forward pass of the layer is its three stages with the residual
    step of lines 114-117 between the last two. *)
Lemma encoder_layer_forward_stages {A : Type} `{Torch A}
    (self : FourierTransformerEncoderLayer) (x : tensor A)
    (pos weight : option (tensor A)) :
  FourierTransformerEncoderLayer_forward self x pos weight
  = let! x0 := attention_input self x in
    let! att := attention_branch self x0 pos weight in
    after_residual self (attention_residual self x0 (fst att)) (snd att).
Proof.
  unfold FourierTransformerEncoderLayer_forward, attention_input,
    attention_branch, after_residual.
  destruct (if truthy (el_add_pos_emb self)
            then let! x1 := apply_opt (el_pos_emb self)
                               (permute [1; 0; 2] x)
                 in Ok (permute [1; 0; 2] x1)
            else Ok x) as [x0|e]; [|reflexivity].
  cbn [rbind].
  destruct (match pos with
            | Some _ => py_gt0 (el_pos_dim self)
            | None => Ok false
            end) as [with_pos|e]; [|reflexivity].
  cbn [rbind].
  destruct (if with_pos
            then attn_fwd (el_attn self) x0 x0 x0 pos weight
            else attn_fwd (el_attn self) x0 x0 x0 None weight)
    as [att_output attn_weight].
  reflexivity.
Qed.

(** C2.  Take an encoder layer constructed with dropout rate zero (which
    the constructor allows for every attention type but ['linear'] and
    ['softmax']), and let a dropout of rate zero leave its argument as it
    is.  Then the forward pass of the layer, on every input [x] and
    whatever positions and weight it is given, continues after the
    attention branch from exactly [x + attn(x)] when [residual_type] is
    ['add'] and from exactly [x - attn(x)] when it is ['minus'], where [x]
    is what entered the attention and [attn(x)] is what the attention
    returned for it. *)
Theorem attention_residual_add_minus {A : Type} `{Torch A}
    (a : EncoderLayerArgs) (self : FourierTransformerEncoderLayer)
    (x : tensor A) (pos weight : option (tensor A)) :
  (forall d k t, (drop_p d == 0)%Q -> dropout_fwd d k t = t) ->
  FourierTransformerEncoderLayer_init a = Ok self ->
  a_dropout a = PFloat 0 ->
  py_in_strs (a_attention_type a) ["linear"; "softmax"] = false ->
  (a_residual_type a = PStr "add" ->
   FourierTransformerEncoderLayer_forward self x pos weight
   = let! x0 := attention_input self x in
     let! att := attention_branch self x0 pos weight in
     after_residual self (tadd x0 (fst att)) (snd att)) /\
  (a_residual_type a = PStr "minus" ->
   FourierTransformerEncoderLayer_forward self x pos weight
   = let! x0 := attention_input self x in
     let! att := attention_branch self x0 pos weight in
     after_residual self (tsub x0 (fst att)) (snd att)).
Proof.
  intros Hzero Einit Hdrop Hty.
  destruct (encoder_layer_zero_dropout a self Hdrop Hty Einit) as [Hp _].
  destruct (FourierTransformerEncoderLayer_init_fields a self Einit)
    as (_ & _ & _ & _ & Hres & _).
  rewrite encoder_layer_forward_stages.
  split; intros Hr; rewrite Hr in Hres;
    destruct (attention_input self x) as [x0|e]; try reflexivity;
    cbn [rbind];
    destruct (attention_branch self x0 pos weight) as [att|e];
    try reflexivity; cbn [rbind];
    unfold attention_residual; rewrite Hres, (Hzero _ _ _ Hp);
    reflexivity.
Qed.

Lemma attention_residual_add_minus_witness :
  exists add_layer minus_layer,
    (forall d k (t : tensor Z), (drop_p d == 0)%Q -> dropout_fwd d k t = t) /\
    FourierTransformerEncoderLayer_init (fourier_args (PStr "add") (PFloat 0))
    = Ok add_layer /\
    FourierTransformerEncoderLayer_init
      (fourier_args (PStr "minus") (PFloat 0)) = Ok minus_layer /\
    a_dropout (fourier_args (PStr "add") (PFloat 0)) = PFloat 0 /\
    py_in_strs (a_attention_type (fourier_args (PStr "add") (PFloat 0)))
      ["linear"; "softmax"] = false /\
    FourierTransformerEncoderLayer_forward add_layer (Zconst3 1 2 96 5)
      None None
    = (let! x0 := attention_input add_layer (Zconst3 1 2 96 5) in
       let! att := attention_branch add_layer x0 None None in
       after_residual add_layer (tadd x0 (fst att)) (snd att)) /\
    FourierTransformerEncoderLayer_forward minus_layer (Zconst3 1 2 96 5)
      None None
    = (let! x0 := attention_input minus_layer (Zconst3 1 2 96 5) in
       let! att := attention_branch minus_layer x0 None None in
       after_residual minus_layer (tsub x0 (fst att)) (snd att)) /\
    (exists y,
       FourierTransformerEncoderLayer_forward add_layer (Zconst3 1 2 96 5)
         None None = Ok (y, None) /\
       entry y [0; 0; 0]%nat = 30) /\
    (exists y,
       FourierTransformerEncoderLayer_forward minus_layer (Zconst3 1 2 96 5)
         None None = Ok (y, None) /\
       entry y [0; 0; 0]%nat = -10).
Proof.
  destruct (FourierTransformerEncoderLayer_init
              (fourier_args (PStr "add") (PFloat 0)))
    as [add_layer|e] eqn:Eadd; [|exfalso; vm_compute in Eadd;
                                 discriminate Eadd].
  destruct (FourierTransformerEncoderLayer_init
              (fourier_args (PStr "minus") (PFloat 0)))
    as [minus_layer|e] eqn:Eminus; [|exfalso; vm_compute in Eminus;
                                     discriminate Eminus].
  exists add_layer, minus_layer.
  split; [exact Zdropout_zero|].
  split; [reflexivity|]. split; [reflexivity|].
  split; [reflexivity|]. split; [reflexivity|].
  split.
  { apply (attention_residual_add_minus _ add_layer (Zconst3 1 2 96 5)
             None None Zdropout_zero Eadd); reflexivity. }
  split.
  { apply (attention_residual_add_minus _ minus_layer (Zconst3 1 2 96 5)
             None None Zdropout_zero Eminus); reflexivity. }
  split.
  - vm_compute in Eadd. injection Eadd as <-.
    eexists. split; reflexivity.
  - vm_compute in Eminus. injection Eminus as <-.
    eexists. split; reflexivity.
Defined.

(** The other spellings: ['plus'] and an unset residual type add, every
    other value subtracts. *)
Lemma attention_residual_cases {A : Type} `{Torch A}
    (self : FourierTransformerEncoderLayer) (x att_output : tensor A) :
  attention_residual self x att_output
  = if py_in_strs (el_residual_type self) ["add"; "plus"]
       || is_None (el_residual_type self)
    then tadd x (dropout_fwd (el_dropout1 self) 0 att_output)
    else tsub x (dropout_fwd (el_dropout1 self) 0 att_output).
Proof. reflexivity. Qed.

(** ** The pointwise regressor *)

Lemma PointwiseRegressor_init_spacial_fc
    (in_dim n_hidden out_dim num_layers spacial_fc spacial_dim dropout
     activation debug : pyval) (self : PointwiseRegressor) :
  PointwiseRegressor_init in_dim n_hidden out_dim num_layers spacial_fc
    spacial_dim dropout activation debug = Ok self ->
  pr_spacial_fc self = spacial_fc.
Proof.
  unfold PointwiseRegressor_init. intros E.
  inv_bind E. inv_bind E. inv_bind E. inv_bind E.
  injection E as <-. reflexivity.
Qed.

(** C7.  A pointwise regressor constructed with [spacial_fc=False] (or any
    false value) returns a result, and the result does not depend on the
    [grid] argument: two runs on the same [x] agree whatever the two grids
    are, a missing grid included. *)
Theorem pointwise_regressor_ignores_grid {A : Type} `{Torch A}
    (in_dim n_hidden out_dim num_layers spacial_fc spacial_dim dropout
     activation debug : pyval) (self : PointwiseRegressor)
    (x : tensor A) (grid1 grid2 : option (tensor A)) :
  PointwiseRegressor_init in_dim n_hidden out_dim num_layers spacial_fc
    spacial_dim dropout activation debug = Ok self ->
  truthy spacial_fc = false ->
  PointwiseRegressor_forward self x grid1
  = PointwiseRegressor_forward self x grid2 /\
  exists y, PointwiseRegressor_forward self x grid1 = Ok y.
Proof.
  intros E Hfc. apply PointwiseRegressor_init_spacial_fc in E.
  unfold PointwiseRegressor_forward. rewrite E, Hfc. simpl.
  split; [reflexivity|]. eexists; reflexivity.
Qed.

Lemma pointwise_regressor_ignores_grid_witness :
  exists self,
    PointwiseRegressor_init (PInt 96) (PInt 96) (PInt 1) (PInt 2)
      (PBool false) (PInt 1) PNone (PStr "silu") (PBool false) = Ok self /\
    truthy (PBool false) = false /\
    PointwiseRegressor_forward self (Zconst3 2 8 96 1)
      (Some (Zconst3 2 8 1 0))
    = PointwiseRegressor_forward self (Zconst3 2 8 96 1)
        (Some (Zconst3 2 8 1 7)) /\
    exists y, PointwiseRegressor_forward self (Zconst3 2 8 96 1)
                (Some (Zconst3 2 8 1 0)) = Ok y.
Proof.
  eexists.
  split; [vm_compute; reflexivity|].
  split; [reflexivity|].
  eapply (pointwise_regressor_ignores_grid (PInt 96) (PInt 96) (PInt 1)
            (PInt 2) (PBool false) (PInt 1) PNone (PStr "silu")
            (PBool false)).
  - vm_compute. reflexivity.
  - reflexivity.
Defined.

(** ** Activations in the graph feature extractors *)

Lemma graph_loop_active {A : Type} `{Torch A} (activation : pyval)
    (relu : Layer) (layers : list Layer) (edge out : tensor A) :
  truthy activation = true ->
  graph_loop activation relu layers edge out
  = fold_left (fun out g => unary_fwd relu (graph_fwd g out edge))
              layers out.
Proof.
  intros Hact. unfold graph_loop. rewrite Hact. reflexivity.
Qed.

Lemma graph_loop_inactive {A : Type} `{Torch A} (activation : pyval)
    (relu : Layer) (layers : list Layer) (edge out : tensor A) :
  truthy activation = false ->
  graph_loop activation relu layers edge out
  = fold_left (fun out g => graph_fwd g out edge) layers out.
Proof.
  intros Hact. unfold graph_loop. rewrite Hact. reflexivity.
Qed.

(** The number of stacked layers a constructor makes next to the initial
    one. *)
Lemma layers_from_1_length (n : Z) (mk : Layer) (ls : list Layer) :
  layers_from_1 (PInt n) mk = Ok ls -> length ls = Z.to_nat (n - 1).
Proof.
  unfold layers_from_1. simpl. intros E. injection E as <-.
  rewrite length_map, length_seq. reflexivity.
Qed.

(** What the source computes.  With the activation enabled, both extractors
    apply the initial layer, then each stacked layer but the last followed
    by a ReLU, then the last stacked layer: a ReLU follows every stacked
    layer except the final one, no ReLU follows the initial layer, and no
    activation follows the final layer. *)
Lemma graph_extractor_activations {A : Type} `{Torch A}
    (gcn : GCN) (gat : GAT) (init init' : list Layer) (final final' : Layer)
    (x edge : tensor A) (n : Z) :
  truthy (gcn_activation gcn) = true ->
  gcn_layers gcn = (init ++ [final])%list ->
  size (permute [0; 3; 1; 2] edge) 1 = Ok n ->
  py_eq_int (gcn_edge_feats gcn) n = true ->
  truthy (gat_activation gat) = true ->
  gat_layers gat = (init' ++ [final'])%list ->
  GCN_forward gcn x edge
  = (let e := unary_fwd (gcn_edge_learner gcn) (permute [0; 3; 1; 2] edge) in
     Ok (permute [0; 2; 1]
           (stacked_layers (gcn_relu gcn) init final e
              (graph_fwd (gcn_layer0 gcn) (permute [0; 2; 1] x) e)))) /\
  GAT_forward gat x edge
  = (let e := select_last0 edge in
     Ok (stacked_layers (gat_relu gat) init' final' e
           (graph_fwd (gat_layer0 gat) x e))).
Proof.
  intros Hact Hls Hsize Hfeats Hact' Hls'. split.
  - unfold GCN_forward, stacked_layers.
    rewrite Hsize. cbn [rbind]. rewrite Hfeats. cbn [negb].
    rewrite Hls, removelast_last, last_snoc.
    rewrite (graph_loop_active _ _ _ _ _ Hact). reflexivity.
  - unfold GAT_forward, stacked_layers.
    rewrite Hls', removelast_last, last_snoc.
    rewrite (graph_loop_active _ _ _ _ _ Hact'). reflexivity.
Qed.

(** With a single graph layer configured there is no stacked layer and the
    forward pass fails on [self.gat_layers[-1]]. *)
Lemma GAT_forward_single_layer {A : Type} `{Torch A} (gat : GAT)
    (x edge : tensor A) :
  gat_layers gat = [] -> GAT_forward gat x edge = Raise IndexError.
Proof. unfold GAT_forward. intros ->. reflexivity. Qed.

Example graph_extractor_activations_run :
  exists gcn gat,
    GCN_init (PInt 1) (PInt 4) (PInt 3) (PInt 5) (PBool true) (PBool false)
      (PFloat one_tenth) (PBool false) = Ok gcn /\
    GAT_init (PInt 1) (PInt 4) (PInt 3) PNone (PBool true) (PBool false)
    = Ok gat /\
    let init := removelast (gcn_layers gcn) in
    let final := List.last (gcn_layers gcn) (gcn_layer0 gcn) in
    let init' := removelast (gat_layers gat) in
    let final' := List.last (gat_layers gat) (gat_layer0 gat) in
    truthy (gcn_activation gcn) = true /\
    gcn_layers gcn = (init ++ [final])%list /\
    size (permute [0; 3; 1; 2] sample_edge) 1 = Ok 5 /\
    py_eq_int (gcn_edge_feats gcn) 5 = true /\
    truthy (gat_activation gat) = true /\
    gat_layers gat = (init' ++ [final'])%list /\
    GCN_forward gcn sample_node sample_edge
    = (let e := unary_fwd (gcn_edge_learner gcn)
                  (permute [0; 3; 1; 2] sample_edge) in
       Ok (permute [0; 2; 1]
             (stacked_layers (gcn_relu gcn) init final e
                (graph_fwd (gcn_layer0 gcn)
                   (permute [0; 2; 1] sample_node) e)))) /\
    GAT_forward gat sample_node sample_edge
    = (let e := select_last0 sample_edge in
       Ok (stacked_layers (gat_relu gat) init' final' e
             (graph_fwd (gat_layer0 gat) sample_node e))).
Proof.
  eexists. eexists.
  split; [vm_compute; reflexivity|].
  split; [vm_compute; reflexivity|].
  intros init final init' final'.
  assert (H1 : truthy (PBool true) = true) by reflexivity.
  assert (H3 : size (permute [0; 3; 1; 2] sample_edge) 1 = Ok 5)
    by reflexivity.
  assert (H4 : py_eq_int (PInt 5) 5 = true) by reflexivity.
  split; [exact H1|]. split; [reflexivity|]. split; [exact H3|].
  split; [exact H4|]. split; [exact H1|]. split; [reflexivity|].
  match goal with
  | |- GCN_forward ?g _ _ = _ /\ GAT_forward ?g' _ _ = _ =>
      apply (graph_extractor_activations g g' init init' final final'
               sample_node sample_edge 5 H1 eq_refl H3 H4 H1 eq_refl)
  end.
Defined.

(** C8.  With two graph-attention layers and the activation enabled, the
    source applies no ReLU between the two layers, although they are
    consecutive and the first is not the final one.  On the reference
    instance (graph layers negate, ReLU is the positive part) the input 1
    comes out as 1, where a ReLU between the layers gives 0. *)
Theorem graph_extractor_missing_relu :
  exists gat out,
    GAT_init (PInt 1) (PInt 4) (PInt 2) PNone (PBool true) (PBool false)
    = Ok gat /\
    truthy (gat_activation gat) = true /\
    length (gat_layer0 gat :: gat_layers gat) = 2%nat /\
    GAT_forward gat sample_node sample_edge = Ok out /\
    entry out [0; 0; 0]%nat = 1 /\
    entry (spec_GAT_forward gat sample_node sample_edge) [0; 0; 0]%nat = 0 /\
    out <> spec_GAT_forward gat sample_node sample_edge.
Proof.
  eexists. eexists.
  split; [vm_compute; reflexivity|].
  split; [reflexivity|].
  split; [reflexivity|].
  split; [reflexivity|].
  split; [reflexivity|].
  split; [reflexivity|].
  intros Heq.
  apply (f_equal (fun t : tensor Z => entry t [0; 0; 0]%nat)) in Heq.
  vm_compute in Heq. discriminate Heq.
Qed.

(** ** The encoder stack *)

Lemma apply_opt_has_layer {A : Type} `{Torch A} (l : option Layer)
    (x : tensor A) :
  has_layer l = true -> exists y, apply_opt l x = Ok y.
Proof. destruct l; [eexists; reflexivity | discriminate]. Qed.

Lemma cond_apply_opt {A : Type} `{Torch A} (flag : bool) (l : option Layer)
    (x : tensor A) :
  negb flag || has_layer l = true ->
  exists y, (if flag then apply_opt l x else Ok x) = Ok y.
Proof.
  destruct flag; simpl; intros Hl.
  - apply apply_opt_has_layer, Hl.
  - eexists; reflexivity.
Qed.

Lemma encoder_forward_ready {A : Type} `{Torch A} (raw : pyval)
    (e : encoder_layer) (x pos : tensor A) (weight : option (tensor A)) :
  encoder_ready raw e = true ->
  exists x' w,
    encoder_forward e x (Some pos) weight = Ok (x', w) /\
    match w with
    | Some _ => truthy raw = true
    | None => truthy raw = false
    end.
Proof.
  destruct e as [l|l]; simpl; intros Hr.
  - apply andb_prop in Hr as [Hr Hnorm].
    apply andb_prop in Hr as [Hr Hemb].
    apply andb_prop in Hr as [Hw Hpos].
    apply Bool.eqb_prop in Hw.
    unfold FourierTransformerEncoderLayer_forward.
    assert (Hx : exists x0,
               (if truthy (el_add_pos_emb l)
                then let! x1 := apply_opt (el_pos_emb l)
                                   (permute [1; 0; 2] x)
                     in Ok (permute [1; 0; 2] x1)
                else Ok x) = Ok x0).
    { destruct (truthy (el_add_pos_emb l)); [|eexists; reflexivity].
      destruct (el_pos_emb l); [|discriminate].
      eexists; reflexivity. }
    destruct Hx as [x0 ->]. cbn [rbind].
    destruct (py_gt0 (el_pos_dim l)) as [with_pos|] eqn:Epos;
      [|discriminate]. cbn [rbind].
    set (att := if with_pos
                then attn_fwd (el_attn l) x0 x0 x0 (Some pos) weight
                else attn_fwd (el_attn l) x0 x0 x0 None weight).
    destruct att as [att_output attn_weight].
    assert (Hn : has_layer (el_layer_norm1 l) = true \/
                 truthy (el_add_layer_norm l) = false).
    { destruct (truthy (el_add_layer_norm l)); [left|right; reflexivity].
      apply andb_prop in Hnorm as [Hn _]. exact Hn. }
    assert (Hn2 : has_layer (el_layer_norm2 l) = true \/
                  truthy (el_add_layer_norm l) = false).
    { destruct (truthy (el_add_layer_norm l)); [left|right; reflexivity].
      apply andb_prop in Hnorm as [_ Hn2]. exact Hn2. }
    destruct (truthy (el_add_layer_norm l)) eqn:Eln.
    + destruct Hn as [Hn|Hn]; [|discriminate].
      destruct Hn2 as [Hn2|Hn2]; [|discriminate].
      destruct (el_layer_norm1 l) as [n1|]; [|discriminate].
      destruct (el_layer_norm2 l) as [n2|]; [|discriminate].
      cbn [apply_opt rbind].
      rewrite <- Hw.
      destruct (truthy (el_attn_weight l)); eexists; eexists;
        (split; [reflexivity|reflexivity]).
    + cbn [rbind]. rewrite <- Hw.
      destruct (truthy (el_attn_weight l)); eexists; eexists;
        (split; [reflexivity|reflexivity]).
  - discriminate Hr.
Qed.

(** The encoder loop under readiness: it returns, and it has appended one
    snapshot per layer when [return_ortho] is set and one weight map per
    layer when [return_attn_weight] is set. *)
Lemma encoder_loop_ready {A : Type} `{Torch A} (self : gmap string pyval)
    (raw ro : pyval) (layers : list encoder_layer) (pos : tensor A)
    (weight : option (tensor A)) :
  self !! "return_attn_weight" = Some raw ->
  self !! "return_ortho" = Some ro ->
  forallb (encoder_ready raw) layers = true ->
  forall (x : tensor A) (x_ortho attn_weights : list (tensor A)),
  exists x' x_ortho' attn_weights',
    encoder_loop self layers (Some pos) weight x x_ortho attn_weights
    = Ok (x', x_ortho', attn_weights') /\
    length x_ortho'
    = (length x_ortho + if truthy ro then length layers else 0)%nat /\
    length attn_weights'
    = (length attn_weights + if truthy raw then length layers else 0)%nat.
Proof.
  intros Hraw Hro. induction layers as [|e layers IH]; intros Hready x xo aw.
  - exists x, xo, aw. simpl.
    split; [reflexivity|].
    destruct (truthy ro), (truthy raw); split; lia.
  - simpl in Hready. apply andb_prop in Hready as [He Hready].
    cbn [encoder_loop].
    rewrite (getattr_Some _ _ _ Hraw). cbn [rbind].
    destruct (encoder_forward_ready raw e x pos weight He)
      as (x1 & w & -> & Hw). cbn [rbind].
    rewrite (getattr_Some _ _ _ Hro).
    destruct w as [w|]; rewrite Hw; cbn [rbind].
    + destruct (IH Hready x1 (if truthy ro then (xo ++ [x1])%list else xo)
                  (aw ++ [w])%list) as (x' & xo' & aw' & E & Hxo & Haw).
      exists x', xo', aw'. split; [exact E|].
      rewrite Hxo, Haw, Hw.
      destruct (truthy ro); rewrite ?length_app; simpl; split; lia.
    + destruct (IH Hready x1 (if truthy ro then (xo ++ [x1])%list else xo) aw)
        as (x' & xo' & aw' & E & Hxo & Haw).
      exists x', xo', aw'. split; [exact E|].
      rewrite Hxo, Haw, Hw.
      destruct (truthy ro); rewrite ?length_app; simpl; split; lia.
Qed.

(** Every run of the encoder loop that returns has appended one snapshot
    per layer when [return_ortho] is set, and none otherwise. *)
Lemma encoder_loop_ortho {A : Type} `{Torch A} (self : gmap string pyval)
    (layers : list encoder_layer) (pos weight : option (tensor A)) :
  forall (x x' : tensor A) (x_ortho attn_weights x_ortho' attn_weights'
          : list (tensor A)),
  encoder_loop self layers pos weight x x_ortho attn_weights
  = Ok (x', x_ortho', attn_weights') ->
  length x_ortho'
  = (length x_ortho
     + if truthy (attr_or_None self "return_ortho") then length layers
       else 0)%nat.
Proof.
  induction layers as [|e layers IH]; intros x x' xo aw xo' aw' E.
  - simpl in E. injection E as <- <- <-.
    destruct (truthy _); simpl; lia.
  - cbn [encoder_loop] in E.
    inv_bind_as E raw Eraw. inv_bind_as E xw Exw. destruct xw as [x1 w].
    inv_bind_as E aw1 Eaw. inv_bind_as E ro Ero.
    apply IH in E. rewrite E.
    apply getattr_Ok in Ero. unfold attr_or_None. rewrite Ero. simpl.
    destruct (truthy ro); rewrite ?length_app; simpl; lia.
Qed.

(** Every run of the encoder loop that returns has gone through the layers
    in turn: when [return_ortho] is set it has appended the output of every
    layer, in order, and nothing otherwise. *)
Lemma encoder_loop_outputs {A : Type} `{Torch A} (self : gmap string pyval)
    (layers : list encoder_layer) (pos weight : option (tensor A)) :
  forall (x x' : tensor A) (x_ortho attn_weights x_ortho' attn_weights'
          : list (tensor A)),
  encoder_loop self layers pos weight x x_ortho attn_weights
  = Ok (x', x_ortho', attn_weights') ->
  exists xs,
    encoder_outputs layers pos weight x = Ok xs /\
    length xs = length layers /\
    x_ortho'
    = (x_ortho ++ if truthy (attr_or_None self "return_ortho") then xs
                  else [])%list.
Proof.
  induction layers as [|e layers IH]; intros x x' xo aw xo' aw' E.
  - simpl in E. injection E as <- <- <-. exists [].
    split; [reflexivity|]. split; [reflexivity|].
    destruct (truthy _); rewrite app_nil_r; reflexivity.
  - cbn [encoder_loop] in E.
    inv_bind_as E raw Eraw. inv_bind_as E xw Exw. destruct xw as [x1 w].
    inv_bind_as E aw1 Eaw. inv_bind_as E ro Ero.
    apply IH in E as (xs & Exs & Hlen & Hxo).
    exists (x1 :: xs). cbn [encoder_outputs]. rewrite Exw. cbn [rbind fst].
    rewrite Exs. cbn [rbind].
    split; [reflexivity|]. split; [simpl; rewrite Hlen; reflexivity|].
    rewrite Hxo. apply getattr_Ok in Ero. unfold attr_or_None.
    rewrite Ero. simpl.
    destruct (truthy ro); [rewrite <- app_assoc|]; reflexivity.
Qed.

(** ** The regressors *)

Lemma spectral_loop_no_freq {A : Type} `{Torch A} (return_freq : pyval)
    (convs : list Layer) (x : tensor A) :
  truthy return_freq = false ->
  fst (spectral_loop return_freq convs x) = None.
Proof.
  intros Hrf. unfold spectral_loop. rewrite Hrf.
  generalize (@None (tensor A)). intros o. revert o x.
  induction convs as [|c convs IH]; intros o x; simpl.
  - reflexivity.
  - apply IH.
Qed.

Lemma spacial_input_ready {A : Type} `{Torch A} (flag : bool)
    (fc : option Layer) (x : tensor A) (grid : option (tensor A)) :
  negb flag || (bool_decide (is_Some grid) && has_layer fc) = true ->
  exists y, (if flag then spacial_input fc x grid else Ok x) = Ok y.
Proof.
  destruct flag; simpl; intros Hr; [|eexists; reflexivity].
  apply andb_prop in Hr as [Hg Hfc].
  destruct grid as [g|]; [|discriminate]. destruct fc; [|discriminate].
  eexists; reflexivity.
Qed.

Lemma regressor_forward_ready {A : Type} `{Torch A} (r : regressor)
    (x : tensor A) (grid : option (tensor A)) :
  regressor_ready r (bool_decide (is_Some grid)) = true ->
  exists y, regressor_forward r x grid = Ok y.
Proof.
  destruct r as [p|s]; simpl; intros Hr.
  - unfold PointwiseRegressor_forward.
    destruct (spacial_input_ready _ _ x grid Hr) as [y ->].
    eexists; reflexivity.
  - apply andb_prop in Hr as [Hr Hrf].
    apply Bool.negb_true_iff in Hrf.
    unfold SpectralRegressor_forward.
    destruct (spacial_input_ready _ _ x grid Hr) as [y ->]. cbn [rbind].
    pose proof (spectral_loop_no_freq _ (sr_spectral_conv s) y Hrf) as Hft.
    destruct (spectral_loop (sr_return_freq s) (sr_spectral_conv s) y)
      as [x_ft x1].
    simpl in Hft. subst x_ft. rewrite Hrf. cbn [rbind].
    eexists; reflexivity.
Qed.

(** ** Orthogonality snapshots of the 1D operator *)

Lemma residual_or_ortho_Ok (self : gmap string pyval) (keep : bool) :
  residual_or_ortho self = Ok keep ->
  keep = truthy (attr_or_None self "spacial_residual")
         || truthy (attr_or_None self "return_ortho").
Proof.
  unfold residual_or_ortho, attr_or_None. intros E.
  inv_bind_as E sr Esr. apply getattr_Ok in Esr. rewrite Esr. simpl.
  destruct (truthy sr).
  - injection E as <-. reflexivity.
  - inv_bind_as E ro Ero. apply getattr_Ok in Ero. rewrite Ero.
    injection E as <-. reflexivity.
Qed.

(** The two flags of a constructed 1D operator are the configured ones. *)
Lemma FourierTransformer_ortho_flags (config : gmap string pyval)
    (m : FourierTransformer) :
  FourierTransformer_init config = Ok m ->
  attr_or_None (ft_self m) "spacial_residual"
  = config_get config "spacial_residual" /\
  attr_or_None (ft_self m) "return_ortho"
  = config_get config "return_ortho".
Proof.
  unfold FourierTransformer_init. intros E.
  inv_bind_as E sd Esd. destruct sd as [self dp].
  unfold FourierTransformer_initialize in E.
  inv_bind E. inv_bind E. inv_bind E. inv_bind E. inv_bind E.
  inv_bind E. inv_bind E. injection E as <-. cbn [ft_self].
  unfold attr_or_None, config_get.
  rewrite !(FourierTransformer_get_setting_other _ _ _ _ Esd);
    try (unfold rebound_attr; intros Hin;
         repeat (apply elem_of_cons in Hin as [Hin|Hin]; [discriminate|]);
         inversion Hin).
  split.
  - rewrite configured_attrs_other; [reflexivity|].
    unfold ADDITIONAL_ATTR. intros Hin.
    repeat (apply elem_of_cons in Hin as [Hin|Hin]; [discriminate|]).
    inversion Hin.
  - rewrite configured_attrs_additional; [reflexivity|].
    unfold ADDITIONAL_ATTR.
    repeat first [apply list_elem_of_here | apply list_elem_of_further].
Qed.

(** The contents of [preds_ortho] in terms of the two attributes. *)
Lemma preds_ortho_by_attributes {A : Type} `{Torch A}
    (m : FourierTransformer)
    (node edge pos : tensor A) (grid weight : option (tensor A)) :
  let sr := attr_or_None (ft_self m) "spacial_residual" in
  let ro := attr_or_None (ft_self m) "return_ortho" in
  (forall r,
     FourierTransformer_forward m node edge pos grid weight = Ok r ->
     (exists x0 xs,
        feat_extract_forward (ft_feat_extract m) node edge = Ok x0 /\
        encoder_outputs (ft_encoder_layers m) (Some pos) weight x0
        = Ok xs /\
        length xs = length (ft_encoder_layers m) /\
        preds_ortho r
        = ((if truthy sr || truthy ro then [x0] else [])
           ++ (if truthy ro then xs else []))%list) /\
     length (preds_ortho r)
     = ((if truthy sr || truthy ro then 1 else 0)
        + (if truthy ro then length (ft_encoder_layers m) else 0))%nat /\
     (preds_ortho r = [] <-> truthy sr = false /\ truthy ro = false)) /\
  (FourierTransformer_ready m (bool_decide (is_Some grid)) = true ->
   forall x0, feat_extract_forward (ft_feat_extract m) node edge = Ok x0 ->
   exists r, FourierTransformer_forward m node edge pos grid weight = Ok r).
Proof.
  intros sr ro. split.
  - intros r E. unfold FourierTransformer_forward in E.
    inv_bind_as E x0 Ex0. inv_bind_as E keep Ekeep.
    inv_bind_as E loop Eloop. destruct loop as [[x1 xo] aw].
    inv_bind_as E sr' Esr. inv_bind_as E x2 Ex2.
    inv_bind_as E nfreq Enf. inv_bind_as E wf Ewf.
    inv_bind_as E x_freq Efreq. inv_bind_as E y Ey.
    injection E as <-. cbn [preds_ortho].
    pose proof (encoder_loop_outputs _ _ _ _ _ _ _ _ _ _ Eloop)
      as (xs & Exs & Hxs & Hxo).
    fold ro in Hxo.
    apply encoder_loop_ortho in Eloop.
    apply residual_or_ortho_Ok in Ekeep. fold sr ro in Ekeep.
    fold ro in Eloop.
    assert (Hlen : length xo
                   = ((if truthy sr || truthy ro then 1 else 0)
                      + (if truthy ro then length (ft_encoder_layers m)
                         else 0))%nat).
    { rewrite Eloop, <- Ekeep. destruct keep; simpl; lia. }
    split.
    { exists x0, xs. split; [exact Ex0|]. split; [exact Exs|].
      split; [exact Hxs|].
      rewrite Hxo, <- Ekeep. destruct keep; reflexivity. }
    split; [exact Hlen|].
    split.
    + intros ->. simpl in Hlen.
      destruct (truthy sr), (truthy ro); simpl in Hlen;
        first [discriminate Hlen | split; reflexivity].
    + intros [Hsr Hro]. rewrite Hsr, Hro in Hlen. simpl in Hlen.
      destruct xo; [reflexivity | discriminate].
  - unfold FourierTransformer_ready. intros Hready x0 Ex0.
    destruct (ft_self m !! "spacial_residual") as [vsr|] eqn:Esr;
      [|discriminate].
    destruct (ft_self m !! "return_ortho") as [vro|] eqn:Ero;
      [|discriminate].
    destruct (ft_self m !! "return_attn_weight") as [raw|] eqn:Eraw;
      [|discriminate].
    destruct (ft_self m !! "n_freq_targets") as [nfreq|] eqn:Enf;
      [|discriminate].
    apply andb_prop in Hready as [Hready Hfreq].
    apply andb_prop in Hready as [Henc Hreg].
    unfold FourierTransformer_forward. rewrite Ex0. cbn [rbind].
    unfold residual_or_ortho.
    rewrite (getattr_Some _ _ _ Esr), (getattr_Some _ _ _ Enf).
    cbn [rbind].
    assert (Hkeep : exists keep,
               (if truthy vsr then Ok true
                else let! return_ortho := getattr (ft_self m) "return_ortho"
                     in Ok (truthy return_ortho)) = Ok keep /\
               (truthy vsr = true -> keep = true)).
    { destruct (truthy vsr).
      - exists true. split; reflexivity.
      - rewrite (getattr_Some _ _ _ Ero). eexists. split; [reflexivity|].
        discriminate. }
    destruct Hkeep as (keep & -> & Hkeep). cbn [rbind].
    destruct (encoder_loop_ready (ft_self m) raw vro (ft_encoder_layers m)
                pos weight Eraw Ero Henc x0
                (if keep then ([] ++ [x0])%list else []) [])
      as (x1 & xo & aw & -> & _). cbn [rbind].
    assert (Hres : exists x2,
               (if truthy vsr
                then match (if keep then Some x0 else None) with
                     | Some res => Ok (tadd res x1)
                     | None => Raise RuntimeError
                     end
                else Ok x1) = Ok x2).
    { destruct (truthy vsr); [|eexists; reflexivity].
      rewrite (Hkeep eq_refl). eexists; reflexivity. }
    destruct Hres as [x2 ->]. cbn [rbind].
    destruct (py_gt0 nfreq) as [wf|] eqn:Ewf; [|discriminate]. cbn [rbind].
    assert (Hxf : exists x_freq,
               (if wf
                then match ft_freq_regressor m with
                     | Some f =>
                         let! pred_len := getattr (ft_self m) "pred_len" in
                         Ok (Some (narrow1 pred_len
                                     (Sequential_forward f x2)))
                     | None => Raise (AttributeError "freq_regressor")
                     end
                else Ok None) = Ok x_freq).
    { destruct wf; [|eexists; reflexivity].
      destruct (ft_freq_regressor m); [|discriminate].
      destruct (ft_self m !! "pred_len") eqn:Epl; [|discriminate].
      rewrite (getattr_Some _ _ _ Epl). eexists; reflexivity. }
    destruct Hxf as [x_freq ->]. cbn [rbind].
    destruct (regressor_forward_ready (ft_regressor m)
                (dropout_fwd (ft_dp m) 0 x2) grid Hreg) as [y ->].
    eexists; reflexivity.
Qed.




(** ** Cropping and padding *)

Lemma crop_border_spec {A : Type} (x : tensor A) (b h w : nat)
    (rest : list nat) :
  dims x = b :: h :: w :: rest ->
  exists x',
    crop_border x = Ok x' /\
    dims x' = b :: (h - 2)%nat :: (w - 2)%nat :: rest /\
    forall (i j k : nat) (idx : list nat),
      entry x' (i :: j :: k :: idx) = entry x (i :: S j :: S k :: idx).
Proof.
  intros Hd. unfold crop_border. rewrite Hd.
  eexists. split; [reflexivity|]. split; reflexivity.
Qed.

Lemma crop_border_rank {A : Type} (x x' : tensor A) :
  crop_border x = Ok x' ->
  exists b h w rest, dims x = b :: h :: w :: rest.
Proof.
  unfold crop_border. destruct (dims x) as [|b [|h [|w rest]]];
    try discriminate.
  intros _. exists b, h, w, rest. reflexivity.
Qed.

Lemma pad_border_spec {A : Type} (zero : A) (y : tensor A)
    (lead : list nat) (h w c : nat) :
  dims y = (lead ++ [h; w; c])%list ->
  exists p,
    pad_border zero y = Ok p /\
    dims p = (lead ++ [h + 2; w + 2; c])%list%nat /\
    forall (li : list nat) (j k l : nat),
      length li = length lead ->
      entry p (li ++ [j; k; l])%list
      = match j, k with
        | S j', S k' =>
            if (j' <? h)%nat && (k' <? w)%nat
            then entry y (li ++ [j'; k'; l])%list
            else zero
        | _, _ => zero
        end.
Proof.
  intros Hd. unfold pad_border. rewrite Hd.
  assert (Hr : (length (lead ++ [h; w; c]) - 3)%nat = length lead)
    by (rewrite length_app; simpl; lia).
  rewrite Hr, drop_app_length, take_app_length.
  eexists. split; [reflexivity|]. split; [reflexivity|].
  intros li j k l Hli. cbn [entry].
  rewrite <- Hli, drop_app_length, take_app_length.
  destruct j as [|j']; [reflexivity|].
  destruct k as [|k']; reflexivity.
Qed.

Lemma pad_border_rank {A : Type} (zero : A) (y p : tensor A) :
  pad_border zero y = Ok p ->
  exists lead h w c, dims y = (lead ++ [h; w; c])%list.
Proof.
  unfold pad_border. intros E.
  destruct (drop (length (dims y) - 3) (dims y))
    as [|h [|w [|c [|]]]] eqn:Ed; try discriminate.
  exists (take (length (dims y) - 3) (dims y)), h, w, c.
  rewrite <- Ed. symmetry. apply take_drop.
Qed.

(** Whatever [pad_border] returns has a zero border. *)
Lemma pad_border_zero_border {A : Type} (zero : A) (y p : tensor A) :
  pad_border zero y = Ok p -> zero_border zero p.
Proof.
  intros E. destruct (pad_border_rank zero y p E) as (lead & h & w & c & Hd).
  destruct (pad_border_spec zero y lead h w c Hd) as (p' & E' & Hdp & Hent).
  rewrite E in E'. injection E' as <-.
  exists lead, h, w, c. split; [exact Hdp|].
  intros li j k l Hli Hjk. rewrite (Hent li j k l Hli).
  destruct j as [|j']; [reflexivity|].
  destruct k as [|k']; [reflexivity|].
  destruct Hjk as [Hj|[Hj|[Hk|Hk]]]; try discriminate.
  - injection Hj as ->. rewrite Nat.ltb_irrefl. reflexivity.
  - injection Hk as ->. rewrite Nat.ltb_irrefl, andb_false_r. reflexivity.
Qed.

(** ** The 2D operator: attributes, crop and zero border *)

Lemma FourierTransformer2D_init_self (config : gmap string pyval)
    (m : FourierTransformer2D) :
  FourierTransformer2D_init config = Ok m ->
  exists dp, FourierTransformer2D_get_setting config = Ok (ft2_self m, dp).
Proof.
  unfold FourierTransformer2D_init. intros E.
  inv_bind_as E sd Esd. destruct sd as [self dp].
  unfold FourierTransformer2D_initialize in E.
  inv_bind_as E graph Eg. inv_bind_as E du Edu. destruct du as [down up].
  inv_bind_as E enc Eenc. inv_bind_as E rg Erg.
  injection E as <-. exists dp. exact Esd.
Qed.

(** A constructed 2D operator holds the configured boundary condition,
    [None] when the configuration does not mention it. *)
Lemma FourierTransformer2D_boundary_condition (config : gmap string pyval)
    (m : FourierTransformer2D) :
  FourierTransformer2D_init config = Ok m ->
  getattr (ft2_self m) "boundary_condition"
  = Ok (config_get config "boundary_condition").
Proof.
  intros E. destruct (FourierTransformer2D_init_self _ _ E) as [dp Es].
  apply getattr_Some.
  rewrite (FourierTransformer2D_get_setting_other _ _ _ _ Es).
  - apply configured_attrs_additional. unfold ADDITIONAL_ATTR.
    repeat first [apply list_elem_of_here | apply list_elem_of_further].
  - unfold rebound_attr. intros Hin.
    repeat (apply elem_of_cons in Hin as [Hin|Hin]; [discriminate|]).
    inversion Hin.
Qed.

(** Likewise for the normalizer. *)
Lemma FourierTransformer2D_normalizer (config : gmap string pyval)
    (m : FourierTransformer2D) :
  FourierTransformer2D_init config = Ok m ->
  getattr (ft2_self m) "normalizer" = Ok (config_get config "normalizer").
Proof.
  intros E. destruct (FourierTransformer2D_init_self _ _ E) as [dp Es].
  apply getattr_Some.
  rewrite (FourierTransformer2D_get_setting_other _ _ _ _ Es).
  - apply configured_attrs_additional. unfold ADDITIONAL_ATTR.
    repeat first [apply list_elem_of_here | apply list_elem_of_further].
  - unfold rebound_attr. intros Hin.
    repeat (apply elem_of_cons in Hin as [Hin|Hin]; [discriminate|]).
    inversion Hin.
Qed.

Lemma FourierTransformer2D_forward_preds {A : Type} (zero : A) `{Torch A}
    (m : FourierTransformer2D) (node edge pos grid : tensor A)
    (weight : option (tensor A)) (r : prediction2D A) :
  FourierTransformer2D_forward zero m node edge pos grid weight = Ok r ->
  exists y, boundary_pad zero (ft2_self m) y = Ok (preds2 r).
Proof.
  unfold FourierTransformer2D_forward. intros E.
  inv_bind_as E bsz Ebsz. inv_bind_as E seq_len Eseq.
  inv_bind_as E scaler Escaler. inv_bind_as E node' Enode.
  inv_bind_as E x0 Ex0. inv_bind_as E nh Enh. inv_bind_as E nh' Enh'.
  inv_bind_as E x1 Ex1. inv_bind_as E x2 Ex2.
  inv_bind_as E loop Eloop. destruct loop as [[x3 xo] aw].
  inv_bind_as E x4 Ex4. inv_bind_as E p Ep.
  injection E as <-. cbn [preds2].
  unfold decode2D in Ep.
  inv_bind_as Ep x5 Ex5. inv_bind_as Ep y Ey. inv_bind_as Ep nz Enz.
  eexists. exact Ep.
Qed.



(** ** Resolution of the 2D prediction *)

Lemma size_dims {A : Type} (x : tensor A) (i n : nat) :
  dims x !! i = Some n -> size x i = Ok (Z.of_nat n).
Proof. unfold size. intros ->. reflexivity. Qed.

(** The forward pass of the 2D operator is its encoding part followed by
    the decoding part. *)
Lemma FourierTransformer2D_forward_stages {A : Type} (zero : A) `{Torch A}
    (m : FourierTransformer2D) (node edge pos grid : tensor A)
    (weight : option (tensor A)) :
  FourierTransformer2D_forward zero m node edge pos grid weight
  = let! enc := encode2D m node edge pos weight in
    let! p := decode2D zero m (fst (fst enc)) grid in
    Ok {| preds2 := p;
          preds_ortho2 := snd (fst enc);
          attn_weights2 := snd enc |}.
Proof.
  unfold FourierTransformer2D_forward, encode2D.
  destruct (size node 0) as [bsz|e]; [|reflexivity]. cbn [rbind].
  destruct (size pos 1) as [seq_len|e]; [|reflexivity]. cbn [rbind].
  destruct (getattr (ft2_self m) "scaler") as [scaler|e]; [|reflexivity].
  cbn [rbind].
  destruct (if negb (truthy scaler)
            then let! p := view_infer [Z.to_nat bsz;
                                       Z.to_nat (Z.sqrt seq_len);
                                       Z.to_nat (Z.sqrt seq_len)] [] pos
                 in Ok (tcat_last [node; p])
            else Ok node) as [node'|e]; [|reflexivity].
  cbn [rbind].
  destruct (downscaler_forward (ft2_downscaler m) node') as [x0|e];
    [|reflexivity].
  cbn [rbind].
  destruct (getattr (ft2_self m) "n_hidden") as [nh|e]; [|reflexivity].
  cbn [rbind].
  destruct (as_dim nh) as [n_hidden|e]; [|reflexivity]. cbn [rbind].
  destruct (view_infer [Z.to_nat bsz] [n_hidden] x0) as [x1|e];
    [|reflexivity].
  cbn [rbind].
  destruct (feat_extract_forward (ft2_feat_extract m) x1 edge) as [x2|e];
    [|reflexivity].
  cbn [rbind].
  destruct (encoder_loop (ft2_self m) (ft2_encoder_layers m) (Some pos)
              weight (dropout_fwd (ft2_dropout m) 0 x2) [] [])
    as [[[x3 xo] aw]|e]; [|reflexivity].
  cbn [rbind].
  destruct (view [Z.to_nat bsz; Z.to_nat (Z.sqrt seq_len);
                  Z.to_nat (Z.sqrt seq_len); n_hidden] x3) as [x4|e];
    [|reflexivity].
  reflexivity.
Qed.




(** The same run under the default boundary condition restores the input
    resolution. *)
Example crop_and_pad_default_run :
  exists m r,
    FourierTransformer2D_init (scaler_config PNone) = Ok m /\
    FourierTransformer2D_forward 0 m grid33_node grid33_edge grid33_pos
      grid31_grid None = Ok r /\
    dims (preds2 r) = [2; 33; 33; 1]%nat.
Proof.
  assert (Hrun : (let! m := FourierTransformer2D_init (scaler_config PNone) in
                  let! r := FourierTransformer2D_forward 0 m grid33_node
                              grid33_edge grid33_pos grid31_grid None in
                  Ok (dims (preds2 r)))
                 = Ok [2; 33; 33; 1]%nat) by (vm_compute; reflexivity).
  inv_bind_as Hrun m Einit. inv_bind_as Hrun r Erun.
  injection Hrun as Hdims.
  exists m, r. split; [exact Einit|]. split; [exact Erun | exact Hdims].
Qed.

(** ** The [fourier] and [galerkin] variants are different operators *)

Section SpecAttentionFacts.
Local Open Scope R_scope.

Lemma rmean_pair (a b : R) : rmean [a; b] = (a + b) / 2.
Proof. unfold rmean, rsum. simpl. field. Qed.

Lemma rvar_pair (a b : R) : rvar [a; b] = (a - b) * (a - b) / 4.
Proof.
  unfold rvar. cbn [map]. rewrite rmean_pair. rewrite rmean_pair. field.
Qed.

Lemma spec_eps_pos : 0 < spec_eps.
Proof. unfold spec_eps. lra. Qed.

(** The normalization never divides by zero. *)
Lemma spec_layer_norm_denominator (a b : R) :
  0 < sqrt (rvar [a; b] + spec_eps).
Proof.
  apply sqrt_lt_R0. rewrite rvar_pair.
  pose proof spec_eps_pos as He.
  pose proof (Rle_0_sqr (a - b)) as Hsq. unfold Rsqr in Hsq. lra.
Qed.

(** C3.  The two variants are not aliases: on the one-position sequence
    with query [(2, 0)] and key and value [(4, 0)], whose query and
    key/value normalization statistics differ, [fourier] and [galerkin]
    give different outputs.  Neither variant has parameters of its own in
    this model, so both are "identically initialized". *)
Theorem galerkin_fourier_distinct :
  exists Q K V : list (list R),
    spec_stats Q <> spec_stats K /\
    spec_fourier_attention Q K V <> spec_galerkin_attention Q K V.
Proof.
  exists [[2; 0]], [[4; 0]], [[4; 0]]. split.
  - unfold spec_stats. cbn [map]. rewrite !rmean_pair.
    intros Heq. injection Heq as Hm _. lra.
  - intros Heq.
    apply (f_equal (fun m => nth 1 (nth 0 m []) 0)) in Heq.
    unfold spec_fourier_attention, spec_galerkin_attention,
      spec_normalize, spec_layer_norm in Heq.
    cbn [map] in Heq.
    pose proof (spec_layer_norm_denominator 4 0) as Hs.
    pose proof (spec_layer_norm_denominator 2 0) as Ht.
    rewrite !rmean_pair in Heq.
    set (s := sqrt (rvar [4; 0] + spec_eps)) in *.
    set (t := sqrt (rvar [2; 0] + spec_eps)) in *.
    clearbody s t.
    unfold spec_linear_attention, spec_key_value, column, rdot, rsum
      in Heq.
    simpl in Heq.
    match type of Heq with
    | ?L = ?R =>
        assert (HL : L = 0) by (field; lra);
        assert (HR : R = - 8 / (s * s)) by (field; lra)
    end.
    rewrite HL, HR in Heq.
    assert (Hpos : 0 < 8 / (s * s)).
    { apply Rdiv_lt_0_compat; [lra|].
      apply Rmult_lt_0_compat; assumption. }
    lra.
Qed.

End SpecAttentionFacts.


(** * Further properties of the constructors and forward passes *)

(** ** What a constructed operator is made of *)

Lemma rbind_ext {A B : Type} (c : result A) (k1 k2 : A -> result B) :
  (forall a, k1 a = k2 a) -> rbind c k1 = rbind c k2.
Proof. intros Hk. destruct c; simpl; [apply Hk | reflexivity]. Qed.

Lemma FourierTransformer_init_inv (config : gmap string pyval)
    (m : FourierTransformer) :
  FourierTransformer_init config = Ok m ->
  FourierTransformer_get_setting config = Ok (ft_self m, ft_dp m) /\
  FourierTransformer_get_graph (ft_self m) = Ok (ft_feat_extract m) /\
  FourierTransformer_get_encoder (ft_self m) = Ok (ft_encoder_layers m) /\
  FourierTransformer_get_regressor (ft_self m) = Ok (ft_regressor m) /\
  exists nfreq with_freq,
    getattr (ft_self m) "n_freq_targets" = Ok nfreq /\
    py_gt0 nfreq = Ok with_freq /\
    if with_freq
    then exists f, ft_freq_regressor m = Some f /\
                   FourierTransformer_get_freq_regressor (ft_self m) = Ok f
    else ft_freq_regressor m = None.
Proof.
  unfold FourierTransformer_init. intros E.
  inv_bind_as E sd Esd. destruct sd as [self dp].
  unfold FourierTransformer_initialize in E.
  inv_bind_as E graph Eg. inv_bind_as E enc Eenc.
  inv_bind_as E nfreq Enf. inv_bind_as E wf Ewf.
  inv_bind_as E fr Efr. inv_bind_as E rg Erg. inv_bind_as E dt Edt.
  injection E as <-. cbn.
  repeat (split; [assumption|]).
  exists nfreq, wf. split; [assumption|]. split; [assumption|].
  destruct wf.
  - inv_bind_as Efr fr0 Ef. injection Efr as <-. exists fr0. split; trivial.
  - injection Efr as <-. reflexivity.
Qed.

Lemma FourierTransformer2D_init_inv (config : gmap string pyval)
    (m : FourierTransformer2D) :
  FourierTransformer2D_init config = Ok m ->
  FourierTransformer2D_get_setting config = Ok (ft2_self m, ft2_dropout m) /\
  FourierTransformer2D_get_graph (ft2_self m) = Ok (ft2_feat_extract m) /\
  FourierTransformer2D_get_scaler (ft2_self m)
  = Ok (ft2_downscaler m, ft2_upscaler m) /\
  FourierTransformer2D_get_encoder (ft2_self m)
  = Ok (ft2_encoder_layers m) /\
  FourierTransformer2D_get_regressor (ft2_self m) = Ok (ft2_regressor m).
Proof.
  unfold FourierTransformer2D_init. intros E.
  inv_bind_as E sd Esd. destruct sd as [self dp].
  unfold FourierTransformer2D_initialize in E.
  inv_bind_as E graph Eg. inv_bind_as E du Edu. destruct du as [down up].
  inv_bind_as E enc Eenc. inv_bind_as E rg Erg.
  injection E as <-. cbn. repeat (split; [assumption|]). assumption.
Qed.

(** Membership in the two attribute lists, decided by computation. *)
Ltac not_in_list :=
  let Hin := fresh "Hin" in
  unfold ADDITIONAL_ATTR, rebound_attr; intros Hin;
  repeat (apply elem_of_cons in Hin as [Hin|Hin]; [discriminate|]);
  inversion Hin.

Ltac in_list :=
  unfold ADDITIONAL_ATTR, rebound_attr;
  repeat first [apply list_elem_of_here | apply list_elem_of_further].

(** ** Attributes after [_get_setting] *)

Lemma keys_among_lookup (names : list string) (config : gmap string pyval)
    (key : string) :
  keys_among names config = true ->
  is_Some (config !! key) -> key ∈ names.
Proof.
  unfold keys_among. intros Hk Hin.
  rewrite forallb_forall in Hk.
  apply config_key_listed, list_elem_of_In in Hin.
  apply Hk in Hin. apply bool_decide_eq_true in Hin. exact Hin.
Qed.

Lemma documented_settings_config (config : gmap string pyval) :
  keys_among documented_settings config = true ->
  config !! "config" = None.
Proof.
  intros Hk. destruct (config !! "config") as [v|] eqn:Ec; [|reflexivity].
  exfalso.
  assert (Hin : "config" ∈ documented_settings).
  { apply (keys_among_lookup _ config); [exact Hk|]. eexists; exact Ec. }
  unfold documented_settings, ADDITIONAL_ATTR in Hin. cbn [app] in Hin.
  repeat (apply elem_of_cons in Hin as [Hin|Hin]; [discriminate|]).
  inversion Hin.
Qed.

(** X2.  [dim_feedforward] has no default among [ADDITIONAL_ATTR]: a
    configuration over the documented settings that does not mention it at
    all makes both constructors fail with [AttributeError], although an
    explicit [None] is accepted. *)
Theorem missing_dim_feedforward_fails (config : gmap string pyval) :
  keys_among documented_settings config = true ->
  config !! "dim_feedforward" = None ->
  FourierTransformer_init config = Raise (AttributeError "dim_feedforward") /\
  FourierTransformer2D_init config
  = Raise (AttributeError "dim_feedforward").
Proof.
  intros Hkeys Hnone.
  assert (E : common_setting config = Raise (AttributeError "dim_feedforward")).
  { unfold common_setting.
    rewrite set_all_attr_spec, (documented_settings_config _ Hkeys).
    cbn [rbind]. unfold getattr.
    rewrite configured_attrs_other by not_in_list. rewrite Hnone. reflexivity. }
  split.
  - unfold FourierTransformer_init, FourierTransformer_get_setting.
    rewrite E. reflexivity.
  - unfold FourierTransformer2D_init, FourierTransformer2D_get_setting.
    rewrite E. reflexivity.
Qed.

Lemma missing_dim_feedforward_fails_witness :
  keys_among documented_settings no_dim_feedforward_config = true /\
  no_dim_feedforward_config !! "dim_feedforward" = None /\
  FourierTransformer_init no_dim_feedforward_config
  = Raise (AttributeError "dim_feedforward") /\
  FourierTransformer2D_init no_dim_feedforward_config
  = Raise (AttributeError "dim_feedforward").
Proof.
  assert (Hk : keys_among documented_settings no_dim_feedforward_config
               = true) by (vm_compute; reflexivity).
  assert (H : no_dim_feedforward_config !! "dim_feedforward" = None)
    by (vm_compute; reflexivity).
  split; [exact Hk|]. split; [exact H|].
  exact (missing_dim_feedforward_fails no_dim_feedforward_config Hk H).
Defined.

(** X21.  The loop of [_get_setting] reads [self.config] anew in every
    round and sets the attribute named by the key: a configuration with a
    key ['config'] rebinds [self.config] to the configured value, and the
    next round fails on subscripting it.  So for a configuration over the
    documented settings and ['config'], whose value for ['config'] is None,
    a boolean, a number, a string or a sequence, both constructors raise
    [TypeError], whatever the other settings are. *)
Theorem config_key_breaks_construction (config : gmap string pyval)
    (v : pyval) :
  keys_among ("config" :: documented_settings) config = true ->
  config !! "config" = Some v ->
  (forall id, v <> PObj id) ->
  FourierTransformer_init config = Raise TypeError /\
  FourierTransformer2D_init config = Raise TypeError.
Proof.
  intros _ Hc _.
  assert (E : common_setting config = Raise TypeError).
  { unfold common_setting. rewrite set_all_attr_spec, Hc. reflexivity. }
  split.
  - unfold FourierTransformer_init, FourierTransformer_get_setting.
    rewrite E. reflexivity.
  - unfold FourierTransformer2D_init, FourierTransformer2D_get_setting.
    rewrite E. reflexivity.
Qed.

Lemma config_key_breaks_construction_witness :
  keys_among ("config" :: documented_settings) config_key_config = true /\
  config_key_config !! "config" = Some (PInt 5) /\
  (forall id, PInt 5 <> PObj id) /\
  FourierTransformer_init config_key_config = Raise TypeError /\
  FourierTransformer2D_init config_key_config = Raise TypeError.
Proof.
  assert (Hk : keys_among ("config" :: documented_settings)
                 config_key_config = true) by (vm_compute; reflexivity).
  assert (Hc : config_key_config !! "config" = Some (PInt 5))
    by (vm_compute; reflexivity).
  assert (Hv : forall id, PInt 5 <> PObj id) by (intros id; discriminate).
  split; [exact Hk|]. split; [exact Hc|]. split; [exact Hv|].
  exact (config_key_breaks_construction config_key_config (PInt 5)
           Hk Hc Hv).
Defined.

Lemma common_setting_dim_feedforward (config self : gmap string pyval)
    (v : pyval) :
  common_setting config = Ok self ->
  config !! "dim_feedforward" = Some v ->
  getattr self "dim_feedforward"
  = if is_None v then py_mul (PInt 2) (config_get config "n_hidden")
    else Ok v.
Proof.
  unfold common_setting. intros E Hv.
  inv_bind_as E attrs Eattrs. apply set_all_attr_Ok in Eattrs as [_ ->].
  inv_bind_as E dff Edff. inv_bind_as E dff' Edff'. injection E as <-.
  apply getattr_Ok in Edff.
  rewrite configured_attrs_other in Edff by not_in_list.
  rewrite Hv in Edff. injection Edff as <-.
  unfold getattr at 1. rewrite lookup_insert_eq.
  destruct (is_None v).
  - inv_bind_as Edff' nh Enh. apply getattr_Ok in Enh.
    rewrite configured_attrs_other in Enh by not_in_list.
    unfold config_get. rewrite Enh. simpl. symmetry. exact Edff'.
  - symmetry. exact Edff'.
Qed.

(** X3.  When [_get_setting] goes through, [dim_feedforward] is the
    configured value, and twice the hidden width when the configured value
    is [None]; this holds for both operators. *)
Theorem dim_feedforward_default (config self : gmap string pyval)
    (dp : Dropout) (v : pyval) :
  FourierTransformer_get_setting config = Ok (self, dp) \/
  FourierTransformer2D_get_setting config = Ok (self, dp) ->
  config !! "dim_feedforward" = Some v ->
  getattr self "dim_feedforward"
  = if is_None v then py_mul (PInt 2) (config_get config "n_hidden")
    else Ok v.
Proof.
  intros [E|E] Hv.
  - unfold FourierTransformer_get_setting in E.
    inv_bind_as E self0 Ecommon. inv_bind_as E sd Esd. inv_bind_as E sfc Esfc.
    inv_bind_as E dp0 Edp. inv_bind_as E self1 Ebump. injection E as <- <-.
    rewrite <- (common_setting_dim_feedforward _ _ _ Ecommon Hv).
    unfold getattr.
    rewrite (bump_num_ft_layers_other _ _ _ Ebump) by discriminate.
    rewrite !lookup_insert_ne by discriminate. reflexivity.
  - unfold FourierTransformer2D_get_setting in E.
    inv_bind_as E self0 Ecommon. inv_bind_as E dp0 Edp.
    inv_bind_as E self1 Ebump. inv_bind_as E upsz Eup. inv_bind_as E scl Esc.
    injection E as <- <-.
    rewrite <- (common_setting_dim_feedforward _ _ _ Ecommon Hv).
    unfold getattr.
    rewrite lookup_insert_ne by discriminate.
    rewrite (bump_num_ft_layers_other _ _ _ Ebump) by discriminate.
    reflexivity.
Qed.

Lemma dim_feedforward_default_witness :
  exists self dp,
    (FourierTransformer_get_setting (sample_config "fourier" 96 2)
     = Ok (self, dp) \/
     FourierTransformer2D_get_setting (sample_config "fourier" 96 2)
     = Ok (self, dp)) /\
    sample_config "fourier" 96 2 !! "dim_feedforward" = Some PNone /\
    getattr self "dim_feedforward" = Ok (PInt 192).
Proof.
  assert (Hrun : (let! sd := FourierTransformer_get_setting
                               (sample_config "fourier" 96 2) in
                  Ok tt) = Ok tt) by (vm_compute; reflexivity).
  inv_bind_as Hrun sd E. destruct sd as [self dp]. clear Hrun.
  assert (Hv : sample_config "fourier" 96 2 !! "dim_feedforward" = Some PNone)
    by (vm_compute; reflexivity).
  exists self, dp.
  split; [left; exact E|]. split; [exact Hv|].
  rewrite (dim_feedforward_default _ _ _ PNone (or_introl E) Hv).
  vm_compute. reflexivity.
Defined.

(** ** Decoder types *)

Lemma get_setting_decoder_type (config self : gmap string pyval)
    (dp : Dropout) :
  FourierTransformer_get_setting config = Ok (self, dp) \/
  FourierTransformer2D_get_setting config = Ok (self, dp) ->
  getattr self "decoder_type" = Ok (config_get config "decoder_type").
Proof.
  intros E.
  assert (Hself : self !! "decoder_type" = config !! "decoder_type").
  { destruct E as [E|E].
    - rewrite (FourierTransformer_get_setting_other _ _ _ _ E)
        by not_in_list.
      apply configured_attrs_other. not_in_list.
    - rewrite (FourierTransformer2D_get_setting_other _ _ _ _ E)
        by not_in_list.
      apply configured_attrs_other. not_in_list. }
  assert (Hex : exists v, self !! "decoder_type" = Some v).
  { destruct E as [E|E].
    - unfold FourierTransformer_get_setting in E.
      inv_bind_as E self0 Ecommon. inv_bind_as E sd Esd.
      inv_bind_as E sfc Esfc. inv_bind_as E dp0 Edp.
      inv_bind_as E self1 Ebump. injection E as <- <-.
      unfold bump_num_ft_layers in Ebump. inv_bind_as Ebump dt Edt.
      apply getattr_Ok in Edt. exists dt.
      rewrite <- Edt. destruct (py_eq_str dt "attention").
      + inv_bind_as Ebump n0 En0. inv_bind_as Ebump n1 En1.
        injection Ebump as <-. rewrite lookup_insert_ne by discriminate.
        reflexivity.
      + injection Ebump as <-. reflexivity.
    - unfold FourierTransformer2D_get_setting in E.
      inv_bind_as E self0 Ecommon. inv_bind_as E dp0 Edp.
      inv_bind_as E self1 Ebump. inv_bind_as E upsz Eup.
      inv_bind_as E scl Esc. injection E as <- <-.
      unfold bump_num_ft_layers in Ebump. inv_bind_as Ebump dt Edt.
      apply getattr_Ok in Edt. exists dt.
      rewrite lookup_insert_ne by discriminate.
      rewrite <- Edt. destruct (py_eq_str dt "attention").
      + inv_bind_as Ebump n0 En0. inv_bind_as Ebump n1 En1.
        injection Ebump as <-. rewrite lookup_insert_ne by discriminate.
        reflexivity.
      + injection Ebump as <-. reflexivity. }
  destruct Hex as [v Hv]. apply getattr_Some.
  unfold config_get. rewrite <- Hself, Hv. reflexivity.
Qed.



(** The decoder type ['ifft2'] of the 2D operator is unknown to the 1D
    operator. *)
Example ifft2_decoder_1D :
  FourierTransformer_init (decoder_config "ifft2")
  = Raise (NotImplementedError "Decoder type not implemented").
Proof. vm_compute. reflexivity. Qed.

(** ** The encoder stack of a constructed operator *)

(** Peels every step off a hypothesis [let! ... in ... = Ok _]. *)
Ltac inv_binds H :=
  repeat (apply rbind_Ok_inv in H; destruct H as (? & ? & H)).

Lemma py_eq_str_true (v : pyval) (s : string) :
  py_eq_str v s = true -> v = PStr s.
Proof.
  destruct v; simpl; try discriminate.
  intros E. apply String.eqb_eq in E. subst. reflexivity.
Qed.

Lemma get_setting_num_ft_layers (config self : gmap string pyval)
    (dp : Dropout) :
  FourierTransformer_get_setting config = Ok (self, dp) \/
  FourierTransformer2D_get_setting config = Ok (self, dp) ->
  py_eq_str (config_get config "decoder_type") "attention" = false ->
  self !! "num_ft_layers" = config !! "num_ft_layers".
Proof.
  intros E Hdt.
  pose proof (get_setting_decoder_type _ _ _ E) as Hfinal.
  apply getattr_Ok in Hfinal.
  destruct E as [E|E].
  - unfold FourierTransformer_get_setting in E.
    inv_bind_as E self0 Ecommon. inv_bind_as E sd Esd.
    inv_bind_as E sfc Esfc. inv_bind_as E dp0 Edp.
    inv_bind_as E self1 Ebump. injection E as <- <-.
    rewrite (bump_num_ft_layers_other _ _ _ Ebump) in Hfinal
      by discriminate.
    unfold bump_num_ft_layers in Ebump. inv_bind_as Ebump dt Edt.
    apply getattr_Ok in Edt. rewrite Edt in Hfinal.
    injection Hfinal as ->. rewrite Hdt in Ebump. injection Ebump as <-.
    rewrite !lookup_insert_ne by discriminate.
    rewrite (common_setting_other _ _ _ Ecommon) by discriminate.
    apply configured_attrs_other. not_in_list.
  - unfold FourierTransformer2D_get_setting in E.
    inv_bind_as E self0 Ecommon. inv_bind_as E dp0 Edp.
    inv_bind_as E self1 Ebump. inv_bind_as E upsz Eup.
    inv_bind_as E scl Esc. injection E as <- <-.
    rewrite lookup_insert_ne in Hfinal by discriminate.
    rewrite (bump_num_ft_layers_other _ _ _ Ebump) in Hfinal
      by discriminate.
    unfold bump_num_ft_layers in Ebump. inv_bind_as Ebump dt Edt.
    apply getattr_Ok in Edt. rewrite Edt in Hfinal.
    injection Hfinal as ->. rewrite Hdt in Ebump. injection Ebump as <-.
    rewrite !lookup_insert_ne by discriminate.
    rewrite (common_setting_other _ _ _ Ecommon) by discriminate.
    apply configured_attrs_other. not_in_list.
Qed.

Lemma is_official_deepcopy (i : nat) (e : encoder_layer) :
  is_official (deepcopy_encoder i e) = is_official e.
Proof. destruct e; reflexivity. Qed.

Lemma stack_encoder_spec (self : gmap string pyval) (e : encoder_layer)
    (layers : list encoder_layer) (n : Z) :
  self !! "num_ft_layers" = Some (PInt n) ->
  stack_encoder self e = Ok layers ->
  length layers = Z.to_nat n /\
  forall e', e' ∈ layers -> is_official e' = is_official e.
Proof.
  unfold stack_encoder. intros Hn E.
  rewrite (getattr_Some _ _ _ Hn) in E. simpl in E. injection E as <-.
  unfold clone_encoder. split.
  - rewrite length_map, length_seq. reflexivity.
  - intros e' Hin. apply list_elem_of_In, in_map_iff in Hin.
    destruct Hin as (i & <- & _). apply is_official_deepcopy.
Qed.

Lemma official_encoder_layer_kind (self : gmap string pyval)
    (e : encoder_layer) :
  official_encoder_layer self = Ok e -> is_official e = true.
Proof.
  unfold official_encoder_layer. intros E. inv_binds E.
  injection E as <-. reflexivity.
Qed.

Lemma FourierTransformer_get_encoder_spec (self : gmap string pyval)
    (layers : list encoder_layer) (n : Z) (attention_type : pyval) :
  self !! "num_ft_layers" = Some (PInt n) ->
  self !! "attention_type" = Some attention_type ->
  FourierTransformer_get_encoder self = Ok layers ->
  length layers = Z.to_nat n /\
  forall e, e ∈ layers ->
    is_official e = negb (py_in_strs attention_type attention_types_1D).
Proof.
  unfold FourierTransformer_get_encoder. intros Hn Hty E.
  rewrite (getattr_Some _ _ _ Hty) in E. cbn [rbind] in E.
  inv_bind_as E e0 Ee0.
  destruct (stack_encoder_spec _ _ _ _ Hn E) as [Hlen Hkind].
  split; [exact Hlen|]. intros e He. rewrite (Hkind e He).
  destruct (py_in_strs attention_type attention_types_1D).
  - inv_binds Ee0. injection Ee0 as <-. reflexivity.
  - apply (official_encoder_layer_kind _ _ Ee0).
Qed.

Lemma FourierTransformer2D_get_encoder_spec (self : gmap string pyval)
    (layers : list encoder_layer) (n : Z) (attention_type : pyval) :
  self !! "num_ft_layers" = Some (PInt n) ->
  self !! "attention_type" = Some attention_type ->
  FourierTransformer2D_get_encoder self = Ok layers ->
  length layers = Z.to_nat n /\
  forall e, e ∈ layers ->
    is_official e = negb (py_in_strs attention_type attention_types_2D).
Proof.
  unfold FourierTransformer2D_get_encoder. intros Hn Hty E.
  rewrite (getattr_Some _ _ _ Hty) in E. cbn [rbind] in E.
  inv_bind_as E e0 Ee0.
  destruct (stack_encoder_spec _ _ _ _ Hn E) as [Hlen Hkind].
  split; [exact Hlen|]. intros e He. rewrite (Hkind e He).
  destruct (py_in_strs attention_type attention_types_2D).
  - inv_binds Ee0. injection Ee0 as <-. reflexivity.
  - destruct (py_eq_str attention_type "official"); [|discriminate].
    apply (official_encoder_layer_kind _ _ Ee0).
Qed.

Lemma regressor_decoder_type_1D (self : gmap string pyval) (r : regressor) :
  FourierTransformer_get_regressor self = Ok r ->
  exists dt, getattr self "decoder_type" = Ok dt /\
             py_eq_str dt "attention" = false.
Proof.
  unfold FourierTransformer_get_regressor. intros E.
  inv_bind_as E dt Edt. exists dt. split; [exact Edt|].
  destruct (py_eq_str dt "pointwise") eqn:Ep.
  - apply py_eq_str_true in Ep. subst. reflexivity.
  - destruct (py_eq_str dt "ifft") eqn:Ei; [|discriminate].
    apply py_eq_str_true in Ei. subst. reflexivity.
Qed.

Lemma regressor_decoder_type_2D (self : gmap string pyval) (r : regressor) :
  FourierTransformer2D_get_regressor self = Ok r ->
  exists dt, getattr self "decoder_type" = Ok dt /\
             py_eq_str dt "attention" = false.
Proof.
  unfold FourierTransformer2D_get_regressor. intros E.
  inv_bind_as E dt Edt. exists dt. split; [exact Edt|].
  destruct (py_eq_str dt "pointwise") eqn:Ep.
  - apply py_eq_str_true in Ep. subst. reflexivity.
  - destruct (py_eq_str dt "ifft2") eqn:Ei; [|discriminate].
    apply py_eq_str_true in Ei. subst. reflexivity.
Qed.

(** X5.  A constructed operator stacks exactly [num_ft_layers] encoder
    layers (none when the number is zero or negative), all of one kind:
    torch-style layers when the attention type is outside the operator's
    list, Fourier-type layers otherwise. *)
Theorem encoder_stack_size_and_kind (config : gmap string pyval) (n : Z) :
  config !! "num_ft_layers" = Some (PInt n) ->
  (forall m,
     FourierTransformer_init config = Ok m ->
     length (ft_encoder_layers m) = Z.to_nat n /\
     forall e, e ∈ ft_encoder_layers m ->
       is_official e
       = negb (py_in_strs (config_get config "attention_type")
                 attention_types_1D)) /\
  (forall m,
     FourierTransformer2D_init config = Ok m ->
     length (ft2_encoder_layers m) = Z.to_nat n /\
     forall e, e ∈ ft2_encoder_layers m ->
       is_official e
       = negb (py_in_strs (config_get config "attention_type")
                 attention_types_2D)).
Proof.
  intros Hn. split; intros m E.
  - destruct (FourierTransformer_init_inv _ _ E)
      as (Es & _ & Eenc & Ereg & _).
    destruct (regressor_decoder_type_1D _ _ Ereg) as (dt & Edt & Hdt).
    rewrite (get_setting_decoder_type _ _ _ (or_introl Es)) in Edt.
    injection Edt as <-.
    pose proof (get_setting_num_ft_layers _ _ _ (or_introl Es) Hdt) as Hnum.
    rewrite Hn in Hnum.
    assert (Hty : ft_self m !! "attention_type"
                  = config !! "attention_type").
    { rewrite (FourierTransformer_get_setting_other _ _ _ _ Es)
        by not_in_list.
      apply configured_attrs_other. not_in_list. }
    assert (Hex : exists v, ft_self m !! "attention_type" = Some v).
    { unfold FourierTransformer_get_encoder in Eenc.
      inv_bind_as Eenc ty Ety. apply getattr_Ok in Ety. eauto. }
    destruct Hex as [ty Hty'].
    replace (config_get config "attention_type") with ty
      by (unfold config_get; rewrite <- Hty, Hty'; reflexivity).
    exact (FourierTransformer_get_encoder_spec _ _ _ _ Hnum Hty' Eenc).
  - destruct (FourierTransformer2D_init_inv _ _ E)
      as (Es & _ & _ & Eenc & Ereg).
    destruct (regressor_decoder_type_2D _ _ Ereg) as (dt & Edt & Hdt).
    rewrite (get_setting_decoder_type _ _ _ (or_intror Es)) in Edt.
    injection Edt as <-.
    pose proof (get_setting_num_ft_layers _ _ _ (or_intror Es) Hdt) as Hnum.
    rewrite Hn in Hnum.
    assert (Hty : ft2_self m !! "attention_type"
                  = config !! "attention_type").
    { rewrite (FourierTransformer2D_get_setting_other _ _ _ _ Es)
        by not_in_list.
      apply configured_attrs_other. not_in_list. }
    assert (Hex : exists v, ft2_self m !! "attention_type" = Some v).
    { unfold FourierTransformer2D_get_encoder in Eenc.
      inv_bind_as Eenc ty Ety. apply getattr_Ok in Ety. eauto. }
    destruct Hex as [ty Hty'].
    replace (config_get config "attention_type") with ty
      by (unfold config_get; rewrite <- Hty, Hty'; reflexivity).
    exact (FourierTransformer2D_get_encoder_spec _ _ _ _ Hnum Hty' Eenc).
Qed.

Lemma encoder_stack_size_and_kind_witness :
  sample_config "fourier" 96 2 !! "num_ft_layers" = Some (PInt 2) /\
  exists m,
    FourierTransformer_init (sample_config "fourier" 96 2) = Ok m /\
    length (ft_encoder_layers m) = 2%nat /\
    forall e, e ∈ ft_encoder_layers m -> is_official e = false.
Proof.
  assert (Hn : sample_config "fourier" 96 2 !! "num_ft_layers"
               = Some (PInt 2)) by (vm_compute; reflexivity).
  split; [exact Hn|].
  assert (Hok : is_Ok (FourierTransformer_init
                         (sample_config "fourier" 96 2)) = true)
    by (vm_compute; reflexivity).
  destruct (FourierTransformer_init (sample_config "fourier" 96 2))
    as [m|e] eqn:E; [|discriminate Hok].
  exists m. split; [reflexivity|].
  destruct (encoder_stack_size_and_kind _ 2 Hn) as [H1 _].
  destruct (H1 m E) as [Hlen Hkind].
  split; [exact Hlen|]. intros e He. rewrite (Hkind e He).
  vm_compute. reflexivity.
Defined.

(** ** Scalers of the 2D operator *)

Lemma get_setting_2D_scaler (config self : gmap string pyval)
    (dp : Dropout) :
  FourierTransformer2D_get_setting config = Ok (self, dp) ->
  getattr self "scaler"
  = Ok (py_and (config_get config "upscaler_size")
               (config_get config "downscaler_size")).
Proof.
  unfold FourierTransformer2D_get_setting. intros E.
  inv_bind_as E self0 Ecommon. inv_bind_as E dp0 Edp.
  inv_bind_as E self1 Ebump. inv_bind_as E upsz Eup.
  inv_bind_as E scl Esc. injection E as <- <-.
  unfold getattr at 1. rewrite lookup_insert_eq.
  assert (Hattr : forall key, key ∈ ADDITIONAL_ATTR ->
            key <> "dim_feedforward" -> key <> "num_ft_layers" ->
            self1 !! key = Some (config_get config key)).
  { intros key Hin H1 H2.
    rewrite (bump_num_ft_layers_other _ _ _ Ebump) by exact H2.
    rewrite (common_setting_other _ _ _ Ecommon) by exact H1.
    apply configured_attrs_additional, Hin. }
  apply getattr_Ok in Eup.
  rewrite (Hattr "upscaler_size") in Eup by (in_list || discriminate).
  injection Eup as <-. unfold py_and.
  destruct (truthy (config_get config "upscaler_size")).
  - apply getattr_Ok in Esc.
    rewrite (Hattr "downscaler_size") in Esc by (in_list || discriminate).
    injection Esc as <-. reflexivity.
  - injection Esc as <-. reflexivity.
Qed.

(** X6.  A constructed 2D operator has a [DownScaler] and an [UpScaler]
    exactly when both [upscaler_size] and [downscaler_size] are set to true
    values; otherwise both places hold an [Identity] layer.  One size alone
    does not switch the scalers on. *)
Theorem scalers_need_both_sizes (config : gmap string pyval)
    (m : FourierTransformer2D) :
  FourierTransformer2D_init config = Ok m ->
  let both := truthy (config_get config "upscaler_size")
              && truthy (config_get config "downscaler_size") in
  match ft2_downscaler m, ft2_upscaler m with
  | inl _, inl _ => both = true
  | inr d, inr u =>
      both = false /\ layer_class d = "Identity" /\
      layer_class u = "Identity"
  | _, _ => False
  end.
Proof.
  intros E both.
  destruct (FourierTransformer2D_init_inv _ _ E) as (Es & _ & Esc & _).
  pose proof (get_setting_2D_scaler _ _ _ Es) as Hsc.
  unfold FourierTransformer2D_get_scaler in Esc.
  rewrite Hsc in Esc. cbn [rbind] in Esc.
  assert (Hboth : truthy (py_and (config_get config "upscaler_size")
                            (config_get config "downscaler_size")) = both).
  { unfold py_and, both.
    destruct (truthy (config_get config "upscaler_size")) eqn:Eu;
      [reflexivity | exact Eu]. }
  rewrite Hboth in Esc. destruct both.
  - inv_binds Esc. injection Esc as <- <-. reflexivity.
  - inv_binds Esc. injection Esc as <- <-. repeat split.
Qed.

Lemma scalers_need_both_sizes_witness :
  exists m,
    FourierTransformer2D_init
      (delete "downscaler_size" (scaler_config PNone)) = Ok m /\
    truthy (config_get (delete "downscaler_size" (scaler_config PNone))
              "upscaler_size") = true /\
    match ft2_downscaler m, ft2_upscaler m with
    | inr d, inr u => layer_class d = "Identity" /\ layer_class u = "Identity"
    | _, _ => False
    end.
Proof.
  assert (Hok : is_Ok (FourierTransformer2D_init
                         (delete "downscaler_size" (scaler_config PNone)))
                = true) by (vm_compute; reflexivity).
  destruct (FourierTransformer2D_init
              (delete "downscaler_size" (scaler_config PNone)))
    as [m|e] eqn:E; [|discriminate Hok].
  exists m. split; [reflexivity|].
  split; [vm_compute; reflexivity|].
  pose proof (scalers_need_both_sizes _ m E) as H. cbv zeta in H.
  destruct (ft2_downscaler m), (ft2_upscaler m); try contradiction.
  - exfalso. vm_compute in H. discriminate H.
  - destruct H as (_ & Hd & Hu). split; assumption.
Defined.

(** ** Regressors: dimensions, depth, and the grid argument *)

Lemma set_last_activation_length (l : list Layer) :
  length (set_last_activation l) = length l.
Proof.
  unfold set_last_activation.
  destruct (list.last l) as [c|] eqn:E; [|reflexivity].
  destruct (exists_last (l := l)) as (l' & a & ->).
  { intros ->. discriminate E. }
  rewrite removelast_last, !length_app. reflexivity.
Qed.

(** X7.  The spectral regressor exists for one and two space dimensions
    only: any other [spacial_dim] raises "3D not implemented." before
    anything else is looked at.  When it is constructed it has at least one
    spectral layer, and [num_spectral_layers] of them when that number is
    positive. *)
Theorem spectral_regressor_dimension_and_depth
    (in_dim n_hidden freq_dim out_dim modes num_spectral_layers n_grid
     dim_feedforward spacial_fc spacial_dim return_freq normalizer
     activation last_activation dropout debug : pyval) :
  let init :=
    SpectralRegressor_init in_dim n_hidden freq_dim out_dim modes
      num_spectral_layers n_grid dim_feedforward spacial_fc spacial_dim
      return_freq normalizer activation last_activation dropout debug in
  (py_eq_int spacial_dim 1 || py_eq_int spacial_dim 2 = false ->
   init = Raise (NotImplementedError "3D not implemented.")) /\
  (forall r, init = Ok r ->
     py_eq_int spacial_dim 1 || py_eq_int spacial_dim 2 = true /\
     exists n, as_int num_spectral_layers = Some n /\
       length (sr_spectral_conv r) = Z.to_nat (Z.max 1 n)).
Proof.
  intros init. unfold init, SpectralRegressor_init. split.
  - intros Hd. apply orb_false_elim in Hd as [H1 H2].
    rewrite H1, H2. reflexivity.
  - intros r E. inv_bind_as E cls Ecls.
    split.
    { destruct (py_eq_int spacial_dim 2); [apply orb_true_r|].
      destruct (py_eq_int spacial_dim 1); [reflexivity | discriminate]. }
    inv_bind_as E fc Efc. inv_bind_as E more Emore.
    inv_bind_as E k Ek. inv_bind_as E dff Edff. injection E as <-.
    cbn [sr_spectral_conv].
    unfold py_sub in Emore. simpl in Emore.
    destruct (as_int num_spectral_layers) as [n|] eqn:En.
    + injection Emore as <-. simpl in Ek. injection Ek as <-.
      exists n. split; [reflexivity|].
      destruct (negb (truthy last_activation));
        rewrite ?set_last_activation_length; simpl;
        rewrite length_map, length_seq; lia.
    + exfalso. destruct (as_num num_spectral_layers) eqn:Eq.
      * injection Emore as <-. discriminate Ek.
      * discriminate Emore.
Qed.

Lemma spectral_regressor_dimension_and_depth_witness :
  py_eq_int (PInt 3) 1 || py_eq_int (PInt 3) 2 = false /\
  SpectralRegressor_init (PInt 96) (PInt 96) (PInt 64) (PInt 1) (PInt 16)
    (PInt 2) PNone PNone (PBool false) (PInt 3) (PBool false) PNone
    (PStr "silu") (PBool true) PNone (PBool false)
  = Raise (NotImplementedError "3D not implemented.") /\
  exists r,
    SpectralRegressor_init (PInt 96) (PInt 96) (PInt 64) (PInt 1) (PInt 16)
      (PInt 0) PNone PNone (PBool false) (PInt 2) (PBool false) PNone
      (PStr "silu") (PBool true) PNone (PBool false) = Ok r /\
    length (sr_spectral_conv r) = 1%nat.
Proof.
  split; [reflexivity|]. split.
  - apply (spectral_regressor_dimension_and_depth (PInt 96) (PInt 96)
             (PInt 64) (PInt 1) (PInt 16) (PInt 2) PNone PNone (PBool false)
             (PInt 3) (PBool false) PNone (PStr "silu") (PBool true) PNone
             (PBool false)).
    reflexivity.
  - eexists. split; [vm_compute; reflexivity|].
    match goal with
    | |- length (sr_spectral_conv ?r0) = _ =>
        destruct (proj2 (spectral_regressor_dimension_and_depth (PInt 96)
                   (PInt 96) (PInt 64) (PInt 1) (PInt 16) (PInt 0) PNone
                   PNone (PBool false) (PInt 2) (PBool false) PNone
                   (PStr "silu") (PBool true) PNone (PBool false))
                   r0 ltac:(vm_compute; reflexivity))
          as (_ & n & Hn & Hlen)
    end.
    rewrite Hlen. injection Hn as <-. reflexivity.
Defined.

Lemma nn_Dropout_Ok (k : nat) (p : pyval) (d : Dropout) :
  nn_Dropout k p = Ok d ->
  exists q, as_num p = Some q /\ drop_p d = q /\
            (0 <= q)%Q /\ (q <= 1)%Q.
Proof.
  unfold nn_Dropout.
  assert (Hc : forall q,
            (if Qle_bool 0 q && Qle_bool q 1
             then Ok {| drop_p := q; drop_path := [k] |}
             else Raise ValueError) = Ok d ->
            drop_p d = q /\ (0 <= q)%Q /\ (q <= 1)%Q).
  { intros q E. destruct (Qle_bool 0 q) eqn:E0; [|discriminate].
    destruct (Qle_bool q 1) eqn:Eq; [|discriminate].
    injection E as <-. apply Qle_bool_iff in E0, Eq. auto. }
  destruct p as [|b|z|q|s|l|i]; try discriminate; intros E; apply Hc in E;
    try destruct b; eexists; (split; [reflexivity | exact E]).
Qed.

Lemma PointwiseRegressor_init_has_fc
    (in_dim n_hidden out_dim num_layers spacial_fc spacial_dim dropout
     activation debug : pyval) (r : PointwiseRegressor) :
  PointwiseRegressor_init in_dim n_hidden out_dim num_layers spacial_fc
    spacial_dim dropout activation debug = Ok r ->
  has_layer (pr_fc r) = truthy spacial_fc.
Proof.
  unfold PointwiseRegressor_init. intros E.
  inv_bind_as E fc Efc. inv_bind_as E more Emore. inv_bind_as E k Ek.
  inv_bind_as E dp Edp. injection E as <-. cbn.
  destruct (truthy spacial_fc).
  - inv_bind_as Efc d Ed. injection Efc as <-. reflexivity.
  - injection Efc as <-. reflexivity.
Qed.

(** X8.  A constructed pointwise regressor has at least one hidden block,
    and [num_layers] of them when that number is positive; it has the input
    layer [fc] exactly when [spacial_fc] is set; its dropout rate is 0.1
    when the dropout is [None] and the given rate, between 0 and 1,
    otherwise. *)
Theorem pointwise_regressor_structure
    (in_dim n_hidden out_dim num_layers spacial_fc spacial_dim dropout
     activation debug : pyval) (r : PointwiseRegressor) :
  PointwiseRegressor_init in_dim n_hidden out_dim num_layers spacial_fc
    spacial_dim dropout activation debug = Ok r ->
  (exists n, as_int num_layers = Some n /\
             length (pr_ff r) = Z.to_nat (Z.max 1 n)) /\
  has_layer (pr_fc r) = truthy spacial_fc /\
  (0 <= drop_p (pr_dropout r))%Q /\ (drop_p (pr_dropout r) <= 1)%Q /\
  (is_None dropout = true -> drop_p (pr_dropout r) = one_tenth) /\
  (forall q, dropout = PFloat q -> drop_p (pr_dropout r) = q).
Proof.
  unfold PointwiseRegressor_init. intros E.
  inv_bind_as E fc Efc. inv_bind_as E more Emore. inv_bind_as E k Ek.
  inv_bind_as E dp Edp. injection E as <-. cbn.
  split; [|split].
  - unfold py_sub in Emore. simpl in Emore.
    destruct (as_int num_layers) as [n|] eqn:En.
    + injection Emore as <-. simpl in Ek. injection Ek as <-.
      exists n. split; [reflexivity|].
      rewrite length_map, length_seq. lia.
    + exfalso. destruct (as_num num_layers) eqn:Eq.
      * injection Emore as <-. discriminate Ek.
      * discriminate Emore.
  - destruct (truthy spacial_fc).
    + inv_bind_as Efc d Ed. injection Efc as <-. reflexivity.
    + injection Efc as <-. reflexivity.
  - destruct (nn_Dropout_Ok _ _ _ Edp) as (q & Hq & Hp & H0 & H1).
    rewrite Hp. split; [exact H0|]. split; [exact H1|]. split.
    + intros Hnone. rewrite Hnone in Hq. injection Hq as <-. reflexivity.
    + intros q' ->. simpl in Hq. injection Hq as <-. reflexivity.
Qed.

Lemma pointwise_regressor_structure_witness :
  exists r,
    PointwiseRegressor_init (PInt 96) (PInt 96) (PInt 1) (PInt 0)
      (PBool true) (PInt 1) PNone (PStr "silu") (PBool false) = Ok r /\
    length (pr_ff r) = 1%nat /\
    has_layer (pr_fc r) = true /\
    drop_p (pr_dropout r) = one_tenth.
Proof.
  destruct (PointwiseRegressor_init (PInt 96) (PInt 96) (PInt 1) (PInt 0)
              (PBool true) (PInt 1) PNone (PStr "silu") (PBool false))
    as [r|e] eqn:E.
  - exists r. split; [reflexivity|].
    destruct (pointwise_regressor_structure _ _ _ _ _ _ _ _ _ r E)
      as ((n & Hn & Hlen) & Hfc & _ & _ & Hnone & _).
    injection Hn as <-.
    split; [exact Hlen|]. split; [exact Hfc|]. apply Hnone. reflexivity.
  - exfalso. vm_compute in E. discriminate E.
Defined.

(** X9.  A pointwise regressor built with [spacial_fc] set needs the grid:
    without it the forward pass raises, with it the forward pass returns
    and starts from [fc] applied to the concatenation of [x] and the
    grid. *)
Theorem pointwise_regressor_needs_grid {A : Type} `{Torch A}
    (in_dim n_hidden out_dim num_layers spacial_fc spacial_dim dropout
     activation debug : pyval) (r : PointwiseRegressor)
    (x grid : tensor A) :
  PointwiseRegressor_init in_dim n_hidden out_dim num_layers spacial_fc
    spacial_dim dropout activation debug = Ok r ->
  truthy spacial_fc = true ->
  PointwiseRegressor_forward r x None = Raise TypeError /\
  exists fc,
    pr_fc r = Some fc /\
    PointwiseRegressor_forward r x (Some grid)
    = Ok (unary_fwd (pr_out r)
            (pointwise_loop (pr_dropout r) (pr_ff r) 0
               (unary_fwd fc (tcat_last [x; grid])))).
Proof.
  intros E Hfc.
  pose proof (PointwiseRegressor_init_spacial_fc _ _ _ _ _ _ _ _ _ _ E)
    as Hflag.
  pose proof (PointwiseRegressor_init_has_fc _ _ _ _ _ _ _ _ _ _ E)
    as Hhas.
  rewrite Hfc in Hhas.
  unfold PointwiseRegressor_forward. rewrite Hflag, Hfc.
  destruct (pr_fc r) as [fc|]; [|discriminate].
  split; [reflexivity|]. exists fc. split; reflexivity.
Qed.

Lemma pointwise_regressor_needs_grid_witness :
  exists r,
    PointwiseRegressor_init (PInt 96) (PInt 96) (PInt 1) (PInt 2)
      (PBool true) (PInt 1) PNone (PStr "silu") (PBool false) = Ok r /\
    truthy (PBool true) = true /\
    PointwiseRegressor_forward r (Zconst3 2 8 96 1) None = Raise TypeError /\
    exists y, PointwiseRegressor_forward r (Zconst3 2 8 96 1)
                (Some (Zconst3 2 8 1 0)) = Ok y.
Proof.
  destruct (PointwiseRegressor_init (PInt 96) (PInt 96) (PInt 1) (PInt 2)
              (PBool true) (PInt 1) PNone (PStr "silu") (PBool false))
    as [r|e] eqn:E.
  - exists r. split; [reflexivity|]. split; [reflexivity|].
    destruct (pointwise_regressor_needs_grid _ _ _ _ _ _ _ _ _ r
                (Zconst3 2 8 96 1) (Zconst3 2 8 1 0) E eq_refl)
      as (Hnone & fc & _ & Hsome).
    split; [exact Hnone|]. eexists. exact Hsome.
  - exfalso. vm_compute in E. discriminate E.
Defined.

(** ** Scaler modes *)

Lemma nn_Dropout_not_implemented (k : nat) (p : pyval) (msg : string) :
  nn_Dropout k p <> Raise (NotImplementedError msg).
Proof.
  unfold nn_Dropout.
  assert (Hc : forall q,
            (if Qle_bool 0 q && Qle_bool q 1
             then Ok {| drop_p := q; drop_path := [k] |}
             else Raise ValueError) <> Raise (NotImplementedError msg)).
  { intros q. destruct (Qle_bool 0 q && Qle_bool q 1); discriminate. }
  destruct p; try discriminate; apply Hc.
Qed.

Lemma py_mul_not_implemented (a b : pyval) (msg : string) :
  py_mul a b <> Raise (NotImplementedError msg).
Proof.
  unfold py_mul.
  destruct (as_int a), (as_int b), (as_num a), (as_num b), a, b;
    discriminate.
Qed.

(** X10.  The downscaler knows the modes ['conv'] and ['interp'], the
    upscaler ['conv'], ['deconv'] and ['interp'].  Each constructor raises
    its "mode not implemented" error exactly for the other modes. *)
Theorem scaler_modes
    (in_dim out_dim hidden_dim dropout padding output_padding mode
     activation_type interp_mode interp_size debug : pyval) :
  (DownScaler_init in_dim out_dim dropout padding mode activation_type
     interp_size debug
   = Raise (NotImplementedError "downsample mode not implemented.")
   <-> py_in_strs mode ["conv"; "interp"] = false) /\
  (UpScaler_init in_dim out_dim hidden_dim padding output_padding dropout
     mode activation_type interp_mode interp_size debug
   = Raise (NotImplementedError "upsample mode not implemented.")
   <-> py_in_strs mode ["conv"; "deconv"; "interp"] = false).
Proof.
  split; split.
  - unfold DownScaler_init. intros E. simpl.
    destruct (py_eq_str mode "conv").
    + cbn [rbind] in E. exfalso.
      destruct (nn_Dropout 0 dropout) eqn:Ed; simpl in E;
        [discriminate|].
      injection E as ->. exact (nn_Dropout_not_implemented _ _ _ Ed).
    + destruct (py_eq_str mode "interp"); [|reflexivity].
      cbn [rbind] in E. exfalso.
      destruct (nn_Dropout 0 dropout) eqn:Ed; simpl in E;
        [discriminate|].
      injection E as ->. exact (nn_Dropout_not_implemented _ _ _ Ed).
  - unfold DownScaler_init. simpl. intros Hm.
    apply orb_false_elim in Hm as [H1 Hm].
    apply orb_false_elim in Hm as [H2 _].
    rewrite H1, H2. reflexivity.
  - unfold UpScaler_init. intros E. simpl.
    destruct (py_eq_str mode "conv") eqn:Ec;
      [|destruct (py_eq_str mode "deconv") eqn:Edc];
      [| |destruct (py_eq_str mode "interp") eqn:Ei]; try reflexivity;
      exfalso; simpl in E; rewrite ?Ec, ?Edc, ?Ei in E; simpl in E;
      try discriminate;
      (destruct (py_mul padding (PInt 2)) eqn:Em; simpl in E;
       [discriminate|];
       injection E as ->; exact (py_mul_not_implemented _ _ _ Em)).
  - unfold UpScaler_init. simpl. intros Hm.
    apply orb_false_elim in Hm as [H1 Hm].
    apply orb_false_elim in Hm as [H2 Hm].
    apply orb_false_elim in Hm as [H3 _].
    simpl. rewrite H1, H2, H3. reflexivity.
Qed.

Lemma scaler_modes_witness :
  py_in_strs (PStr "bilinear") ["conv"; "interp"] = false /\
  py_in_strs (PStr "bilinear") ["conv"; "deconv"; "interp"] = false /\
  DownScaler_init (PInt 1) (PInt 96) (PFloat (1 # 20)) (PInt 2)
    (PStr "bilinear") (PStr "silu") PNone (PBool false)
  = Raise (NotImplementedError "downsample mode not implemented.") /\
  UpScaler_init (PInt 96) (PInt 96) PNone (PInt 2) (PInt 1)
    (PFloat (1 # 20)) (PStr "bilinear") (PStr "silu") (PStr "bilinear")
    PNone (PBool false)
  = Raise (NotImplementedError "upsample mode not implemented.").
Proof.
  assert (Hd : py_in_strs (PStr "bilinear") ["conv"; "interp"] = false)
    by reflexivity.
  assert (Hu : py_in_strs (PStr "bilinear") ["conv"; "deconv"; "interp"]
               = false) by reflexivity.
  split; [exact Hd|]. split; [exact Hu|].
  destruct (scaler_modes (PInt 1) (PInt 96) PNone (PFloat (1 # 20))
              (PInt 2) (PInt 1) (PStr "bilinear") (PStr "silu")
              (PStr "bilinear") PNone (PBool false)) as [[_ Dn] _].
  destruct (scaler_modes (PInt 96) (PInt 96) PNone (PFloat (1 # 20))
              (PInt 2) (PInt 1) (PStr "bilinear") (PStr "silu")
              (PStr "bilinear") PNone (PBool false)) as [_ [_ Up]].
  split; [exact (Dn Hd) | exact (Up Hu)].
Defined.

(** ** Graph extractors with a single layer *)

Lemma layers_from_1_single (n : Z) (mk : Layer) (ls : list Layer) :
  (n <= 1)%Z -> layers_from_1 (PInt n) mk = Ok ls -> ls = [].
Proof.
  intros Hn E. apply layers_from_1_length in E.
  replace (Z.to_nat (n - 1)) with 0%nat in E by lia.
  destruct ls; [reflexivity | discriminate].
Qed.

(** X11.  A graph extractor asked for one layer (or fewer) is constructed,
    with the initial layer only, but its forward pass never returns: it
    fails on the last element of the empty list of stacked layers.  So
    [num_feat_layers=1] gives an operator that cannot be evaluated. *)
Theorem single_layer_graph_extractor_never_runs {A : Type} `{Torch A}
    (node_feats out_features edge_feats activation raw_laplacian dropout
     debug : pyval) (n : Z) (x edge : tensor A) :
  (n <= 1)%Z ->
  (forall g,
     GAT_init node_feats out_features (PInt n) edge_feats activation debug
     = Ok g ->
     gat_layers g = [] /\ GAT_forward g x edge = Raise IndexError) /\
  (forall g,
     GCN_init node_feats out_features (PInt n) edge_feats activation
       raw_laplacian dropout debug = Ok g ->
     gcn_layers g = [] /\ raises (GCN_forward g x edge)).
Proof.
  intros Hn. split; intros g E.
  - unfold GAT_init in E. inv_bind_as E ls Els. injection E as <-.
    apply layers_from_1_single in Els; [|exact Hn]. subst ls.
    split; reflexivity.
  - unfold GCN_init in E. inv_bind_as E ls Els. inv_bind_as E dp Edp.
    injection E as <-.
    apply layers_from_1_single in Els; [|exact Hn]. subst ls.
    split; [reflexivity|].
    unfold GCN_forward. apply raises_bind. intros k _. cbn.
    destruct (negb _); apply raises_Raise.
Qed.

Lemma single_layer_graph_extractor_never_runs_witness :
  (1 <= 1)%Z /\
  exists g,
    GAT_init (PInt 1) (PInt 4) (PInt 1) PNone (PBool true) (PBool false)
    = Ok g /\
    gat_layers g = [] /\
    GAT_forward g sample_node sample_edge = Raise IndexError.
Proof.
  split; [lia|].
  destruct (GAT_init (PInt 1) (PInt 4) (PInt 1) PNone (PBool true)
              (PBool false)) as [g|e] eqn:E.
  - exists g. split; [reflexivity|].
    assert (Hn : (1 <= 1)%Z) by lia.
    exact (proj1 (single_layer_graph_extractor_never_runs (PInt 1) (PInt 4)
                    PNone (PBool true) (PBool false) PNone (PBool false)
                    1 sample_node sample_edge Hn) g E).
  - exfalso. vm_compute in E. discriminate E.
Defined.

(** ** The encoder layer and its position argument *)

(** X12.  A constructed encoder layer called without positions always
    returns, with a weight map exactly when [attn_weight] was set at
    construction.  Positions are handed to the attention only when
    [pos_dim] is positive: for [pos_dim <= 0] the result is the one without
    positions, and when [pos_dim] is not a number the call with positions
    raises. *)
Theorem encoder_layer_positions {A : Type} `{Torch A}
    (a : EncoderLayerArgs) (l : FourierTransformerEncoderLayer)
    (x : tensor A) (weight : option (tensor A)) :
  FourierTransformerEncoderLayer_init a = Ok l ->
  (exists y w,
     FourierTransformerEncoderLayer_forward l x None weight = Ok (y, w) /\
     has_weight w = truthy (a_attn_weight a)) /\
  (forall pos,
     py_gt0 (a_pos_dim a) = Ok false ->
     FourierTransformerEncoderLayer_forward l x (Some pos) weight
     = FourierTransformerEncoderLayer_forward l x None weight) /\
  (forall pos e,
     py_gt0 (a_pos_dim a) = Raise e ->
     FourierTransformerEncoderLayer_forward l x (Some pos) weight
     = Raise e).
Proof.
  intros E.
  destruct (FourierTransformerEncoderLayer_init_fields _ _ E)
    as (Hpd & Haw & Hln & Hpe & _ & Hn1 & Hn2 & Hemb).
  unfold FourierTransformerEncoderLayer_forward.
  rewrite Hpd, Haw, Hln, Hpe. rewrite <- Hemb.
  assert (Hx : exists x0,
             (if has_layer (el_pos_emb l)
              then let! x1 := apply_opt (el_pos_emb l) (permute [1; 0; 2] x)
                   in Ok (permute [1; 0; 2] x1)
              else Ok x) = Ok x0).
  { destruct (el_pos_emb l); eexists; reflexivity. }
  destruct Hx as [x0 ->]. cbn [rbind].
  split; [|split].
  - destruct (attn_fwd (el_attn l) x0 x0 x0 None weight)
      as [att_output attn_weight].
    rewrite <- Hn1.
    assert (Hn : truthy (a_layer_norm a) = has_layer (el_layer_norm2 l))
      by (symmetry; exact Hn2).
    rewrite <- Hn1 in Hn.
    destruct (el_layer_norm1 l) as [n1|]; cbn [has_layer apply_opt rbind];
      destruct (el_layer_norm2 l) as [n2|]; try discriminate;
      cbn [apply_opt rbind];
      destruct (truthy (a_attn_weight a)); eexists; eexists;
      (split; [reflexivity | reflexivity]).
  - intros pos ->. reflexivity.
  - intros pos e ->. reflexivity.
Qed.

Lemma encoder_layer_positions_witness :
  exists l,
    FourierTransformerEncoderLayer_init
      (galerkin_args (PInt 0) (PBool true) PNone) = Ok l /\
    py_gt0 (a_pos_dim (galerkin_args (PInt 0) (PBool true) PNone))
    = Ok false /\
    (exists y w,
       FourierTransformerEncoderLayer_forward l (Zconst3 1 2 96 1) None None
       = Ok (y, w) /\ has_weight w = true) /\
    FourierTransformerEncoderLayer_forward l (Zconst3 1 2 96 1)
      (Some sample_pos) None
    = FourierTransformerEncoderLayer_forward l (Zconst3 1 2 96 1) None None.
Proof.
  destruct (FourierTransformerEncoderLayer_init
              (galerkin_args (PInt 0) (PBool true) PNone)) as [l|e] eqn:E.
  - exists l. split; [reflexivity|]. split; [reflexivity|].
    destruct (encoder_layer_positions _ l (Zconst3 1 2 96 1) None E)
      as (Hnone & Hzero & _).
    split; [exact Hnone|]. apply Hzero. reflexivity.
  - exfalso. vm_compute in E. discriminate E.
Defined.

(** With [pos_dim=None] a call with positions fails. *)
Example encoder_layer_pos_dim_None :
  exists l,
    FourierTransformerEncoderLayer_init
      (galerkin_args PNone (PBool true) PNone) = Ok l /\
    FourierTransformerEncoderLayer_forward l (Zconst3 1 2 96 1)
      (Some sample_pos) None = Raise TypeError.
Proof. eexists. split; [vm_compute; reflexivity | reflexivity]. Qed.

(** X13.  When [attn_norm] is left unset, the attention kernel is told to
    normalize exactly when the encoder layer has no layer normalization of
    its own, so one of the two normalizations is on and never both; an
    unset [norm_type] reaches the kernel as ['layer']. *)
Theorem attention_norm_complements_layer_norm (a : EncoderLayerArgs)
    (l : FourierTransformerEncoderLayer) :
  FourierTransformerEncoderLayer_init a = Ok l ->
  (a_attn_norm a = PNone ->
   lookup_arg "norm" (layer_args (el_attn l))
   = PBool (negb (has_layer (el_layer_norm1 l)))) /\
  (a_norm_type a = PNone ->
   lookup_arg "norm_type" (layer_args (el_attn l)) = PStr "layer").
Proof.
  intros E.
  destruct (FourierTransformerEncoderLayer_init_fields _ _ E)
    as (_ & _ & _ & _ & _ & Hn1 & _).
  rewrite Hn1.
  unfold FourierTransformerEncoderLayer_init in E.
  inv_bind_as E attn Eattn. inv_binds E. injection E as <-.
  cbn [el_attn].
  unfold SimpleAttention_init in Eattn.
  destruct (a_d_model a); try discriminate.
  destruct (a_n_head a); try discriminate.
  destruct (z0 =? 0)%Z; [discriminate|].
  destruct (z mod z0 =? 0)%Z; [|discriminate].
  injection Eattn as <-.
  split; intros ->; reflexivity.
Qed.

Lemma attention_norm_complements_layer_norm_witness :
  exists l,
    FourierTransformerEncoderLayer_init
      (galerkin_args (PInt 1) (PBool false) PNone) = Ok l /\
    a_attn_norm (galerkin_args (PInt 1) (PBool false) PNone) = PNone /\
    a_norm_type (galerkin_args (PInt 1) (PBool false) PNone) = PNone /\
    has_layer (el_layer_norm1 l) = false /\
    lookup_arg "norm" (layer_args (el_attn l)) = PBool true /\
    lookup_arg "norm_type" (layer_args (el_attn l)) = PStr "layer".
Proof.
  destruct (FourierTransformerEncoderLayer_init
              (galerkin_args (PInt 1) (PBool false) PNone)) as [l|e] eqn:E.
  - exists l. split; [reflexivity|]. split; [reflexivity|].
    split; [reflexivity|].
    destruct (attention_norm_complements_layer_norm _ l E) as [Hn Ht].
    assert (Hl : has_layer (el_layer_norm1 l) = false).
    { vm_compute in E. injection E as <-. reflexivity. }
    split; [exact Hl|]. split.
    + rewrite (Hn eq_refl), Hl. reflexivity.
    + exact (Ht eq_refl).
  - exfalso. vm_compute in E. discriminate E.
Defined.

(** ** The torch-style layers and the weight argument *)

Lemma stack_encoder_kind (self : gmap string pyval) (e : encoder_layer)
    (layers : list encoder_layer) :
  stack_encoder self e = Ok layers ->
  forall e', e' ∈ layers -> is_official e' = is_official e.
Proof.
  unfold stack_encoder. intros E. inv_binds E. injection E as <-.
  unfold clone_encoder. intros e' Hin.
  apply list_elem_of_In, in_map_iff in Hin.
  destruct Hin as (i & <- & _). apply is_official_deepcopy.
Qed.

Lemma encoder_loop_official_weight {A : Type} `{Torch A}
    (self : gmap string pyval) (layers : list encoder_layer)
    (pos w1 w2 : option (tensor A)) :
  (forall e, e ∈ layers -> is_official e = true) ->
  forall (x : tensor A) (x_ortho attn_weights : list (tensor A)),
    encoder_loop self layers pos w1 x x_ortho attn_weights
    = encoder_loop self layers pos w2 x x_ortho attn_weights.
Proof.
  induction layers as [|e layers IH]; intros Hall x xo aw.
  - reflexivity.
  - cbn [encoder_loop]. apply rbind_ext. intros raw.
    assert (He : encoder_forward e x pos w1 = encoder_forward e x pos w2).
    { specialize (Hall e (list_elem_of_here _ _)).
      destruct e; [discriminate | reflexivity]. }
    rewrite He. apply rbind_ext. intros [x1 w].
    apply rbind_ext. intros aw1. apply rbind_ext. intros ro.
    apply IH. intros e' He'. apply Hall. apply list_elem_of_further, He'.
Qed.

(** X14.  The torch-style encoder layer takes a [weight] argument and never
    uses it.  So an operator whose encoder stack is made of these layers (a
    1D operator with an attention type outside its list, a 2D operator with
    ['official']) gives the same result whatever mass matrix it is
    called with. *)
Theorem official_layers_ignore_weight {A : Type} (zero : A) `{Torch A}
    (config : gmap string pyval) (node edge pos : tensor A)
    (w1 w2 : option (tensor A)) :
  (forall m grid,
     FourierTransformer_init config = Ok m ->
     py_in_strs (config_get config "attention_type") attention_types_1D
     = false ->
     FourierTransformer_forward m node edge pos grid w1
     = FourierTransformer_forward m node edge pos grid w2) /\
  (forall m grid,
     FourierTransformer2D_init config = Ok m ->
     py_eq_str (config_get config "attention_type") "official" = true ->
     FourierTransformer2D_forward zero m node edge pos grid w1
     = FourierTransformer2D_forward zero m node edge pos grid w2).
Proof.
  split; intros m grid E Hty.
  - destruct (FourierTransformer_init_inv _ _ E) as (Es & _ & Eenc & _).
    assert (Hall : forall e, e ∈ ft_encoder_layers m -> is_official e = true).
    { unfold FourierTransformer_get_encoder in Eenc.
      inv_bind_as Eenc ty Ety. inv_bind_as Eenc e0 Ee0.
      apply getattr_Ok in Ety.
      rewrite (FourierTransformer_get_setting_other _ _ _ _ Es) in Ety
        by not_in_list.
      rewrite configured_attrs_other in Ety by not_in_list.
      unfold config_get in Hty. rewrite Ety in Hty.
      change (py_in_strs ty attention_types_1D = false) in Hty.
      rewrite Hty in Ee0.
      intros e He. rewrite (stack_encoder_kind _ _ _ Eenc e He).
      apply (official_encoder_layer_kind _ _ Ee0). }
    unfold FourierTransformer_forward.
    apply rbind_ext. intros x0. apply rbind_ext. intros keep.
    rewrite (encoder_loop_official_weight _ _ _ w1 w2 Hall). reflexivity.
  - destruct (FourierTransformer2D_init_inv _ _ E)
      as (Es & _ & _ & Eenc & _).
    assert (Hall : forall e, e ∈ ft2_encoder_layers m ->
                             is_official e = true).
    { unfold FourierTransformer2D_get_encoder in Eenc.
      inv_bind_as Eenc ty Ety. inv_bind_as Eenc e0 Ee0.
      apply getattr_Ok in Ety.
      rewrite (FourierTransformer2D_get_setting_other _ _ _ _ Es) in Ety
        by not_in_list.
      rewrite configured_attrs_other in Ety by not_in_list.
      unfold config_get in Hty. rewrite Ety in Hty.
      change (py_eq_str ty "official" = true) in Hty.
      apply py_eq_str_true in Hty. subst ty. simpl in Ee0.
      intros e He. rewrite (stack_encoder_kind _ _ _ Eenc e He).
      apply (official_encoder_layer_kind _ _ Ee0). }
    unfold FourierTransformer2D_forward.
    do 9 (apply rbind_ext; intros ?).
    rewrite (encoder_loop_official_weight _ _ _ w1 w2 Hall). reflexivity.
Qed.

Lemma official_layers_ignore_weight_witness :
  exists m,
    FourierTransformer_init (sample_config "bogus" 96 2) = Ok m /\
    py_in_strs (config_get (sample_config "bogus" 96 2) "attention_type")
      attention_types_1D = false /\
    FourierTransformer_forward m sample_node sample_edge sample_pos None
      None
    = FourierTransformer_forward m sample_node sample_edge sample_pos None
        (Some (Zconst3 1 2 2 7)).
Proof.
  assert (Hok : is_Ok (FourierTransformer_init
                         (sample_config "bogus" 96 2)) = true)
    by (vm_compute; reflexivity).
  destruct (FourierTransformer_init (sample_config "bogus" 96 2))
    as [m|e] eqn:E; [|discriminate Hok].
  exists m. split; [reflexivity|].
  assert (Hty : py_in_strs
                  (config_get (sample_config "bogus" 96 2)
                     "attention_type") attention_types_1D = false)
    by (vm_compute; reflexivity).
  split; [exact Hty|].
  exact (proj1 (official_layers_ignore_weight 0
                  (sample_config "bogus" 96 2) sample_node sample_edge
                  sample_pos None (Some (Zconst3 1 2 2 7)))
           m None E Hty).
Defined.

(** ** Attention maps, snapshots and the frequency prediction *)

(** Every run of the encoder loop that returns has appended one weight map
    per layer when [return_attn_weight] is set, and none otherwise. *)
Lemma encoder_loop_attn {A : Type} `{Torch A} (self : gmap string pyval)
    (layers : list encoder_layer) (pos weight : option (tensor A)) :
  forall (x x' : tensor A) (x_ortho attn_weights x_ortho' attn_weights'
          : list (tensor A)),
  encoder_loop self layers pos weight x x_ortho attn_weights
  = Ok (x', x_ortho', attn_weights') ->
  length attn_weights'
  = (length attn_weights
     + if truthy (attr_or_None self "return_attn_weight")
       then length layers else 0)%nat.
Proof.
  induction layers as [|e layers IH]; intros x x' xo aw xo' aw' E.
  - simpl in E. injection E as <- <- <-.
    destruct (truthy _); simpl; lia.
  - cbn [encoder_loop] in E.
    inv_bind_as E raw Eraw. inv_bind_as E xw Exw. destruct xw as [x1 w].
    inv_bind_as E aw1 Eaw. inv_bind_as E ro Ero.
    apply IH in E. rewrite E.
    apply getattr_Ok in Eraw. unfold attr_or_None. rewrite Eraw. simpl.
    destruct (truthy raw), w; try discriminate; injection Eaw as <-;
      rewrite ?length_app; simpl; lia.
Qed.

(** X15.  In every prediction record the 2D operator returns,
    [preds_ortho] has one snapshot per encoder layer when [return_ortho] is
    set and is empty otherwise, and [attn_weights] has one map per encoder
    layer when [return_attn_weight] is set and is empty otherwise. *)
Theorem prediction2D_lists {A : Type} (zero : A) `{Torch A}
    (m : FourierTransformer2D) (node edge pos grid : tensor A)
    (weight : option (tensor A)) (r : prediction2D A) :
  FourierTransformer2D_forward zero m node edge pos grid weight = Ok r ->
  length (preds_ortho2 r)
  = (if truthy (attr_or_None (ft2_self m) "return_ortho")
     then length (ft2_encoder_layers m) else 0%nat) /\
  length (attn_weights2 r)
  = (if truthy (attr_or_None (ft2_self m) "return_attn_weight")
     then length (ft2_encoder_layers m) else 0%nat).
Proof.
  unfold FourierTransformer2D_forward. intros E.
  inv_bind_as E bsz Ebsz. inv_bind_as E seq_len Eseq.
  inv_bind_as E scaler Escaler. inv_bind_as E node' Enode.
  inv_bind_as E x0 Ex0. inv_bind_as E nh Enh. inv_bind_as E nh' Enh'.
  inv_bind_as E x1 Ex1. inv_bind_as E x2 Ex2.
  inv_bind_as E loop Eloop. destruct loop as [[x3 xo] aw].
  inv_bind_as E x4 Ex4. inv_bind_as E p Ep.
  injection E as <-. cbn [preds_ortho2 attn_weights2].
  split.
  - apply encoder_loop_ortho in Eloop. exact Eloop.
  - apply encoder_loop_attn in Eloop. exact Eloop.
Qed.

Lemma prediction2D_lists_witness :
  exists m r,
    FourierTransformer2D_init (scaler_config PNone) = Ok m /\
    FourierTransformer2D_forward 0 m grid33_node grid33_edge grid33_pos
      grid31_grid None = Ok r /\
    length (preds_ortho2 r) = 0%nat /\
    length (attn_weights2 r) = 0%nat.
Proof.
  assert (Hrun : (let! m := FourierTransformer2D_init (scaler_config PNone) in
                  let! r := FourierTransformer2D_forward 0 m grid33_node
                              grid33_edge grid33_pos grid31_grid None in
                  Ok (truthy (attr_or_None (ft2_self m) "return_ortho"),
                      truthy (attr_or_None (ft2_self m)
                                "return_attn_weight")))
                 = Ok (false, false)) by (vm_compute; reflexivity).
  inv_bind_as Hrun m E. inv_bind_as Hrun r Er. injection Hrun as Hro Hraw.
  exists m, r. split; [exact E|]. split; [exact Er|].
  destruct (prediction2D_lists 0 m _ _ _ _ _ r Er) as [Ho Ha].
  rewrite Ho, Ha, Hro, Hraw. split; reflexivity.
Defined.

(** X16.  In every prediction record the 1D operator returns,
    [attn_weights] has one map per encoder layer when [return_attn_weight]
    is set and is empty otherwise, and [preds_freq] is present exactly when
    [n_freq_targets] is positive. *)
Theorem prediction_weights_and_freq {A : Type} `{Torch A}
    (m : FourierTransformer) (node edge pos : tensor A)
    (grid weight : option (tensor A)) (r : prediction A) :
  FourierTransformer_forward m node edge pos grid weight = Ok r ->
  length (attn_weights r)
  = (if truthy (attr_or_None (ft_self m) "return_attn_weight")
     then length (ft_encoder_layers m) else 0%nat) /\
  py_gt0 (attr_or_None (ft_self m) "n_freq_targets")
  = Ok (has_weight (preds_freq r)).
Proof.
  unfold FourierTransformer_forward. intros E.
  inv_bind_as E x0 Ex0. inv_bind_as E keep Ekeep.
  inv_bind_as E loop Eloop. destruct loop as [[x1 xo] aw].
  inv_bind_as E sr' Esr. inv_bind_as E x2 Ex2.
  inv_bind_as E nfreq Enf. inv_bind_as E wf Ewf.
  inv_bind_as E x_freq Efreq. inv_bind_as E y Ey.
  injection E as <-. cbn [attn_weights preds_freq].
  split.
  - apply encoder_loop_attn in Eloop. exact Eloop.
  - apply getattr_Ok in Enf. unfold attr_or_None. rewrite Enf. simpl.
    rewrite Ewf. f_equal. destruct wf.
    + destruct (ft_freq_regressor m); [|discriminate].
      inv_bind_as Efreq pl Epl. injection Efreq as <-. reflexivity.
    + injection Efreq as <-. reflexivity.
Qed.

Lemma prediction_weights_and_freq_witness :
  exists m r,
    FourierTransformer_init freq_config = Ok m /\
    FourierTransformer_forward m sample_node sample_edge sample_pos None
      None = Ok r /\
    length (attn_weights r) = 2%nat /\
    has_weight (preds_freq r) = true.
Proof.
  assert (Hrun : (let! m := FourierTransformer_init freq_config in
                  let! r := FourierTransformer_forward m sample_node
                              sample_edge sample_pos None None in
                  Ok (truthy (attr_or_None (ft_self m) "return_attn_weight"),
                      length (ft_encoder_layers m),
                      py_gt0 (attr_or_None (ft_self m) "n_freq_targets")))
                 = Ok (true, 2%nat, Ok true)) by (vm_compute; reflexivity).
  inv_bind_as Hrun m E. inv_bind_as Hrun r Er.
  injection Hrun as Hraw Hlen Hpos.
  exists m, r. split; [exact E|]. split; [exact Er|].
  destruct (prediction_weights_and_freq m _ _ _ _ _ r Er) as [Ha Hf].
  split.
  - rewrite Ha, Hraw. exact Hlen.
  - rewrite Hpos in Hf. injection Hf as <-. reflexivity.
Defined.

(** ** Padding, cropping and the grid *)

(** X17.  Cropping the padded tensor gives the tensor back: for a tensor of
    shape [(b, h, w, c)] the zero border added by the pad is exactly what
    the crop [[:, 1:-1, 1:-1]] removes, so shape and entries are those of
    the original. *)
Theorem crop_after_pad {A : Type} (zero : A) (y : tensor A)
    (b h w c : nat) :
  dims y = [b; h; w; c] ->
  exists p y',
    pad_border zero y = Ok p /\
    crop_border p = Ok y' /\
    dims y' = dims y /\
    forall i j k l, (j < h)%nat -> (k < w)%nat ->
      entry y' [i; j; k; l] = entry y [i; j; k; l].
Proof.
  intros Hd.
  destruct (pad_border_spec zero y [b] h w c Hd) as (p & Ep & Hp & Hent).
  destruct (crop_border_spec p b (h + 2) (w + 2) [c] Hp)
    as (y' & Ey' & Hy' & Hent').
  exists p, y'. split; [exact Ep|]. split; [exact Ey'|]. split.
  - rewrite Hy', Hd.
    replace (h + 2 - 2)%nat with h by lia.
    replace (w + 2 - 2)%nat with w by lia. reflexivity.
  - intros i j k l Hj Hk. rewrite Hent'.
    pose proof (Hent [i] (S j) (S k) l eq_refl) as He.
    cbn [app] in He. rewrite He.
    apply Nat.ltb_lt in Hj, Hk. rewrite Hj, Hk. reflexivity.
Qed.

Lemma crop_after_pad_witness :
  dims upscaled33 = [2; 33; 33; 4]%nat /\
  exists p y',
    pad_border 0 upscaled33 = Ok p /\
    crop_border p = Ok y' /\
    dims y' = dims upscaled33 /\
    forall i j k l, (j < 33)%nat -> (k < 33)%nat ->
      entry y' [i; j; k; l] = entry upscaled33 [i; j; k; l].
Proof.
  split; [reflexivity|].
  exact (crop_after_pad 0 upscaled33 2 33 33 4 eq_refl).
Defined.

(** X18.  When the upscaled resolution equals the grid's, nothing is
    cropped: the regressor sees the tensor as it is, and under the
    Dirichlet or unset boundary condition the prediction is one cell larger
    than the grid on every side. *)
Theorem matching_resolution_no_crop {A : Type} (zero : A) `{Torch A}
    (m : FourierTransformer2D) (x grid y : tensor A)
    (b h w c bg n_targets : nat) (grest : list nat)
    (boundary_condition : pyval) :
  dims x = [b; h; w; c] ->
  dims grid = bg :: h :: grest ->
  getattr (ft2_self m) "normalizer" = Ok PNone ->
  getattr (ft2_self m) "boundary_condition" = Ok boundary_condition ->
  pads_border boundary_condition = true ->
  regressor_forward (ft2_regressor m) x (Some grid) = Ok y ->
  dims y = [b; h; w; n_targets] ->
  align_with_grid x grid = Ok x /\
  exists p,
    decode2D zero m x grid = Ok p /\
    dims p = [b; h + 2; w + 2; n_targets]%nat /\
    forall i j k l, (j < h)%nat -> (k < w)%nat ->
      entry p [i; S j; S k; l] = entry y [i; j; k; l].
Proof.
  intros Hx Hg Hnz Hbc Hpad Hreg Hy.
  assert (Ealign : align_with_grid x grid = Ok x).
  { unfold align_with_grid.
    rewrite (size_dims x 1 h) by (rewrite Hx; reflexivity).
    rewrite (size_dims grid 1 h) by (rewrite Hg; reflexivity).
    cbn [rbind]. rewrite Z.eqb_refl. reflexivity. }
  split; [exact Ealign|].
  destruct (pad_border_spec zero y [b] h w n_targets Hy)
    as (p & Ep & Hp & Hent).
  exists p. split; [|split; [exact Hp|]].
  - unfold decode2D. rewrite Ealign. cbn [rbind]. rewrite Hreg.
    cbn [rbind]. rewrite Hnz. cbn [rbind truthy].
    unfold boundary_pad. rewrite Hbc. cbn [rbind].
    unfold pads_border in Hpad. rewrite Hpad. exact Ep.
  - intros i j k l Hj Hk.
    pose proof (Hent [i] (S j) (S k) l eq_refl) as He.
    cbn [app] in He. rewrite He.
    apply Nat.ltb_lt in Hj, Hk. rewrite Hj, Hk. reflexivity.
Qed.

Lemma matching_resolution_no_crop_witness :
  exists m y,
    FourierTransformer2D_init (scaler_config PNone) = Ok m /\
    dims upscaled31 = [2; 31; 31; 4]%nat /\
    dims grid31_grid = [2; 31; 31; 2]%nat /\
    getattr (ft2_self m) "normalizer" = Ok PNone /\
    getattr (ft2_self m) "boundary_condition" = Ok PNone /\
    pads_border PNone = true /\
    regressor_forward (ft2_regressor m) upscaled31 (Some grid31_grid)
    = Ok y /\
    dims y = [2; 31; 31; 1]%nat /\
    align_with_grid upscaled31 grid31_grid = Ok upscaled31 /\
    exists p,
      decode2D 0 m upscaled31 grid31_grid = Ok p /\
      dims p = [2; 33; 33; 1]%nat.
Proof.
  assert (Hrun : (let! m := FourierTransformer2D_init (scaler_config PNone) in
                  let! y := regressor_forward (ft2_regressor m) upscaled31
                              (Some grid31_grid) in
                  Ok (getattr (ft2_self m) "normalizer",
                      getattr (ft2_self m) "boundary_condition",
                      dims y))
                 = Ok (Ok PNone, Ok PNone, [2; 31; 31; 1]%nat))
    by (vm_compute; reflexivity).
  inv_bind_as Hrun m E. inv_bind_as Hrun y Hreg.
  injection Hrun as Hnz Hbc Hy.
  assert (Hx : dims upscaled31 = [2; 31; 31; 4]%nat) by reflexivity.
  assert (Hg : dims grid31_grid = [2; 31; 31; 2]%nat) by reflexivity.
  assert (Hpad : pads_border PNone = true) by reflexivity.
  destruct (matching_resolution_no_crop 0 m upscaled31 grid31_grid y
              2 31 31 4 2 1 [31; 2]%nat PNone Hx Hg Hnz Hbc Hpad Hreg Hy)
    as (Ha & p & Ep & Hp & _).
  exists m, y. split; [exact E|].
  split; [exact Hx|]. split; [exact Hg|]. split; [exact Hnz|].
  split; [exact Hbc|]. split; [exact Hpad|]. split; [exact Hreg|].
  split; [exact Hy|]. split; [exact Ha|].
  exists p. split; [exact Ep | exact Hp].
Defined.

(** ** Downscaled positions *)

Lemma unravel_ravel_3 (b n i j k : nat) :
  (i < b)%nat -> (j < n)%nat -> (k < n)%nat ->
  unravel [b; n; n] (ravel [b; n; n] [i; j; k] 0) = [i; j; k].
Proof.
  intros Hi Hj Hk. unfold unravel. cbn [ravel foldr snd].
  replace (0 * b + i)%nat with i by lia.
  assert (Hn : n <> 0%nat) by lia.
  assert (E1 : (((i * n + j) * n + k) mod n = k)%nat).
  { rewrite Nat.add_comm, Nat.Div0.mod_add. apply Nat.mod_small; lia. }
  assert (E2 : (((i * n + j) * n + k) / n = i * n + j)%nat).
  { rewrite Nat.add_comm, Nat.div_add by lia.
    rewrite Nat.div_small by lia. lia. }
  rewrite E1, E2.
  assert (E3 : ((i * n + j) mod n = j)%nat).
  { rewrite Nat.add_comm, Nat.Div0.mod_add. apply Nat.mod_small; lia. }
  assert (E4 : ((i * n + j) / n = i)%nat).
  { rewrite Nat.add_comm, Nat.div_add by lia.
    rewrite Nat.div_small by lia. lia. }
  rewrite E3, E4. rewrite (Nat.mod_small i b) by lia. reflexivity.
Qed.

(** X19 ([get_pos], model.py 879-891).  For positions laid out on the grid,
    of shape [(bsz, n, n, 2)], and a positive [downsample], [get_pos]
    returns a tensor of shape [(bsz, ceil(n/downsample),
    ceil(n/downsample), 2)] whose entry at [(i, j, k, c)] is the position
    at [(i, j*downsample, k*downsample, c)]: the two coordinates are taken
    apart, thinned and put together again in their order. *)
Theorem get_pos_downsamples {A : Type} (pos : tensor A) (b n : nat)
    (downsample : Z) :
  dims pos = [b; n; n; 2]%nat ->
  0 < downsample ->
  let d := Z.to_nat downsample in
  exists p,
    get_pos pos downsample = Ok p /\
    dims p = [b; (n + d - 1) / d; (n + d - 1) / d; 2]%nat /\
    forall i j k c,
      (i < b)%nat -> (j * d < n)%nat -> (k * d < n)%nat -> (c < 2)%nat ->
      entry p [i; j; k; c] = entry pos [i; (j * d)%nat; (k * d)%nat; c].
Proof.
  intros Hd Hpos d.
  unfold get_pos, size, select_last. rewrite Hd.
  cbn [lookup list_lookup rbind length Nat.sub drop take Nat.ltb Nat.leb].
  rewrite !Nat2Z.id.
  unfold view. cbn [dims].
  rewrite Nat.eqb_refl. cbn [rbind].
  unfold stride_grid.
  destruct (downsample <=? 0)%Z eqn:El; [apply Z.leb_le in El; lia|].
  cbn [dims rbind]. fold d.
  unfold stack_last. cbn [dims].
  rewrite bool_decide_eq_true_2 by reflexivity.
  eexists. split; [reflexivity|]. split; [reflexivity|].
  intros i j k c Hi Hj Hk Hc.
  assert (Hd0 : (0 < d)%nat) by (unfold d; lia).
  assert (Hjn : (j * d < n)%nat) by exact Hj.
  cbn [entry length Nat.sub drop take].
  destruct c as [|[|c]]; [| |lia].
  - rewrite unravel_ravel_3 by lia. reflexivity.
  - rewrite unravel_ravel_3 by lia. reflexivity.
Qed.

Lemma get_pos_downsamples_witness :
  dims grid3_pos = [1; 3; 3; 2]%nat /\
  0 < 2 /\
  exists p,
    get_pos grid3_pos 2 = Ok p /\
    dims p = [1; 2; 2; 2]%nat /\
    entry p [0; 1; 1; 0]%nat = 22 /\
    entry p [0; 1; 0; 1]%nat = -20.
Proof.
  assert (Hd : dims grid3_pos = [1; 3; 3; 2]%nat) by reflexivity.
  assert (Hp : 0 < 2) by lia.
  split; [exact Hd|]. split; [exact Hp|].
  destruct (get_pos_downsamples grid3_pos 1 3 2 Hd Hp) as (p & E & Hs & He).
  exists p. split; [exact E|]. split; [exact Hs|]. split.
  - rewrite (He 0 1 1 0)%nat by (simpl; lia). reflexivity.
  - rewrite (He 0 1 0 1)%nat by (simpl; lia). reflexivity.
Defined.

(** X20 ([get_pos], model.py 879-891).  [get_pos] reads the grid size off
    [pos.size(1)], so it cannot take the positions in the shape the forward
    pass uses, a list of points [(bsz, m, 2)]: with a non-empty batch and
    more than one point the [view(bsz, n_grid, n_grid)] fails.  On
    grid-shaped positions a [downsample] that is not positive is refused
    by the slicing. *)
Theorem get_pos_rejects {A : Type} (pos : tensor A) (b n : nat)
    (downsample : Z) :
  (dims pos = [b; n; 2]%nat -> (0 < b)%nat -> (1 < n)%nat ->
   get_pos pos downsample = Raise RuntimeError) /\
  (dims pos = [b; n; n; 2]%nat -> downsample <= 0 ->
   get_pos pos downsample = Raise ValueError).
Proof.
  split.
  - intros Hd Hb Hn.
    unfold get_pos, size, select_last. rewrite Hd.
    cbn [lookup list_lookup rbind length Nat.sub drop take Nat.ltb Nat.leb].
    rewrite !Nat2Z.id. unfold view. cbn [dims numel foldr].
    destruct (Nat.eqb_spec (b * (n * (n * 1))) (b * (n * 1)))%nat
      as [E|E]; [exfalso; nia | reflexivity].
  - intros Hd Hle.
    unfold get_pos, size, select_last. rewrite Hd.
    cbn [lookup list_lookup rbind length Nat.sub drop take Nat.ltb Nat.leb].
    rewrite !Nat2Z.id. unfold view. cbn [dims].
    rewrite Nat.eqb_refl. cbn [rbind].
    unfold stride_grid.
    destruct (downsample <=? 0)%Z eqn:El; [reflexivity|].
    apply Z.leb_gt in El. lia.
Qed.

Lemma get_pos_rejects_witness :
  dims list9_pos = [1; 9; 2]%nat /\
  dims grid3_pos = [1; 3; 3; 2]%nat /\
  get_pos list9_pos 1 = Raise RuntimeError /\
  get_pos grid3_pos 0 = Raise ValueError.
Proof.
  assert (H1 : dims list9_pos = [1; 9; 2]%nat) by reflexivity.
  assert (H2 : dims grid3_pos = [1; 3; 3; 2]%nat) by reflexivity.
  split; [exact H1|]. split; [exact H2|]. split.
  - apply (proj1 (get_pos_rejects list9_pos 1 9 1) H1); lia.
  - apply (proj2 (get_pos_rejects grid3_pos 1 3 0) H2); lia.
Defined.
